(** * Africa risk score analysis: a shallow embedding and its properties

    The development follows [africa_risk_score_analysis.py] (fetch, filter,
    monthly-to-yearly reduction, the two classifications, the country summary,
    the workbook) and [africa_risk_choropleth.py] (population normalisation).

    Numbers of the analysis script.  Where a value goes (which tier, which
    row, which cell) is proved over exact numbers: a Python number that is
    not NaN is modelled by the rational it denotes (every int and every
    finite float is a rational, the thresholds 2.0, 3.5, 5.0 and 6.5 are
    binary fractions, so every comparison the program makes against them is
    exact), and sums, quotients and [round] are taken exactly.  What the
    yearly average is worth is proved in [Binary64], over Python's ints and
    binary64 floats, with Python's [/] and [round].

    Numbers of the choropleth script.  Its square roots are not rational, so
    its columns hold binary64 floats ([PrimFloat]). *)

From Stdlib Require Import QArith Qround Lqa DecimalString Floats.
From stdpp Require Import gmap strings list fin_maps sorting.

Local Open Scope Q_scope.

(** ** Exceptions and the two monads of the embedding *)

Inductive exn : Type :=
  | KeyError (key : string)
  | TypeError
  | JSONDecodeError
  | IndexError
  | ConnectionError
  | ApiRequestFailed (status_code : Z)
  | OverflowError
  | ZeroDivisionError
  | ValueError
  | ImportError
  | OSError.

Inductive result (A : Type) : Type :=
  | Ok (a : A)
  | Raise (e : exn).
Arguments Ok {A} a.
Arguments Raise {A} e.

#[global] Instance result_ret : MRet result := λ A a, Ok a.
#[global] Instance result_bind : MBind result := λ A B f m,
  match m with Ok a => f a | Raise e => Raise e end.

(** [Py S A]: a computation over a mutable state [S] that returns an [A] or
    raises; the state reached when the exception was raised is kept. *)
Definition Py (S A : Type) : Type := S → result A * S.

#[global] Instance py_ret {S} : MRet (Py S) := λ A a s, (Ok a, s).
#[global] Instance py_bind {S} : MBind (Py S) := λ A B f m s,
  match m s with
  | (Ok a, s') => f a s'
  | (Raise e, s') => (Raise e, s')
  end.

Definition is_Ok {A} (r : result A) : bool :=
  match r with Ok _ => true | Raise _ => false end.

Definition lift {S A} (r : result A) : Py S A := λ s, (r, s).
Definition raise {S A} (e : exn) : Py S A := λ s, (Raise e, s).
Definition gets {S A} (f : S → A) : Py S A := λ s, (Ok (f s), s).
Definition modify {S} (f : S → S) : Py S unit := λ s, (Ok tt, f s).

(** [for x in xs: body x] over the elements the list had when the loop
    started. *)
Fixpoint for_each {S A} (xs : list A) (body : A → Py S unit) : Py S unit :=
  match xs with
  | [] => mret tt
  | x :: xs' => body x;; for_each xs' body
  end.

(** ** Numbers *)

(** A value of a numeric JSON field or of a float column: [None] (JSON null),
    NaN, or a number. *)
Inductive score : Type :=
  | PyNone
  | NaN
  | Num (q : Q).

#[global] Instance score_inhabited : Inhabited score := populate PyNone.

Definition Qltb (x y : Q) : bool :=
  match Qcompare x y with Lt => true | _ => false end.

Definition is_None (x : score) : bool :=
  match x with PyNone => true | _ => false end.

(** [pd.isna] *)
Definition pd_isna (x : score) : bool :=
  match x with Num _ => false | _ => true end.

(** [bool(x)]: None, 0 and 0.0 are falsy, NaN is truthy. *)
Definition truthy (x : score) : bool :=
  match x with
  | PyNone => false
  | NaN => true
  | Num q => negb (Qeq_bool q 0)
  end.

(** [x or y] *)
Definition py_or (x y : score) : score := if truthy x then x else y.

(** [x < y], [x > y]: comparing None with a number raises; any comparison
    with NaN is false. *)
Definition py_lt (x y : score) : result bool :=
  match x, y with
  | PyNone, _ | _, PyNone => Raise TypeError
  | NaN, _ | _, NaN => Ok false
  | Num a, Num b => Ok (Qltb a b)
  end.

Definition py_gt (x y : score) : result bool := py_lt y x.

(** [x + y], [x / y] *)
Definition py_add (x y : score) : result score :=
  match x, y with
  | PyNone, _ | _, PyNone => Raise TypeError
  | NaN, _ | _, NaN => Ok NaN
  | Num a, Num b => Ok (Num (a + b))
  end.

(** The divisors of the program are the literals 12 and [len(INCLUDED_HAZARDS)],
    never zero. *)
Definition py_div (x : score) (d : Q) : result score :=
  match x with
  | PyNone => Raise TypeError
  | NaN => Ok NaN
  | Num a => Ok (Num (a / d))
  end.

(** [sum(xs)]: starts from the int 0 and adds from the left. *)
Definition py_sum (xs : list score) : result score :=
  foldl (λ acc x, a ← acc; py_add a x) (Ok (Num 0)) xs.

(** [max(xs)] on a non-empty list: keeps the first item and replaces it by
    every later item that compares greater. *)
Definition py_max (xs : list score) : result score :=
  match xs with
  | [] => Raise TypeError
  | x :: rest =>
      foldl (λ acc item, m ← acc; b ← py_gt item m; mret (if b : bool then item else m))
            (Ok x) rest
  end.

(** Rounding to the nearest integer, ties to the even one. *)
Definition round_half_even (q : Q) : Z :=
  let f := Qfloor q in
  match Qcompare (q - inject_Z f) (1 # 2) with
  | Lt => f
  | Gt => (f + 1)%Z
  | Eq => if Z.even f then f else (f + 1)%Z
  end.

(** [round(x, ndigits)] *)
Definition py_round (x : score) (ndigits : nat) : result score :=
  match x with
  | PyNone => Raise TypeError
  | NaN => Ok NaN
  | Num q =>
      let scale := Z.to_pos (10 ^ Z.of_nat ndigits) in
      Ok (Num (round_half_even (q * inject_Z (Z.pos scale)) # scale))
  end.

(** Equality of values up to the representation of a rational. *)
Definition score_eq (x y : score) : Prop :=
  match x, y with
  | PyNone, PyNone | NaN, NaN => True
  | Num a, Num b => a == b
  | _, _ => False
  end.

(** ** The two classifications *)

Definition categorize_go_platform (score : score) : result (Z * string) :=
  if is_None score || pd_isna score then mret (0%Z, "No Data")
  else
    b ← py_lt score (Num 2.0);
    if b : bool then mret (1%Z, "Very Low")
    else
      b ← py_lt score (Num 3.5);
      if b : bool then mret (2%Z, "Low")
      else
        b ← py_lt score (Num 5.0);
        if b : bool then mret (3%Z, "Medium")
        else
          b ← py_lt score (Num 6.5);
          if b : bool then mret (4%Z, "High")
          else mret (5%Z, "Very High").

Definition categorize_inform (score : score) : result string :=
  if is_None score || pd_isna score then mret "No Data"
  else
    b ← py_lt score (Num 2.0);
    if b : bool then mret "Very Low"
    else
      b ← py_lt score (Num 3.5);
      if b : bool then mret "Low"
      else
        b ← py_lt score (Num 5.0);
        if b : bool then mret "Medium"
        else
          b ← py_lt score (Num 6.5);
          if b : bool then mret "High"
          else mret "Very High".

(** ** API records *)

(** [record['country_details']]: both keys are read with [[...]]. *)
Record country_details_t : Type := {
  name : string;
  iso3 : string;
}.

(** One element of the API's [results] list.  The keys read with [[...]]
    are fields; [fields] holds the numeric keys the program reads with
    [.get] (the twelve months, [yearly_sum], [lcc], [vulnerability],
    [population_in_thousands]), each absent, null or a number. *)
Record record : Type := {
  country_details : country_details_t;
  hazard_type_display : string;
  fields : gmap string score;
}.

(** [d.get(key, default)] *)
Definition dict_get {V} (d : gmap string V) (key : string) (default : V) : V :=
  match d !! key with Some v => v | None => default end.

Definition INCLUDED_HAZARDS : list string := ["Drought"; "Flood"; "Wildfire"].

(** ** The outside world of the fetch and filter steps *)

Record response : Type := {
  status_code : Z;
  (** what [response.json()] gives: [None] when the body is not JSON,
      otherwise the keys [count] and [results] of the decoded object, each
      present or not *)
  json : option (option Z * option (list record));
}.

Inductive output : Type :=
  | PrintFetching (url : string)
  | PrintFetched (count : Z)
  | PrintFiltered (hazard_types : list string) (n : nat).

Record world : Type := {
  (** the remote server: what [requests.get url] returns or raises *)
  remote : string → result response;
  (** the GET requests made so far, oldest first *)
  requests : list string;
  (** the lines printed so far, oldest first *)
  stdout : list output;
}.

Definition print (o : output) : Py world unit :=
  modify (λ w, {| remote := remote w; requests := requests w;
                  stdout := stdout w ++ [o] |}).

Definition requests_get (url : string) : Py world response :=
  λ w, (remote w url,
        {| remote := remote w; requests := requests w ++ [url];
           stdout := stdout w |}).

Definition str_of_int (z : Z) : string :=
  NilZero.string_of_int (Z.to_int z).

(** The f-string of [fetch_risk_scores]. *)
Definition risk_score_url (region limit : Z) : string :=
  "https://go-risk.northeurope.cloudapp.azure.com/api/v1/risk-score/?region="
    +:+ str_of_int region +:+ "&limit=" +:+ str_of_int limit.

Definition fetch_risk_scores (region limit : Z) : Py world (list record) :=
  let url := risk_score_url region limit in
  print (PrintFetching url);;
  response ← requests_get url;
  if bool_decide (status_code response ≠ 200%Z)
  then raise (ApiRequestFailed (status_code response))
  else
    data ← lift (match json response with
                 | Some d => Ok d
                 | None => Raise JSONDecodeError
                 end);
    count ← lift (match data.1 with
                  | Some c => Ok c
                  | None => Raise (KeyError "count")
                  end);
    print (PrintFetched count);;
    lift (match data.2 with
          | Some rs => Ok rs
          | None => Raise (KeyError "results")
          end).

Definition default_region : Z := 0.
Definition default_limit : Z := 9999.

(** [hazard_types=None] is [None]; the default is resolved in the body. *)
Definition filter_by_hazard_type (results : list record)
    (hazard_types : option (list string)) : Py world (list record) :=
  let hazard_types :=
    match hazard_types with None => INCLUDED_HAZARDS | Some hs => hs end in
  let filtered_results :=
    filter (λ record, hazard_type_display record ∈ hazard_types) results in
  print (PrintFiltered hazard_types (length filtered_results));;
  mret filtered_results.

(** ** Fetching both regions *)

Definition NORTH_AFRICA_COUNTRIES : list string :=
  ["Morocco"; "Tunisia"; "Algeria"; "Libya"; "Egypt"].

(** A line of the transcript of [fetch_all_africa_data]: one printed by a
    function it calls, or one of its own. *)
Inductive line : Type :=
  | FromCallee (o : output)
  | HeaderSubSaharan
  | CountSubSaharan (n : nat)
  | HeaderNorthAfrica
  | CountNorthBefore (n : nat)
  | CountNorthAfter (countries : list string) (n : nat)
  | CountTotal (n : nat).

(** The world as [fetch_all_africa_data] sees it: the server, the requests
    sent and all the lines printed, oldest first. *)
Record session : Type := {
  net : string → result response;
  sent : list string;
  lines : list line;
}.

(** A call of a function of the [world]: its requests and its lines are
    added, in order, to those of the session. *)
Definition call {A} (c : Py world A) : Py session A := λ s,
  let out := c {| remote := net s; requests := sent s; stdout := [] |} in
  (out.1, {| net := remote out.2; sent := requests out.2;
             lines := lines s ++ (FromCallee <$> stdout out.2) |}).

Definition say (l : line) : Py session unit :=
  modify (λ s, {| net := net s; sent := sent s; lines := lines s ++ [l] |}).

Definition fetch_all_africa_data : Py session (list record) :=
  say HeaderSubSaharan;;
  sub_saharan_results ← call (fetch_risk_scores 0 default_limit);
  say (CountSubSaharan (length sub_saharan_results));;
  say HeaderNorthAfrica;;
  north_africa_results ← call (fetch_risk_scores 4 default_limit);
  say (CountNorthBefore (length north_africa_results));;
  let filtered_north_africa :=
    filter (λ record, name (country_details record) ∈ NORTH_AFRICA_COUNTRIES)
           north_africa_results in
  say (CountNorthAfter NORTH_AFRICA_COUNTRIES (length filtered_north_africa));;
  let all_africa_results := sub_saharan_results ++ filtered_north_africa in
  say (CountTotal (length all_africa_results));;
  mret all_africa_results.

(** ** Monthly-to-yearly reduction *)

(** [str.upper] on ASCII text: the letters a to z become A to Z and every
    other character is kept.  The upper case of other characters is not
    modelled. *)
Definition upper_char (c : Ascii.ascii) : Ascii.ascii :=
  let n := Ascii.N_of_ascii c in
  if ((97 <=? n) && (n <=? 122))%N then Ascii.ascii_of_N (n - 32) else c.

Fixpoint upper (s : string) : string :=
  match s with
  | EmptyString => EmptyString
  | String c s' => String (upper_char c) (upper s')
  end.

(** One dict of [processed_data], one row of the detailed table. *)
Record processed_row : Type := {
  Country : string;
  ISO3 : string;
  Hazard_Type : string;
  January : score;
  February : score;
  March : score;
  April : score;
  May : score;
  June : score;
  July : score;
  August : score;
  September : score;
  October : score;
  November : score;
  December : score;
  Yearly_Sum : score;
  Yearly_Average : score;
  Peak_Month_Score : score;
  GO_Category_Num : Z;
  GO_Category : string;
  INFORM_Category : string;
  Peak_GO_Num : Z;
  Peak_GO_Category : string;
  Peak_INFORM_Category : string;
  LCC : score;
  Vulnerability : score;
  Population_Thousands : score;
}.

Definition months : list string :=
  ["january"; "february"; "march"; "april"; "may"; "june";
   "july"; "august"; "september"; "october"; "november"; "december"].

Definition monthly_scores_of (record : record) : list score :=
  (λ month, py_or (dict_get (fields record) month (Num 0)) (Num 0)) <$> months.

(** [record.get('yearly_sum', sum(monthly_scores))]: the default is computed
    before the lookup. *)
Definition yearly_sum_of (record : record) : result score :=
  s ← py_sum (monthly_scores_of record);
  mret (dict_get (fields record) "yearly_sum" s).

(** [yearly_sum / 12 if yearly_sum else 0] *)
Definition yearly_avg_of (yearly_sum : score) : result score :=
  if truthy yearly_sum then py_div yearly_sum 12 else mret (Num 0).

(** The body of the loop of [process_risk_data], up to the [append]. *)
Definition process_record (record : record) : result processed_row :=
  let country_name := name (country_details record) in
  let country_iso3 := upper (iso3 (country_details record)) in
  let hazard_type := hazard_type_display record in
  let monthly_scores := monthly_scores_of record in
  yearly_sum ← yearly_sum_of record;
  yearly_avg ← yearly_avg_of yearly_sum;
  peak_month_score ←
    match monthly_scores with
    | [] => mret (Num 0)
    | _ => py_max monthly_scores
    end;
  go ← categorize_go_platform yearly_avg;
  inform_category ← categorize_inform yearly_avg;
  peak_go ← categorize_go_platform peak_month_score;
  peak_inform ← categorize_inform peak_month_score;
  let lcc := dict_get (fields record) "lcc" (Num 0) in
  let vulnerability := dict_get (fields record) "vulnerability" (Num 0) in
  let population := dict_get (fields record) "population_in_thousands" (Num 0) in
  yearly_sum_2 ← py_round yearly_sum 2;
  yearly_avg_2 ← py_round yearly_avg 2;
  peak_month_score_2 ← py_round peak_month_score 2;
  mret {|
    Country := country_name;
    ISO3 := country_iso3;
    Hazard_Type := hazard_type;
    January := monthly_scores !!! 0%nat;
    February := monthly_scores !!! 1%nat;
    March := monthly_scores !!! 2%nat;
    April := monthly_scores !!! 3%nat;
    May := monthly_scores !!! 4%nat;
    June := monthly_scores !!! 5%nat;
    July := monthly_scores !!! 6%nat;
    August := monthly_scores !!! 7%nat;
    September := monthly_scores !!! 8%nat;
    October := monthly_scores !!! 9%nat;
    November := monthly_scores !!! 10%nat;
    December := monthly_scores !!! 11%nat;
    Yearly_Sum := yearly_sum_2;
    Yearly_Average := yearly_avg_2;
    Peak_Month_Score := peak_month_score_2;
    GO_Category_Num := go.1;
    GO_Category := go.2;
    INFORM_Category := inform_category;
    Peak_GO_Num := peak_go.1;
    Peak_GO_Category := peak_go.2;
    Peak_INFORM_Category := peak_inform;
    LCC := lcc;
    Vulnerability := vulnerability;
    Population_Thousands := population;
  |}.

(** The objects [process_risk_data] can reach: the caller's list and its own
    accumulator. *)
Record prd_frame : Type := {
  results : list record;
  processed_data : list processed_row;
}.

Definition processed_data_append (row : processed_row) : Py prd_frame unit :=
  modify (λ f, {| results := results f;
                  processed_data := processed_data f ++ [row] |}).

(** One turn of the loop. *)
Definition process_step (record : record) : Py prd_frame unit :=
  row ← lift (process_record record);
  processed_data_append row.

Definition process_risk_data_body : Py prd_frame (list processed_row) :=
  modify (λ f, {| results := results f; processed_data := [] |});;
  rs ← gets results;
  for_each rs process_step;;
  gets processed_data.

(** The call [process_risk_data(results)]: what it returns or raises, and
    what the caller's list holds afterwards. *)
Definition process_risk_data (arg : list record)
    : result (list processed_row) * list record :=
  let out := process_risk_data_body {| results := arg; processed_data := [] |} in
  (out.1, results out.2).

(** ** Country summary *)

(** A cell of a summary row: a string, an int or a number. *)
Inductive cell : Type :=
  | CStr (s : string)
  | CInt (z : Z)
  | CNum (x : score).

(** The number a cell holds, for [sum]. *)
Definition cell_number (c : cell) : result score :=
  match c with
  | CStr _ => Raise TypeError
  | CInt z => Ok (Num (inject_Z z))
  | CNum x => Ok x
  end.

(** [Series.unique()]: the distinct values in order of first appearance. *)
Definition unique (l : list string) : list string :=
  foldl (λ seen x, if decide (x ∈ seen) then seen else seen ++ [x]) [] l.

(** [sorted] on strings: ascending in the order of [str], which compares
    code points (on UTF-8 bytes, the same order).  The order is total and
    antisymmetric, so the sorted list does not depend on the algorithm. *)
Definition sorted (l : list string) : list string := merge_sort String.le l.

(** The body of [for hazard in INCLUDED_HAZARDS]. *)
Definition add_hazard (country_data : list processed_row)
    (row : gmap string cell) (hazard : string) : gmap string cell :=
  let hazard_row :=
    filter (λ r, Hazard_Type r = hazard) country_data in
  match hazard_row with
  | first :: _ =>
      <[hazard +:+ "_INFORM" := CStr (INFORM_Category first)]>
      (<[hazard +:+ "_GO_Cat" := CStr (GO_Category first)]>
      (<[hazard +:+ "_GO_Num" := CInt (GO_Category_Num first)]>
      (<[hazard +:+ "_Peak" := CNum (Peak_Month_Score first)]>
      (<[hazard +:+ "_Avg" := CNum (Yearly_Average first)]>
      (<[hazard +:+ "_Sum" := CNum (Yearly_Sum first)]> row)))))
  | [] =>
      <[hazard +:+ "_INFORM" := CStr "No Data"]>
      (<[hazard +:+ "_GO_Cat" := CStr "No Data"]>
      (<[hazard +:+ "_GO_Num" := CInt 0]>
      (<[hazard +:+ "_Peak" := CNum (Num 0)]>
      (<[hazard +:+ "_Avg" := CNum (Num 0)]>
      (<[hazard +:+ "_Sum" := CNum (Num 0)]> row)))))
  end.

(** The body of [for country in sorted(countries)], up to the [append]. *)
Definition summary_row (df : list processed_row) (country : string)
    : result (gmap string cell) :=
  let country_data := filter (λ r, Country r = country) df in
  first ← match country_data with
          | first :: _ => Ok first
          | [] => Raise IndexError
          end;
  let row : gmap string cell :=
    <["Vulnerability" := CNum (Vulnerability first)]>
    (<["LCC" := CNum (LCC first)]>
    (<["Population_Thousands" := CNum (Population_Thousands first)]>
    (<["ISO3" := CStr (ISO3 first)]>
    (<["Country" := CStr country]> ∅)))) in
  let row := foldl (add_hazard country_data) row INCLUDED_HAZARDS in
  hazard_avgs ←
    mapM (λ h, cell_number (dict_get row (h +:+ "_Avg") (CInt 0)))
         INCLUDED_HAZARDS;
  total ← py_sum hazard_avgs;
  total_avg ← py_div total (inject_Z (Z.of_nat (length INCLUDED_HAZARDS)));
  overall_avg ← py_round total_avg 2;
  let row := <["Overall_Avg" := CNum overall_avg]> row in
  go ← categorize_go_platform total_avg;
  let row := <["Overall_GO_Num" := CInt go.1]> row in
  let row := <["Overall_GO_Cat" := CStr go.2]> row in
  inform ← categorize_inform total_avg;
  let row := <["Overall_INFORM" := CStr inform]> row in
  mret row.

(** The objects [create_summary_by_country] can reach: the caller's table
    and its own accumulator. *)
Record csc_frame : Type := {
  df : list processed_row;
  summary_data : list (gmap string cell);
}.

Definition summary_data_append (row : gmap string cell) : Py csc_frame unit :=
  modify (λ f, {| df := df f; summary_data := summary_data f ++ [row] |}).

(** One turn of the loop over the countries. *)
Definition summary_step (country : string) : Py csc_frame unit :=
  table ← gets df;
  row ← lift (summary_row table country);
  summary_data_append row.

Definition create_summary_by_country_body
    : Py csc_frame (list (gmap string cell)) :=
  modify (λ f, {| df := df f; summary_data := [] |});;
  countries ← gets (λ f, unique (Country <$> df f));
  for_each (sorted countries) summary_step;;
  gets summary_data.

(** The call [create_summary_by_country(df)]: the rows of the table it
    returns, or what it raises, and what the caller's table holds
    afterwards. *)
Definition create_summary_by_country (arg : list processed_row)
    : result (list (gmap string cell)) * list processed_row :=
  let out := create_summary_by_country_body {| df := arg; summary_data := [] |} in
  (out.1, df out.2).

(** ** The workbook ([export_to_excel])

    A workbook is the list of its sheets in the order they are written,
    each with its name and its table.  The tables are the summary, tables
    of detailed rows, and the two tables the function builds from a dict of
    columns.  The text of a string is its UTF-8 bytes. *)
Inductive sheet_data : Type :=
  | SummaryRows (rows : list (gmap string cell))
  | DetailedRows (rows : list processed_row)
  | Columns (data : list (string * list cell)).

Definition workbook : Type := list (string * sheet_data).

Inductive notice : Type :=
  | PrintSaved (output_path : string).

Record desk : Type := {
  (** the spreadsheet files, by path *)
  files : gmap string workbook;
  (** the lines printed so far, oldest first *)
  notices : list notice;
  (** what goes wrong when a workbook is written at a path: nothing, or the
      exception raised (the path cannot be opened, a sheet is refused, the
      save fails) and what the path holds afterwards, a workbook or no
      readable file *)
  failure : string → workbook → option (exn * option workbook);
}.

(** [df.to_excel(writer, sheet_name=..., index=False)] *)
Definition to_excel (writer : workbook) (sheet_name : string)
    (data : sheet_data) : workbook :=
  writer ++ [(sheet_name, data)].

Definition classification_data : list (string * list cell) :=
  [("Score_Range",
    CStr <$> ["0.0 - 2.0"; "2.0 - 3.5"; "3.5 - 5.0"; "5.0 - 6.5";
              "6.5 - 10.0"]);
   ("GO_Platform_Number", CInt <$> [1; 2; 3; 4; 5]%Z);
   ("GO_Platform_Category",
    CStr <$> ["Very Low"; "Low"; "Medium"; "High"; "Very High"]);
   ("INFORM_Category",
    CStr <$> ["Very Low"; "Low"; "Medium"; "High"; "Very High"]);
   ("Description",
    CStr <$> ["Minimal seasonal hazard risk";
              "Low seasonal hazard risk - some monitoring needed";
              "Moderate seasonal hazard risk - preparedness recommended";
              "Significant seasonal hazard risk - action required";
              "Severe seasonal hazard risk - immediate attention needed"])].

Definition methodology_data : list (string * list cell) :=
  [("Metric",
    CStr <$> ["Monthly Score"; "Yearly Sum"; "Yearly Average";
              "Peak Month Score"; "GO Classification";
              "INFORM Classification"]);
   ("Formula",
    CStr <$> ["Direct from API (0-10 scale)";
              "Sum of 12 monthly scores";
              "Yearly Sum ÷ 12";
              "Maximum of 12 monthly scores";
              "Based on Yearly Average (1-5 scale)";
              "Based on Yearly Average (text labels)"]);
   ("Example",
    CStr <$> ["January: 4.1";
              "4.1+3.9+4.1+...= 47.5";
              "47.5 ÷ 12 = 3.96";
              "max(4.1, 3.9, 4.2...) = 4.2";
              "3.96 → Category 3 (Medium)";
              "3.96 → Medium"]);
   ("Purpose",
    CStr <$> ["Risk level for specific month";
              "Cumulative annual exposure";
              "Average monthly risk level (USED FOR CLASSIFICATION)";
              "Worst-case monthly risk";
              "Matches GO platform display";
              "Standard INFORM terminology"])].

(** [detailed_df[detailed_df['Hazard_Type'] == hazard]] *)
Definition hazard_df (detailed_df : list processed_row) (hazard : string)
    : list processed_row :=
  filter (λ row, Hazard_Type row = hazard) detailed_df.

(** Writing the workbook of the writer at [output_path], in place of a file
    that was there. *)
Definition save (output_path : string) (writer : workbook) : Py desk unit :=
  λ d,
    match failure d output_path writer with
    | None =>
        (Ok tt, {| files := <[output_path := writer]> (files d);
                   notices := notices d; failure := failure d |})
    | Some (e, remains) =>
        (Raise e,
         {| files := match remains with
                     | Some book => <[output_path := book]> (files d)
                     | None => delete output_path (files d)
                     end;
            notices := notices d; failure := failure d |})
    end.

(** The [with] block fills the writer and the file is written with what it
    holds; when that raises, the line after the block is not printed. *)
Definition export_to_excel (detailed_df : list processed_row)
    (summary_df : list (gmap string cell)) (output_path : string)
    : Py desk unit :=
  let writer := [] in
  let writer := to_excel writer "Country_Summary" (SummaryRows summary_df) in
  let writer :=
    to_excel writer "Detailed_Monthly" (DetailedRows detailed_df) in
  let writer :=
    foldl (λ writer hazard,
             to_excel writer hazard
               (DetailedRows (hazard_df detailed_df hazard)))
          writer INCLUDED_HAZARDS in
  let writer :=
    to_excel writer "Classification_Reference" (Columns classification_data) in
  let writer := to_excel writer "Methodology" (Columns methodology_data) in
  save output_path writer;;
  modify (λ d, {| files := files d;
                  notices := notices d ++ [PrintSaved output_path];
                  failure := failure d |}).

(** ** Population normalisation ([africa_risk_choropleth.py])

    The script reads the summary back from the spreadsheet and works on
    whole columns with numpy, whose float64 arithmetic is the binary64
    arithmetic of [PrimFloat]: square root and division are correctly
    rounded, and a missing value is NaN. *)

(** A cell of an object column: a string, or the NaN of a missing value. *)
Inductive xcell : Type :=
  | XStr (s : string)
  | XNum (x : float).

(** A column: float64 or object.  An int64 column of the sheet is taken by
    its values, which numpy converts to float64 before it takes a root or a
    quotient. *)
Inductive column : Type :=
  | NumCol (xs : list float)
  | ObjCol (xs : list xcell).

Definition col_length (c : column) : nat :=
  match c with NumCol xs => length xs | ObjCol xs => length xs end.

(** The cell of a column at a position. *)
Definition col_cell (c : column) (i : nat) : option xcell :=
  match c with
  | NumCol xs => XNum <$> xs !! i
  | ObjCol xs => xs !! i
  end.

(** [df[key]] *)
Definition getitem (df : gmap string column) (key : string) : result column :=
  match df !! key with
  | Some c => Ok c
  | None => Raise (KeyError key)
  end.

(** [np.sqrt(col)] *)
Definition np_sqrt (c : column) : result column :=
  match c with
  | NumCol xs => Ok (NumCol (PrimFloat.sqrt <$> xs))
  | ObjCol _ => Raise TypeError
  end.

(** [a / b] on two columns of one table. *)
Definition col_div (a b : column) : result column :=
  match a, b with
  | NumCol xs, NumCol ys => Ok (NumCol (zip_with PrimFloat.div xs ys))
  | _, _ => Raise TypeError
  end.

Definition two52 : float := 4503599627370496%float.

(** [rint]: the nearest integer, ties to even.  Below 2^52 in magnitude,
    adding and subtracting 2^52 rounds to an integer; from 2^52 on every
    float is an integer. *)
Definition rint (y : float) : float :=
  if PrimFloat.ltb (PrimFloat.abs y) two52 then
    if PrimFloat.ltb y 0%float
    then PrimFloat.opp
           (PrimFloat.sub (PrimFloat.add (PrimFloat.opp y) two52) two52)
    else if PrimFloat.eqb y 0%float then y
    else PrimFloat.sub (PrimFloat.add y two52) two52
  else y.

(** [np.round(x, decimals)]: multiply by [10**decimals], [rint], divide. *)
Definition np_round (decimals : nat) (x : float) : float :=
  let scale := Nat.iter decimals (λ s, PrimFloat.mul s 10%float) 1%float in
  PrimFloat.div (rint (PrimFloat.mul x scale)) scale.

(** [col.round(decimals)] *)
Definition col_round (decimals : nat) (c : column) : result column :=
  match c with
  | NumCol xs => Ok (NumCol (np_round decimals <$> xs))
  | ObjCol _ => Raise TypeError
  end.

(** [col.notna()] *)
Definition notna (c : column) : list bool :=
  match c with
  | NumCol xs => (λ x, negb (PrimFloat.is_nan x)) <$> xs
  | ObjCol xs =>
      (λ v, match v with
            | XStr _ => true
            | XNum x => negb (PrimFloat.is_nan x)
            end) <$> xs
  end.

(** [col != s] for a string [s] *)
Definition col_ne (c : column) (s : string) : list bool :=
  match c with
  | NumCol xs => (λ _, true) <$> xs
  | ObjCol xs =>
      (λ v, match v with
            | XStr t => negb (String.eqb t s)
            | XNum _ => true
            end) <$> xs
  end.

(** [mask.nonzero()]: the positions that hold True, ascending. *)
Definition nonzero (mask : list bool) : list nat :=
  filter (λ i, mask !! i = Some true) (seq 0 (length mask)).

(** [take]: the entries at the positions of the indexer. *)
Definition take {A} (indexer : list nat) (xs : list A) : list A :=
  omap (λ i, xs !! i) indexer.

Definition col_take (indexer : list nat) (c : column) : column :=
  match c with
  | NumCol xs => NumCol (take indexer xs)
  | ObjCol xs => ObjCol (take indexer xs)
  end.

(** [df[mask]] for a Boolean mask: the rows at the positions where the mask
    holds True. *)
Definition getitem_mask (df : gmap string column) (mask : list bool)
    : gmap string column :=
  col_take (nonzero mask) <$> df.

(** [viz_df[target] = (viz_df[avg] / viz_df['Pop_Sqrt']).round(4)] *)
Definition add_norm (viz_df : gmap string column) (target avg : string)
    : result (gmap string column) :=
  a ← getitem viz_df avg;
  pop_sqrt ← getitem viz_df "Pop_Sqrt";
  quotient ← col_div a pop_sqrt;
  rounded ← col_round 4 quotient;
  mret (<[target := rounded]> viz_df).

(** [load_and_normalize_data], from the table [pd.read_excel] returned to
    the table it returns. *)
Definition load_and_normalize_data (summary_df : gmap string column)
    : result (gmap string column) :=
  let viz_df := summary_df in
  population ← getitem viz_df "Population_Thousands";
  pop_sqrt ← np_sqrt population;
  let viz_df := <["Pop_Sqrt" := pop_sqrt]> viz_df in
  viz_df ← add_norm viz_df "Drought_Norm" "Drought_Avg";
  viz_df ← add_norm viz_df "Flood_Norm" "Flood_Avg";
  viz_df ← add_norm viz_df "Overall_Norm" "Overall_Avg";
  iso3 ← getitem viz_df "ISO3";
  let mask := zip_with andb (notna iso3) (col_ne iso3 "") in
  mret (getitem_mask viz_df mask).

(** ** The arithmetic of the analysis script in binary64

    The same loop body once more, with the numbers as Python holds them: an
    int of any size or a binary64 float.  [/], [round], the comparisons and
    the truth value of a number are Python's.  The built-in [sum] is a
    parameter: how it adds floats is the interpreter's (CPython adds them
    from the left up to 3.11 and with a compensated sum from 3.12 on), and
    no property below depends on it. *)
Module Binary64.

(** A value of a numeric JSON field: [None] (null), an int, or a float with
    its two zeros, its infinities and NaN. *)
Inductive value : Type :=
  | PyNone
  | PyInt (z : Z)
  | PyFloat (x : float).

#[global] Instance value_inhabited : Inhabited value := populate PyNone.

(** The number an int or a float stands for; NaN stands for none. *)
Inductive real : Type :=
  | MinusInfinity
  | Finite (q : Q)
  | PlusInfinity.

Definition real_of_float (x : float) : option real :=
  match Prim2SF x with
  | S754_nan => None
  | S754_infinity s => Some (if s then MinusInfinity else PlusInfinity)
  | S754_zero _ => Some (Finite 0)
  | S754_finite s m e =>
      let q := inject_Z (Z.pos m) * 2 ^ e in
      Some (Finite (if s then - q else q))
  end.

Definition number (v : value) : result (option real) :=
  match v with
  | PyNone => Raise TypeError
  | PyInt z => Ok (Some (Finite (inject_Z z)))
  | PyFloat x => Ok (real_of_float x)
  end.

Definition real_ltb (a b : real) : bool :=
  match a, b with
  | _, MinusInfinity | PlusInfinity, _ => false
  | MinusInfinity, _ | _, PlusInfinity => true
  | Finite x, Finite y => Qltb x y
  end.

(** [x < y], [x > y]: the comparison of the two numbers, exact also between
    an int and a float; false when either is NaN; comparing None raises. *)
Definition py_lt (x y : value) : result bool :=
  a ← number x;
  b ← number y;
  mret (match a, b with
        | Some a, Some b => real_ltb a b
        | _, _ => false
        end).

Definition py_gt (x y : value) : result bool := py_lt y x.

Definition is_None (x : value) : bool :=
  match x with PyNone => true | _ => false end.

(** [pd.isna] *)
Definition pd_isna (x : value) : bool :=
  match x with
  | PyNone => true
  | PyInt _ => false
  | PyFloat x => PrimFloat.is_nan x
  end.

(** [bool(x)]: None, 0, 0.0 and -0.0 are falsy, NaN is truthy. *)
Definition truthy (x : value) : bool :=
  match x with
  | PyNone => false
  | PyInt z => negb (z =? 0)%Z
  | PyFloat x => negb (PrimFloat.eqb x 0%float)
  end.

(** [x or y] *)
Definition py_or (x y : value) : value := if truthy x then x else y.

Definition Z2SF (z : Z) : spec_float :=
  match z with
  | Z0 => S754_zero false
  | Z.pos p => S754_finite false p 0
  | Z.neg p => S754_finite true p 0
  end.

Definition is_infinity (x : spec_float) : bool :=
  match x with S754_infinity _ => true | _ => false end.

(** [float(z)]: the nearest float, ties to even; an int beyond the floats
    raises. *)
Definition float_of_int (z : Z) : result float :=
  let r := binary_normalize prec emax z 0 false in
  if is_infinity r then Raise OverflowError else Ok (SF2Prim r).

(** [x / y]: between two ints the quotient of the ints rounded once to the
    nearest float, otherwise the division of the floats. *)
Definition py_truediv (x y : value) : result value :=
  match x, y with
  | PyNone, _ | _, PyNone => Raise TypeError
  | PyInt a, PyInt b =>
      if (b =? 0)%Z then Raise ZeroDivisionError
      else
        let r := SFdiv prec emax (Z2SF a) (Z2SF b) in
        if is_infinity r then Raise OverflowError
        else Ok (PyFloat (SF2Prim r))
  | PyInt a, PyFloat b =>
      fa ← float_of_int a;
      if PrimFloat.eqb b 0%float then Raise ZeroDivisionError
      else Ok (PyFloat (PrimFloat.div fa b))
  | PyFloat a, PyInt b =>
      fb ← float_of_int b;
      if PrimFloat.eqb fb 0%float then Raise ZeroDivisionError
      else Ok (PyFloat (PrimFloat.div a fb))
  | PyFloat a, PyFloat b =>
      if PrimFloat.eqb b 0%float then Raise ZeroDivisionError
      else Ok (PyFloat (PrimFloat.div a b))
  end.

(** [x + y] *)
Definition py_add (x y : value) : result value :=
  match x, y with
  | PyNone, _ | _, PyNone => Raise TypeError
  | PyInt a, PyInt b => Ok (PyInt (a + b))
  | PyInt a, PyFloat b =>
      fa ← float_of_int a; mret (PyFloat (PrimFloat.add fa b))
  | PyFloat a, PyInt b =>
      fb ← float_of_int b; mret (PyFloat (PrimFloat.add a fb))
  | PyFloat a, PyFloat b => Ok (PyFloat (PrimFloat.add a b))
  end.

(** [sum(xs)] as CPython up to 3.11 computes it: from the int 0, adding
    from the left. *)
Definition sum_in_order (xs : list value) : result value :=
  foldl (λ acc x, a ← acc; py_add a x) (Ok (PyInt 0)) xs.

(** [max(xs)] on a non-empty list: keeps the first item and replaces it by
    every later item that compares greater. *)
Definition py_max (xs : list value) : result value :=
  match xs with
  | [] => Raise TypeError
  | x :: rest =>
      foldl (λ acc item,
               m ← acc; b ← py_gt item m; mret (if b : bool then item else m))
            (Ok x) rest
  end.

(** [round(x, ndigits)] with [ndigits] from 0 on.  An int is returned as it
    is.  A finite float is rounded, on the number it holds, to the nearest
    multiple of [10 ** -ndigits], ties to the even one, and the result is
    the float nearest to that decimal; it keeps the sign of [x] when it is a
    zero.  Infinities and NaN are returned as they are. *)
Definition py_round (x : value) (ndigits : nat) : result value :=
  match x with
  | PyNone => Raise TypeError
  | PyInt z => Ok (PyInt z)
  | PyFloat f =>
      match Prim2SF f with
      | S754_finite s m e =>
          let scale := Z.to_pos (10 ^ Z.of_nat ndigits) in
          let n :=
            round_half_even
              (inject_Z (Z.pos m) * 2 ^ e * inject_Z (Z.pos scale)) in
          let r :=
            match n with
            | Z.pos p =>
                SFdiv prec emax (S754_finite s p 0) (S754_finite false scale 0)
            | _ => S754_zero s
            end in
          if is_infinity r then Raise OverflowError
          else Ok (PyFloat (SF2Prim r))
      | _ => Ok (PyFloat f)
      end
  end.

Definition categorize_go_platform (score : value) : result (Z * string) :=
  if is_None score || pd_isna score then mret (0%Z, "No Data")
  else
    b ← py_lt score (PyFloat 2.0%float);
    if b : bool then mret (1%Z, "Very Low")
    else
      b ← py_lt score (PyFloat 3.5%float);
      if b : bool then mret (2%Z, "Low")
      else
        b ← py_lt score (PyFloat 5.0%float);
        if b : bool then mret (3%Z, "Medium")
        else
          b ← py_lt score (PyFloat 6.5%float);
          if b : bool then mret (4%Z, "High")
          else mret (5%Z, "Very High").

Definition categorize_inform (score : value) : result string :=
  if is_None score || pd_isna score then mret "No Data"
  else
    b ← py_lt score (PyFloat 2.0%float);
    if b : bool then mret "Very Low"
    else
      b ← py_lt score (PyFloat 3.5%float);
      if b : bool then mret "Low"
      else
        b ← py_lt score (PyFloat 5.0%float);
        if b : bool then mret "Medium"
        else
          b ← py_lt score (PyFloat 6.5%float);
          if b : bool then mret "High"
          else mret "Very High".

Record record : Type := {
  country_details : country_details_t;
  hazard_type_display : string;
  fields : gmap string value;
}.

(** One dict of [processed_data]. *)
Record processed_row : Type := {
  Country : string;
  ISO3 : string;
  Hazard_Type : string;
  January : value;
  February : value;
  March : value;
  April : value;
  May : value;
  June : value;
  July : value;
  August : value;
  September : value;
  October : value;
  November : value;
  December : value;
  Yearly_Sum : value;
  Yearly_Average : value;
  Peak_Month_Score : value;
  GO_Category_Num : Z;
  GO_Category : string;
  INFORM_Category : string;
  Peak_GO_Num : Z;
  Peak_GO_Category : string;
  Peak_INFORM_Category : string;
  LCC : value;
  Vulnerability : value;
  Population_Thousands : value;
}.

Record prd_frame : Type := {
  results : list record;
  processed_data : list processed_row;
}.

Definition processed_data_append (row : processed_row) : Py prd_frame unit :=
  modify (λ f, {| results := results f;
                  processed_data := processed_data f ++ [row] |}).

Section process_risk_data.

(** The built-in [sum]. *)
Variable sum : list value → result value.

(** [[record.get(month, 0) or 0 for month in months]] *)
Definition monthly_scores_of (record : record) : list value :=
  (λ month, py_or (dict_get (fields record) month (PyInt 0)) (PyInt 0))
    <$> months.

(** [record.get('yearly_sum', sum(monthly_scores))]: the default is computed
    before the lookup. *)
Definition yearly_sum_of (record : record) : result value :=
  s ← sum (monthly_scores_of record);
  mret (dict_get (fields record) "yearly_sum" s).

(** [yearly_sum / 12 if yearly_sum else 0] *)
Definition yearly_avg_of (yearly_sum : value) : result value :=
  if truthy yearly_sum then py_truediv yearly_sum (PyInt 12)
  else mret (PyInt 0).

(** The body of the loop of [process_risk_data], up to the [append]. *)
Definition process_record (record : record) : result processed_row :=
  let country_name := name (country_details record) in
  let country_iso3 := upper (iso3 (country_details record)) in
  let hazard_type := hazard_type_display record in
  let monthly_scores := monthly_scores_of record in
  yearly_sum ← yearly_sum_of record;
  yearly_avg ← yearly_avg_of yearly_sum;
  peak_month_score ←
    match monthly_scores with
    | [] => mret (PyInt 0)
    | _ => py_max monthly_scores
    end;
  go ← categorize_go_platform yearly_avg;
  inform_category ← categorize_inform yearly_avg;
  peak_go ← categorize_go_platform peak_month_score;
  peak_inform ← categorize_inform peak_month_score;
  let lcc := dict_get (fields record) "lcc" (PyInt 0) in
  let vulnerability := dict_get (fields record) "vulnerability" (PyInt 0) in
  let population :=
    dict_get (fields record) "population_in_thousands" (PyInt 0) in
  yearly_sum_2 ← py_round yearly_sum 2;
  yearly_avg_2 ← py_round yearly_avg 2;
  peak_month_score_2 ← py_round peak_month_score 2;
  mret {|
    Country := country_name;
    ISO3 := country_iso3;
    Hazard_Type := hazard_type;
    January := monthly_scores !!! 0%nat;
    February := monthly_scores !!! 1%nat;
    March := monthly_scores !!! 2%nat;
    April := monthly_scores !!! 3%nat;
    May := monthly_scores !!! 4%nat;
    June := monthly_scores !!! 5%nat;
    July := monthly_scores !!! 6%nat;
    August := monthly_scores !!! 7%nat;
    September := monthly_scores !!! 8%nat;
    October := monthly_scores !!! 9%nat;
    November := monthly_scores !!! 10%nat;
    December := monthly_scores !!! 11%nat;
    Yearly_Sum := yearly_sum_2;
    Yearly_Average := yearly_avg_2;
    Peak_Month_Score := peak_month_score_2;
    GO_Category_Num := go.1;
    GO_Category := go.2;
    INFORM_Category := inform_category;
    Peak_GO_Num := peak_go.1;
    Peak_GO_Category := peak_go.2;
    Peak_INFORM_Category := peak_inform;
    LCC := lcc;
    Vulnerability := vulnerability;
    Population_Thousands := population;
  |}.

(** One turn of the loop. *)
Definition process_step (record : record) : Py prd_frame unit :=
  row ← lift (process_record record);
  processed_data_append row.

Definition process_risk_data_body : Py prd_frame (list processed_row) :=
  modify (λ f, {| results := results f; processed_data := [] |});;
  rs ← gets results;
  for_each rs process_step;;
  gets processed_data.

(** The call [process_risk_data(results)]: what it returns or raises, and
    what the caller's list holds afterwards. *)
Definition process_risk_data (arg : list record)
    : result (list processed_row) * list record :=
  let out := process_risk_data_body {| results := arg; processed_data := [] |} in
  (out.1, results out.2).

End process_risk_data.

End Binary64.

(** * Properties *)

(** ** Comparisons and the classifications *)

Lemma Qltb_lt (x y : Q) : Qltb x y = true ↔ x < y.
Proof.
  unfold Qltb. rewrite Qlt_alt. destruct (Qcompare x y); split; congruence.
Qed.

Lemma Qltb_ge (x y : Q) : Qltb x y = false ↔ y <= x.
Proof.
  rewrite <- not_true_iff_false, Qltb_lt. split.
  - apply Qnot_lt_le.
  - intros Hle Hlt. apply (Qlt_irrefl x), (Qlt_le_trans x y x); done.
Qed.

Lemma Qltb_true (x y : Q) : x < y → Qltb x y = true.
Proof. apply Qltb_lt. Qed.

Lemma Qltb_false (x y : Q) : y <= x → Qltb x y = false.
Proof. apply Qltb_ge. Qed.

(** Decides every threshold test of a classification of [Num q] from the
    linear facts about [q] in the context. *)
Ltac decide_thresholds :=
  repeat match goal with
  | |- context [Qltb ?q ?t] =>
      first [ rewrite (Qltb_true q t) by lra
            | rewrite (Qltb_false q t) by lra ]
  end.

Ltac classify :=
  unfold categorize_go_platform, categorize_inform; cbn;
  decide_thresholds; cbn; try reflexivity.

(** The tier of a number, by cases on where it lies. *)
Lemma categorize_cases (q : Q) :
  (q < 2.0 ∧ categorize_go_platform (Num q) = Ok (1%Z, "Very Low")
     ∧ categorize_inform (Num q) = Ok "Very Low")
  ∨ (2.0 <= q < 3.5 ∧ categorize_go_platform (Num q) = Ok (2%Z, "Low")
     ∧ categorize_inform (Num q) = Ok "Low")
  ∨ (3.5 <= q < 5.0 ∧ categorize_go_platform (Num q) = Ok (3%Z, "Medium")
     ∧ categorize_inform (Num q) = Ok "Medium")
  ∨ (5.0 <= q < 6.5 ∧ categorize_go_platform (Num q) = Ok (4%Z, "High")
     ∧ categorize_inform (Num q) = Ok "High")
  ∨ (6.5 <= q ∧ categorize_go_platform (Num q) = Ok (5%Z, "Very High")
     ∧ categorize_inform (Num q) = Ok "Very High").
Proof.
  destruct (Qlt_le_dec q 2.0); [left; split_and!; [done | classify..] |].
  destruct (Qlt_le_dec q 3.5);
    [right; left; split_and!; [done.. | classify | classify] |].
  destruct (Qlt_le_dec q 5.0);
    [do 2 right; left; split_and!; [done.. | classify | classify] |].
  destruct (Qlt_le_dec q 6.5);
    [do 3 right; left; split_and!; [done.. | classify | classify] |].
  do 4 right; split_and!; [done | classify..].
Qed.

(** The threshold table as the specification words it: closed ranges that
    share their end points. *)
Definition threshold_table : list (Q * Q * string) :=
  [(0, 2.0, "Very Low"); (2.0, 3.5, "Low"); (3.5, 5.0, "Medium");
   (5.0, 6.5, "High"); (6.5, 10, "Very High")].

(** C1: every score between 0 and 10 gets, from both classifications, the
    tier of a row of the threshold table whose range contains it; a score on
    a boundary shared by two rows gets the tier of the upper row. *)
Theorem classification_follows_table (q : Q) :
  0 <= q <= 10 →
  ∃ lo hi tier n,
    (lo, hi, tier) ∈ threshold_table
    ∧ lo <= q <= hi ∧ (q < hi ∨ q == 10)
    ∧ categorize_go_platform (Num q) = Ok (n, tier)
    ∧ categorize_inform (Num q) = Ok tier.
Proof.
  intros [H0 H10]. unfold threshold_table.
  destruct (categorize_cases q)
    as [(? & -> & ->)|[(? & -> & ->)|[(? & -> & ->)|[(? & -> & ->)|(? & -> & ->)]]]].
  - exists 0, 2.0, "Very Low", 1%Z. split_and!; [repeat constructor | lra | lra | left; lra | done | done].
  - exists 2.0, 3.5, "Low", 2%Z. split_and!; [repeat constructor | lra | lra | left; lra | done | done].
  - exists 3.5, 5.0, "Medium", 3%Z. split_and!; [repeat constructor | lra | lra | left; lra | done | done].
  - exists 5.0, 6.5, "High", 4%Z. split_and!; [repeat constructor | lra | lra | left; lra | done | done].
  - exists 6.5, 10, "Very High", 5%Z. split_and!; [repeat constructor | lra | lra | | done | done].
    destruct (Qlt_le_dec q 10); [by left | right; lra].
Qed.

Lemma classification_follows_table_witness :
  ∃ lo hi tier n,
    (lo, hi, tier) ∈ threshold_table
    ∧ lo <= 3.5 <= hi ∧ (3.5 < hi ∨ 3.5 == 10)
    ∧ categorize_go_platform (Num 3.5) = Ok (n, tier)
    ∧ categorize_inform (Num 3.5) = Ok tier.
Proof. apply (classification_follows_table 3.5). split; lra. Defined.

(** Both classifications return, and return the same name. *)
Lemma categorize_returns (s : score) :
  ∃ n tier,
    categorize_go_platform s = Ok (n, tier) ∧ categorize_inform s = Ok tier.
Proof.
  destruct s as [| |q].
  - by exists 0%Z, "No Data".
  - by exists 0%Z, "No Data".
  - destruct (categorize_cases q)
      as [(? & -> & ->)|[(? & -> & ->)|[(? & -> & ->)|[(? & -> & ->)|(? & -> & ->)]]]];
      eauto.
Qed.

(** C3: on every score, None and NaN included, [categorize_go_platform]
    returns a pair and [categorize_inform] returns the name of that pair. *)
Theorem categorize_schemes_agree (s : score) :
  ∃ go, categorize_go_platform s = Ok go ∧ categorize_inform s = Ok go.2.
Proof.
  destruct (categorize_returns s) as (n & tier & Hgo & Hinform).
  by exists (n, tier).
Qed.

(** C9: both classifications return on every optional score.  None and NaN
    give 'No Data' with number 0, a negative score gives 'Very Low', and a
    score of 6.5 or more, however large, gives 'Very High'. *)
Theorem categorize_total (s : score) :
  (∃ n tier,
     categorize_go_platform s = Ok (n, tier) ∧ categorize_inform s = Ok tier)
  ∧ (pd_isna s = true →
     categorize_go_platform s = Ok (0%Z, "No Data")
     ∧ categorize_inform s = Ok "No Data")
  ∧ (∀ q, s = Num q → q < 0 →
     categorize_go_platform s = Ok (1%Z, "Very Low")
     ∧ categorize_inform s = Ok "Very Low")
  ∧ (∀ q, s = Num q → 6.5 <= q →
     categorize_go_platform s = Ok (5%Z, "Very High")
     ∧ categorize_inform s = Ok "Very High").
Proof.
  split_and!.
  - apply categorize_returns.
  - by destruct s.
  - intros q -> Hq. split; classify.
  - intros q -> Hq. split; classify.
Qed.

Lemma categorize_total_witness :
  (categorize_go_platform PyNone = Ok (0%Z, "No Data")
   ∧ categorize_inform NaN = Ok "No Data")
  ∧ (categorize_go_platform (Num (-3)) = Ok (1%Z, "Very Low")
     ∧ categorize_inform (Num (-3)) = Ok "Very Low")
  ∧ (categorize_go_platform (Num 250) = Ok (5%Z, "Very High")
     ∧ categorize_inform (Num 250) = Ok "Very High").
Proof.
  split_and!.
  - apply (categorize_total PyNone). reflexivity.
  - apply (categorize_total NaN). reflexivity.
  - apply (categorize_total (Num (-3))) with (q := -3); [reflexivity | lra].
  - apply (categorize_total (Num (-3))) with (q := -3); [reflexivity | lra].
  - apply (categorize_total (Num 250)) with (q := 250); [reflexivity | lra].
  - apply (categorize_total (Num 250)) with (q := 250); [reflexivity | lra].
Defined.

(** ** Fetch *)

Definition is_raise {A} (r : result A) : Prop :=
  match r with Raise _ => True | Ok _ => False end.

(** A server that answers 200 with a body that is not JSON. *)
Definition world_not_json : world := {|
  remote := λ _, Ok {| status_code := 200; json := None |};
  requests := [];
  stdout := [];
|}.

(** C5, as stated, fails: with status 200 and a body that is not JSON the
    call raises although the status code is 200. *)
Lemma fetch_raises_on_status_200 :
  ¬ (∀ (w : world) (region limit : Z) (resp : response),
       remote w (risk_score_url region limit) = Ok resp →
       is_raise (fetch_risk_scores region limit w).1
       ↔ status_code resp ≠ 200%Z).
Proof.
  intros H.
  specialize (H world_not_json default_region default_limit
                {| status_code := 200; json := None |} eq_refl).
  destruct H as [H _]. by apply H.
Qed.

(** C5, amended: the call makes exactly one GET, to the URL built from its
    arguments (limit 9999 by default), whatever the state and the answer.  A
    status other than 200 raises the request-failed exception; with status
    200 the call returns the [results] of the decoded body when the body is
    a JSON object with [count] and [results]; it returns in no other case,
    and an exception of [requests.get] propagates. *)
Theorem fetch_risk_scores_one_get (w : world) (region limit : Z) :
  let url := risk_score_url region limit in
  let out := fetch_risk_scores region limit w in
  requests out.2 = requests w ++ [url]
  ∧ remote out.2 = remote w
  ∧ risk_score_url default_region default_limit =
      "https://go-risk.northeurope.cloudapp.azure.com/api/v1/risk-score/?region=0&limit=9999"
  ∧ (∀ e, remote w url = Raise e → out.1 = Raise e)
  ∧ (∀ resp, remote w url = Ok resp → status_code resp ≠ 200%Z →
       out.1 = Raise (ApiRequestFailed (status_code resp)))
  ∧ (∀ resp count rs, remote w url = Ok resp → status_code resp = 200%Z →
       json resp = Some (Some count, Some rs) → out.1 = Ok rs)
  ∧ (∀ rs, out.1 = Ok rs →
       ∃ resp count, remote w url = Ok resp ∧ status_code resp = 200%Z
                     ∧ json resp = Some (Some count, Some rs)).
Proof.
  cbv zeta.
  unfold fetch_risk_scores, requests_get, print, modify, raise, lift,
    mbind, py_bind.
  cbn -[risk_score_url].
  destruct (remote w (risk_score_url region limit)) as [resp|e] eqn:Hremote;
    cbn -[risk_score_url].
  2:{ split_and!; try done. intros e' [= ->]. done. }
  case_bool_decide as Hstatus; cbn -[risk_score_url].
  { split_and!; try done.
    - by intros resp' [= <-] _.
    - by intros resp' count rs [= <-] ?. }
  destruct (json resp) as [[[count|] [rs|]]|] eqn:Hjson; cbn -[risk_score_url];
    split_and!; try done.
  all: try by intros resp' [= <-] ?.
  all: try (intros rs' [= <-]; by exists resp, count).
  all: intros resp' count' rs' [= <-] _ Hjson'; rewrite Hjson in Hjson';
    by simplify_eq.
Qed.

(** A server that answers every request with status 503. *)
Definition world_unavailable : world := {|
  remote := λ _, Ok {| status_code := 503; json := None |};
  requests := [];
  stdout := [];
|}.

Lemma fetch_risk_scores_one_get_witness :
  (fetch_risk_scores 4 default_limit world_unavailable).1
  = Raise (ApiRequestFailed 503).
Proof.
  apply (fetch_risk_scores_one_get world_unavailable 4 default_limit)
    with (resp := {| status_code := 503; json := None |});
    [reflexivity | cbn; lia].
Defined.

(** ** Filter *)

Section sublists.
Context {A : Type} (P : A → Prop) `{!∀ x, Decision (P x)}.

(** [filter P k] is the largest sublist of [k] whose elements satisfy [P]. *)
Lemma sublist_filter_greatest (l k : list A) :
  l `sublist_of` k → Forall P l → l `sublist_of` filter P k.
Proof.
  induction 1 as [|x l k Hsub IH|x l k Hsub IH]; intros Hall.
  - constructor.
  - apply Forall_cons in Hall as [Hx Hall].
    rewrite filter_cons_True by done. constructor. by apply IH.
  - rewrite filter_cons. case_decide; [constructor|]; by apply IH.
Qed.

End sublists.

(** C6: called with its default argument, the filter returns the records
    whose hazard type is Drought, Flood or Wildfire: every returned record
    has such a hazard type, every record of the input that has one is
    returned, and the returned list is a sublist of the input (the order is
    kept) that contains every sublist of the input made of such records. *)
Theorem filter_keeps_included_hazards (results : list record) (w : world) :
  ∃ kept,
    (filter_by_hazard_type results None w).1 = Ok kept
    ∧ (∀ r, r ∈ kept → hazard_type_display r ∈ ["Drought"; "Flood"; "Wildfire"])
    ∧ (∀ r, r ∈ results →
         hazard_type_display r ∈ ["Drought"; "Flood"; "Wildfire"] → r ∈ kept)
    ∧ kept `sublist_of` results
    ∧ (∀ l, l `sublist_of` results →
         Forall (λ r, hazard_type_display r ∈ ["Drought"; "Flood"; "Wildfire"]) l →
         l `sublist_of` kept).
Proof.
  eexists. split; [reflexivity|]. fold INCLUDED_HAZARDS. split_and!.
  - intros r Hr. by apply list_elem_of_filter in Hr as [? _].
  - intros r Hr Hh. by apply list_elem_of_filter.
  - apply sublist_filter.
  - intros l Hsub Hall.
    by apply (sublist_filter_greatest
                (λ r, hazard_type_display r ∈ INCLUDED_HAZARDS)).
Qed.

Definition chad_flood : record := {|
  country_details := {| name := "Chad"; iso3 := "tcd" |};
  hazard_type_display := "Flood";
  fields := ∅;
|}.

Definition chad_cyclone : record := {|
  country_details := {| name := "Chad"; iso3 := "tcd" |};
  hazard_type_display := "Cyclone";
  fields := ∅;
|}.

Lemma filter_keeps_included_hazards_witness :
  ∃ kept,
    (filter_by_hazard_type [chad_cyclone; chad_flood] None world_unavailable).1
    = Ok kept
    ∧ chad_flood ∈ kept ∧ chad_cyclone ∉ kept.
Proof.
  destruct (filter_keeps_included_hazards [chad_cyclone; chad_flood]
              world_unavailable)
    as (kept & Hkept & Honly & Hall & _).
  exists kept. split; [exact Hkept|]. split.
  - apply Hall; [right; left | right; left].
  - intros Hin. apply Honly in Hin. cbn in Hin.
    repeat (apply elem_of_cons in Hin as [Hin|Hin]; [discriminate|]).
    by apply elem_of_nil in Hin.
Defined.

(** ** The result monad and loops *)

Lemma bind_Ok {A B} (m : result A) (f : A → result B) (b : B) :
  m ≫= f = Ok b ↔ ∃ a, m = Ok a ∧ f a = Ok b.
Proof.
  destruct m as [a|e]; cbn; split.
  - intros H. by exists a.
  - by intros (a' & [= <-] & H).
  - done.
  - by intros (? & ? & _).
Qed.

Lemma is_Ok_returns {A} (r : result A) : is_Ok r = true → ∃ a, r = Ok a.
Proof. destruct r as [a|e]; [by exists a | done]. Qed.

(** Turns a successful chain of binds in the hypothesis into its steps. *)
Ltac invert_binds H :=
  repeat (let x := fresh "x" in let Hx := fresh "Hx" in
          apply bind_Ok in H as (x & Hx & H)).

(** Runs the binds whose first computation has returned or raised. *)
Ltac run_binds := cbn [mbind result_bind mret result_ret].

Lemma mapM_Ok_Forall2 {A B} (f : A → result B) (l : list A) (k : list B) :
  mapM f l = Ok k ↔ Forall2 (λ x y, f x = Ok y) l k.
Proof.
  revert k. induction l as [|x l IH]; intros k; cbn.
  - split; [intros [= <-]; constructor | by inversion 1].
  - split.
    + intros H. invert_binds H. injection H as <-.
      constructor; [done | by apply IH].
    + inversion 1 as [|? y ? k' Hy Hk]; subst.
      rewrite Hy. cbn. apply IH in Hk. rewrite Hk. done.
Qed.

Lemma mapM_returns {A B} (f : A → result B) (l : list A) :
  Forall (λ x, ∃ y, f x = Ok y) l → ∃ k, mapM f l = Ok k.
Proof.
  induction 1 as [|x l [y Hy] _ [k Hk]]; cbn.
  - by eexists.
  - rewrite Hy. run_binds. rewrite Hk. by eexists.
Qed.

Lemma for_each_cons {S A} (x : A) (xs : list A) (body : A → Py S unit) (s : S) :
  for_each (x :: xs) body s =
  match body x s with
  | (Ok _, s') => for_each xs body s'
  | (Raise e, s') => (Raise e, s')
  end.
Proof. reflexivity. Qed.

Lemma process_step_eq (r : record) (f : prd_frame) :
  process_step r f =
  match process_record r with
  | Ok row => (Ok tt, {| results := results f;
                         processed_data := processed_data f ++ [row] |})
  | Raise e => (Raise e, f)
  end.
Proof.
  unfold process_step, mbind, py_bind, lift.
  by destruct (process_record r).
Qed.

(** The loop of [process_risk_data] appends one row per record, in order,
    stops at the first record that raises, and never writes to [results]. *)
Lemma process_loop (rs : list record) (f : prd_frame) :
  results (for_each rs process_step f).2 = results f
  ∧ match mapM process_record rs with
    | Ok rows =>
        for_each rs process_step f =
          (Ok tt, {| results := results f;
                     processed_data := processed_data f ++ rows |})
    | Raise e => (for_each rs process_step f).1 = Raise e
    end.
Proof.
  revert f. induction rs as [|r rs IH]; intros f.
  - cbn. split; [done|]. rewrite app_nil_r. by destruct f.
  - rewrite for_each_cons, process_step_eq. cbn [mapM].
    destruct (process_record r) as [row|e]; [|done].
    destruct (IH {| results := results f;
                    processed_data := processed_data f ++ [row] |})
      as [IHres IHout].
    split; [done|]. cbn [mbind result_bind].
    destruct (mapM process_record rs) as [rows|e]; [|done].
    rewrite IHout. cbn. by rewrite <- app_assoc.
Qed.

(** From any frame, the body of [process_risk_data] processes the records
    of [results] one by one and leaves [results] as it was. *)
Lemma process_risk_data_body_eq (f : prd_frame) :
  (process_risk_data_body f).1 = mapM process_record (results f)
  ∧ results (process_risk_data_body f).2 = results f.
Proof.
  unfold process_risk_data_body, mbind, py_bind, modify, gets.
  cbn [results processed_data].
  pose proof (process_loop (results f)
                {| results := results f; processed_data := [] |})
    as [Hres Hout].
  cbn [results processed_data app] in Hres, Hout.
  destruct (mapM process_record (results f)) as [rows|e].
  - by rewrite Hout.
  - destruct (for_each (results f) _ _) as [[[]|e'] f']; cbn in *.
    + congruence.
    + split; congruence.
Qed.

Lemma process_risk_data_eq (arg : list record) :
  process_risk_data arg = (mapM process_record arg, arg).
Proof.
  unfold process_risk_data.
  destruct (process_risk_data_body_eq {| results := arg; processed_data := [] |})
    as [-> ->].
  done.
Qed.

Lemma summary_step_eq (country : string) (f : csc_frame) :
  summary_step country f =
  match summary_row (df f) country with
  | Ok row => (Ok tt, {| df := df f; summary_data := summary_data f ++ [row] |})
  | Raise e => (Raise e, f)
  end.
Proof.
  unfold summary_step, mbind, py_bind, lift, gets.
  by destruct (summary_row (df f) country).
Qed.

(** The loop of [create_summary_by_country] appends one row per country, in
    order, stops at the first country that raises, and never writes to
    [df]. *)
Lemma summary_loop (countries : list string) (f : csc_frame) :
  df (for_each countries summary_step f).2 = df f
  ∧ match mapM (summary_row (df f)) countries with
    | Ok rows =>
        for_each countries summary_step f =
          (Ok tt, {| df := df f; summary_data := summary_data f ++ rows |})
    | Raise e => (for_each countries summary_step f).1 = Raise e
    end.
Proof.
  revert f. induction countries as [|c cs IH]; intros f.
  - cbn. split; [done|]. rewrite app_nil_r. by destruct f.
  - rewrite for_each_cons, summary_step_eq. cbn [mapM].
    destruct (summary_row (df f) c) as [row|e]; [|done].
    destruct (IH {| df := df f; summary_data := summary_data f ++ [row] |})
      as [IHdf IHout].
    cbn [df summary_data] in IHdf, IHout.
    split; [done|]. cbn [mbind result_bind].
    destruct (mapM (summary_row (df f)) cs) as [rows|e]; [|done].
    rewrite IHout. cbn. by rewrite <- app_assoc.
Qed.

(** The countries of the summary, in the order of its rows. *)
Definition summary_countries (table : list processed_row) : list string :=
  sorted (unique (Country <$> table)).

Lemma create_summary_by_country_body_eq (f : csc_frame) :
  (create_summary_by_country_body f).1 =
    mapM (summary_row (df f)) (summary_countries (df f))
  ∧ df (create_summary_by_country_body f).2 = df f.
Proof.
  unfold create_summary_by_country_body, mbind, py_bind, modify, gets.
  cbn [df summary_data]. fold (summary_countries (df f)).
  pose proof (summary_loop (summary_countries (df f))
                {| df := df f; summary_data := [] |})
    as [Hdf Hout].
  cbn [df summary_data app] in Hdf, Hout.
  destruct (mapM (summary_row (df f)) _) as [rows|e].
  - by rewrite Hout.
  - destruct (for_each _ _ _) as [[[]|e'] f']; cbn in *.
    + congruence.
    + split; congruence.
Qed.

Lemma create_summary_by_country_eq (arg : list processed_row) :
  create_summary_by_country arg =
    (mapM (summary_row arg) (summary_countries arg), arg).
Proof.
  unfold create_summary_by_country.
  destruct (create_summary_by_country_body_eq {| df := arg; summary_data := [] |})
    as [-> ->].
  done.
Qed.

(** ** Rounding takes equal numbers to the same integer *)

Lemma round_half_even_proper (a b : Q) :
  a == b → round_half_even a = round_half_even b.
Proof.
  intros H. unfold round_half_even.
  rewrite (Qfloor_comp a b H).
  assert (a - inject_Z (Qfloor b) == b - inject_Z (Qfloor b)) as Hfrac
    by (apply Qplus_comp; [exact H | apply Qeq_refl]).
  by rewrite (Qcompare_comp _ _ Hfrac _ _ (Qeq_refl (1 # 2))).
Qed.

(** ** Two records *)

(** Two API records, and the rows made from them. *)
Definition kenya_drought : record := {|
  country_details := {| name := "Kenya"; iso3 := "ken" |};
  hazard_type_display := "Drought";
  fields := <["january" := Num 4.1]> (<["february" := PyNone]>
            (<["yearly_sum" := Num 23.97]> (<["lcc" := Num 5.5]> ∅)));
|}.

Definition angola_flood : record := {|
  country_details := {| name := "Angola"; iso3 := "ago" |};
  hazard_type_display := "Flood";
  fields := <["january" := Num 4.1]> (<["march" := Num 7]>
            (<["population_in_thousands" := Num 32866]> ∅));
|}.

(** The classified value is the quotient itself, not the rounded field:
    23.97 / 12 = 1.9975 is shown as 2.00 and is 'Very Low'. *)
Example kenya_drought_row :
  ∃ row, (process_risk_data [kenya_drought]).1 = Ok [row]
    ∧ score_eq (Yearly_Average row) (Num 2.0)
    ∧ GO_Category row = "Very Low"
    ∧ categorize_inform (Num 2.0) = Ok "Low".
Proof. eexists. split; [vm_compute; reflexivity|]. by vm_compute. Qed.

(** *** When a record is processed *)

Lemma py_or_not_None (x : score) : py_or x (Num 0) ≠ PyNone.
Proof. by destruct x as [| |q]; unfold py_or; cbn; [| |destruct (Qeq_bool q 0)]. Qed.

Lemma monthly_scores_not_None (r : record) :
  Forall (λ x, x ≠ PyNone) (monthly_scores_of r).
Proof. apply Forall_fmap, Forall_true. intros month. apply py_or_not_None. Qed.

Lemma py_add_not_None (x y : score) :
  x ≠ PyNone → y ≠ PyNone → ∃ s, py_add x y = Ok s ∧ s ≠ PyNone.
Proof. destruct x, y; cbn; intros ? ?; try done; eauto. Qed.

Lemma py_sum_from (xs : list score) (acc : score) :
  acc ≠ PyNone → Forall (λ x, x ≠ PyNone) xs →
  ∃ s, foldl (λ acc x, a ← acc; py_add a x) (Ok acc) xs = Ok s ∧ s ≠ PyNone.
Proof.
  revert acc. induction xs as [|x xs IH]; intros acc Hacc Hxs; cbn.
  - by exists acc.
  - apply Forall_cons in Hxs as [Hx Hxs].
    destruct (py_add_not_None acc x Hacc Hx) as (s & -> & Hs). by apply IH.
Qed.

Lemma py_sum_not_None (xs : list score) :
  Forall (λ x, x ≠ PyNone) xs → ∃ s, py_sum xs = Ok s ∧ s ≠ PyNone.
Proof. by apply py_sum_from. Qed.

Lemma py_round_not_None (x : score) (ndigits : nat) :
  x ≠ PyNone → ∃ r, py_round x ndigits = Ok r.
Proof. destruct x; cbn; intros ?; try done; eauto. Qed.

(** ** Statelessness *)

(** C7: [process_risk_data] and [create_summary_by_country] are stateless.
    Run twice in a row, from a frame whose accumulator holds anything, each
    gives the same outcome both times, the outcome is the one of a call on
    the input alone, and the input object holds afterwards what it held
    before. *)
Theorem pipeline_steps_stateless :
  (∀ (records : list record) (junk : list processed_row),
     let first := process_risk_data_body
                    {| results := records; processed_data := junk |} in
     let second := process_risk_data_body first.2 in
     first.1 = second.1
     ∧ first.1 = (process_risk_data records).1
     ∧ results first.2 = records ∧ results second.2 = records
     ∧ (process_risk_data records).2 = records)
  ∧ (∀ (table : list processed_row) (junk : list (gmap string cell)),
     let first := create_summary_by_country_body
                    {| df := table; summary_data := junk |} in
     let second := create_summary_by_country_body first.2 in
     first.1 = second.1
     ∧ first.1 = (create_summary_by_country table).1
     ∧ df first.2 = table ∧ df second.2 = table
     ∧ (create_summary_by_country table).2 = table).
Proof.
  split.
  - intros records junk first second.
    destruct (process_risk_data_body_eq
                {| results := records; processed_data := junk |})
      as [H1 H1'].
    destruct (process_risk_data_body_eq first.2) as [H2 H2'].
    fold first in H1, H1'. fold second in H2, H2'. cbn in H1, H1'.
    rewrite process_risk_data_eq. cbn [fst snd].
    rewrite H2, H2', H1', H1. done.
  - intros table junk first second.
    destruct (create_summary_by_country_body_eq
                {| df := table; summary_data := junk |})
      as [H1 H1'].
    destruct (create_summary_by_country_body_eq first.2) as [H2 H2'].
    fold first in H1, H1'. fold second in H2, H2'. cbn in H1, H1'.
    rewrite create_summary_by_country_eq. cbn [fst snd].
    rewrite H2, H2', H1', H1. done.
Qed.

(** ** Country summary *)

(** The six cells a summary row must hold for a hazard, given the rows of
    the country for that hazard. *)
Definition hazard_cells_ok (row : gmap string cell) (hazard : string)
    (hazard_row : list processed_row) : Prop :=
  match hazard_row with
  | first :: _ =>
      row !! (hazard +:+ "_Sum") = Some (CNum (Yearly_Sum first))
      ∧ row !! (hazard +:+ "_Avg") = Some (CNum (Yearly_Average first))
      ∧ row !! (hazard +:+ "_Peak") = Some (CNum (Peak_Month_Score first))
      ∧ row !! (hazard +:+ "_GO_Num") = Some (CInt (GO_Category_Num first))
      ∧ row !! (hazard +:+ "_GO_Cat") = Some (CStr (GO_Category first))
      ∧ row !! (hazard +:+ "_INFORM") = Some (CStr (INFORM_Category first))
  | [] =>
      row !! (hazard +:+ "_Sum") = Some (CNum (Num 0))
      ∧ row !! (hazard +:+ "_Avg") = Some (CNum (Num 0))
      ∧ row !! (hazard +:+ "_Peak") = Some (CNum (Num 0))
      ∧ row !! (hazard +:+ "_GO_Num") = Some (CInt 0)
      ∧ row !! (hazard +:+ "_GO_Cat") = Some (CStr "No Data")
      ∧ row !! (hazard +:+ "_INFORM") = Some (CStr "No Data")
  end.

Lemma add_hazard_cells (country_data : list processed_row)
    (row : gmap string cell) (hazard : string) :
  hazard_cells_ok (add_hazard country_data row hazard) hazard
    (filter (λ r, Hazard_Type r = hazard) country_data).
Proof.
  assert (∀ a b, a ≠ b → hazard +:+ a ≠ hazard +:+ b) as Hne
    by (intros a b Hab Heq; by apply Hab, (inj (String.app hazard))).
  unfold add_hazard, hazard_cells_ok.
  destruct (filter _ country_data) as [|first ?]; split_and!;
    repeat first [ rewrite lookup_insert_eq
                 | rewrite lookup_insert_ne by (by apply Hne) ]; done.
Qed.

(** A key that is not [hazard] followed by a suffix is left alone. *)
Lemma add_hazard_lookup_ne (country_data : list processed_row)
    (row : gmap string cell) (hazard key : string) :
  (∀ suffix, key ≠ hazard +:+ suffix) →
  add_hazard country_data row hazard !! key = row !! key.
Proof.
  intros Hne. unfold add_hazard.
  destruct (filter _ country_data); by rewrite !lookup_insert_ne.
Qed.

Lemma hazard_cells_ok_ext (row row' : gmap string cell) (hazard : string)
    (hazard_row : list processed_row) :
  (∀ suffix, row' !! (hazard +:+ suffix) = row !! (hazard +:+ suffix)) →
  hazard_cells_ok row hazard hazard_row →
  hazard_cells_ok row' hazard hazard_row.
Proof.
  intros Hsame. unfold hazard_cells_ok.
  destruct hazard_row; by rewrite !Hsame.
Qed.

(** The keys of different hazards differ, whatever their suffixes. *)
Ltac other_hazard :=
  rewrite add_hazard_lookup_ne;
  [| let s := fresh in intros s; by vm_compute ].

(** After the loop over the hazards, the row holds the six cells of each
    hazard and the cells it held before. *)
Lemma hazards_loop_cells (country_data : list processed_row)
    (base : gmap string cell) (hazard : string) :
  hazard ∈ INCLUDED_HAZARDS →
  hazard_cells_ok (foldl (add_hazard country_data) base INCLUDED_HAZARDS)
    hazard (filter (λ r, Hazard_Type r = hazard) country_data).
Proof.
  intros Hin. cbn [foldl INCLUDED_HAZARDS].
  unfold INCLUDED_HAZARDS in Hin.
  repeat (apply elem_of_cons in Hin as [->|Hin]).
  - eapply hazard_cells_ok_ext; [|apply add_hazard_cells].
    intros suffix. by do 2 other_hazard.
  - eapply hazard_cells_ok_ext; [|apply add_hazard_cells].
    intros suffix. by other_hazard.
  - apply add_hazard_cells.
  - by apply elem_of_nil in Hin.
Qed.

(** The average a summary row shows for a hazard. *)
Definition hazard_avg (country_data : list processed_row) (hazard : string)
    : score :=
  match filter (λ r, Hazard_Type r = hazard) country_data with
  | first :: _ => Yearly_Average first
  | [] => Num 0
  end.

Lemma hazard_cells_avg (row : gmap string cell) (hazard : string)
    (country_data : list processed_row) :
  hazard_cells_ok row hazard
    (filter (λ r, Hazard_Type r = hazard) country_data) →
  row !! (hazard +:+ "_Avg") = Some (CNum (hazard_avg country_data hazard)).
Proof.
  unfold hazard_cells_ok, hazard_avg.
  destruct (filter _ country_data); by intros (_ & ? & _).
Qed.

(** Looks a constant key up in a row built by inserts at constant keys. *)
Ltac lookup_row :=
  repeat first [ rewrite lookup_insert_eq
               | rewrite lookup_insert_ne by (by vm_compute) ].

(** Proves that a constant key is not a key of a hazard: it begins with
    another letter than the hazards do. *)
Ltac not_hazard_key :=
  let h := fresh "h" in
  let suffix := fresh "suffix" in
  let Hh := fresh "Hh" in
  intros h suffix Hh; unfold INCLUDED_HAZARDS in Hh;
  repeat (apply elem_of_cons in Hh as [->|Hh]);
  [by vm_compute.. | by apply elem_of_nil in Hh].

(** What a summary row holds, for the country it is made for. *)
Definition summary_row_ok (table : list processed_row) (country : string)
    (row : gmap string cell) : Prop :=
  ∃ first rest,
    filter (λ r, Country r = country) table = first :: rest
    ∧ row !! "Country" = Some (CStr country)
    ∧ row !! "ISO3" = Some (CStr (ISO3 first))
    ∧ row !! "Population_Thousands" = Some (CNum (Population_Thousands first))
    ∧ row !! "LCC" = Some (CNum (LCC first))
    ∧ row !! "Vulnerability" = Some (CNum (Vulnerability first))
    ∧ (∀ hazard, hazard ∈ INCLUDED_HAZARDS →
         hazard_cells_ok row hazard
           (filter (λ r, Hazard_Type r = hazard) (first :: rest)))
    ∧ ∃ total total_avg overall_avg go inform,
        py_sum (hazard_avg (first :: rest) <$> INCLUDED_HAZARDS) = Ok total
        ∧ py_div total 3 = Ok total_avg
        ∧ py_round total_avg 2 = Ok overall_avg
        ∧ categorize_go_platform total_avg = Ok go
        ∧ categorize_inform total_avg = Ok inform
        ∧ row !! "Overall_Avg" = Some (CNum overall_avg)
        ∧ row !! "Overall_GO_Num" = Some (CInt go.1)
        ∧ row !! "Overall_GO_Cat" = Some (CStr go.2)
        ∧ row !! "Overall_INFORM" = Some (CStr inform).

Lemma summary_row_cells (table : list processed_row) (country : string)
    (row : gmap string cell) :
  summary_row table country = Ok row → summary_row_ok table country row.
Proof.
  unfold summary_row, summary_row_ok.
  destruct (filter (λ r, Country r = country) table) as [|first rest];
    [done|].
  set (cd := first :: rest). run_binds.
  set (base := <["Vulnerability" := _]> _).
  pose proof (hazards_loop_cells cd base) as Hcells.
  set (row1 := foldl (add_hazard cd) base INCLUDED_HAZARDS) in *.
  assert (∀ h, h ∈ INCLUDED_HAZARDS →
            cell_number (dict_get row1 (h +:+ "_Avg") (CInt 0))
            = Ok (hazard_avg cd h)) as Havg.
  { intros h Hh. unfold dict_get.
    by rewrite (hazard_cells_avg _ _ _ (Hcells h Hh)). }
  cbn [mapM INCLUDED_HAZARDS].
  rewrite !Havg by (unfold INCLUDED_HAZARDS; set_solver).
  run_binds. intros H. invert_binds H. injection H as <-.
  exists first, rest. split; [done|].
  assert (∀ key, (∀ h suffix, h ∈ INCLUDED_HAZARDS → key ≠ h +:+ suffix) →
            row1 !! key = base !! key) as Hbase.
  { intros key Hkey. unfold row1. cbn [foldl INCLUDED_HAZARDS].
    rewrite !add_hazard_lookup_ne; [done|..];
      intros suffix; apply Hkey; unfold INCLUDED_HAZARDS; set_solver. }
  split_and!.
  1-5: lookup_row; rewrite Hbase by not_hazard_key; unfold base;
       by lookup_row.
  - intros hazard Hh. eapply hazard_cells_ok_ext; [|by apply Hcells].
    intros suffix.
    assert (∀ key, (∀ h s, h ∈ INCLUDED_HAZARDS → key ≠ h +:+ s) →
              key ≠ hazard +:+ suffix) as Hkey
      by (intros key Hkey; by apply Hkey).
    rewrite !lookup_insert_ne; [done | apply Hkey; not_hazard_key..].
  - exists x, x0, x1, x2, x3. split_and!; try done; by lookup_row.
Qed.

(** *** The countries of the summary *)

Lemma unique_from (l seen : list string) :
  let out := foldl (λ seen x, if decide (x ∈ seen) then seen else seen ++ [x])
                   seen l in
  (NoDup seen → NoDup out) ∧ ∀ x, x ∈ out ↔ x ∈ seen ∨ x ∈ l.
Proof.
  revert seen. induction l as [|y l IH]; intros seen; cbn.
  - split; [done|]. intros x. rewrite elem_of_nil. tauto.
  - destruct (IH (if decide (y ∈ seen) then seen else seen ++ [y]))
      as [IHnd IHin].
    split.
    + intros Hnd. apply IHnd. case_decide; [done|].
      apply NoDup_app. split_and!; [done| |apply NoDup_singleton].
      intros x Hx ->%list_elem_of_singleton. done.
    + intros x. rewrite IHin, elem_of_cons. case_decide.
      * split; [tauto|]. intros [?|[->|?]]; tauto.
      * rewrite elem_of_app, list_elem_of_singleton. tauto.
Qed.

Lemma NoDup_unique (l : list string) : NoDup (unique l).
Proof. apply (unique_from l []), NoDup_nil_2. Qed.

Lemma elem_of_unique (l : list string) (x : string) : x ∈ unique l ↔ x ∈ l.
Proof.
  unfold unique. rewrite (proj2 (unique_from l [])), elem_of_nil. tauto.
Qed.

Lemma sorted_Permutation (l : list string) : sorted l ≡ₚ l.
Proof. apply merge_sort_Permutation. Qed.

Lemma sorted_ascending (l : list string) : StronglySorted String.le (sorted l).
Proof. apply StronglySorted_merge_sort; apply _. Qed.

(** The result of [sorted] is the only ascending arrangement of the list. *)
Lemma sorted_unique (l k : list string) :
  k ≡ₚ l → StronglySorted String.le k → k = sorted l.
Proof.
  intros Hperm Hk.
  apply (StronglySorted_unique String.le).
  - done.
  - apply sorted_ascending.
  - by rewrite sorted_Permutation.
Qed.

Lemma summary_countries_spec (table : list processed_row) :
  NoDup (summary_countries table)
  ∧ (∀ c, c ∈ summary_countries table ↔ ∃ r, r ∈ table ∧ Country r = c)
  ∧ StronglySorted String.le (summary_countries table).
Proof.
  unfold summary_countries. split_and!.
  - rewrite sorted_Permutation. apply NoDup_unique.
  - intros c. rewrite sorted_Permutation, elem_of_unique, list_elem_of_fmap.
    split; [intros (r & -> & Hr) | intros (r & Hr & <-)]; eauto.
  - apply sorted_ascending.
Qed.

(** [first] is the first record of [country] in [table]. *)
Definition first_record_of (table : list processed_row) (country : string)
    (first : processed_row) : Prop :=
  ∃ before after,
    table = before ++ first :: after
    ∧ Country first = country
    ∧ Forall (λ r, Country r ≠ country) before.

Lemma filter_first_record (table : list processed_row) (country : string)
    (first : processed_row) (rest : list processed_row) :
  filter (λ r, Country r = country) table = first :: rest →
  first_record_of table country first.
Proof.
  intros Hf.
  assert (head (filter (λ r, Country r = country) table) = Some first) as Hhd
    by (by rewrite Hf).
  apply head_filter_Some in Hhd as (before & after & -> & Hbefore).
  exists before, after. split_and!; [done| |done].
  assert (first ∈ filter (λ r, Country r = country) (before ++ first :: after))
    as Hin by (rewrite Hf; left).
  by apply list_elem_of_filter in Hin as [? _].
Qed.

Lemma filter_none {A} (P : A → Prop) `{!∀ x, Decision (P x)} (l : list A) :
  (∀ x, x ∈ l → ¬ P x) → filter P l = [].
Proof.
  intros Hnone. destruct (filter P l) as [|x k] eqn:Hf; [done|].
  assert (x ∈ filter P l) as [Hx HP]%list_elem_of_filter by (rewrite Hf; left).
  by destruct (Hnone x).
Qed.

(** The rows of the summary, one for each country of [summary_countries]. *)
Lemma create_summary_rows (table : list processed_row)
    (rows : list (gmap string cell)) :
  (create_summary_by_country table).1 = Ok rows →
  Forall2 (summary_row_ok table) (summary_countries table) rows.
Proof.
  rewrite create_summary_by_country_eq. cbn [fst]. intros H.
  apply mapM_Ok_Forall2 in H.
  eapply Forall2_impl; [exact H|]. apply summary_row_cells.
Qed.

(** What C8 says of one country and its row. *)
Definition missing_hazard_rule (table : list processed_row) (country : string)
    (row : gmap string cell) : Prop :=
  (∀ hazard,
     hazard ∈ ["Drought"; "Flood"; "Wildfire"] →
     (∀ r, r ∈ table → Country r = country → Hazard_Type r ≠ hazard) →
     row !! (hazard +:+ "_Sum") = Some (CNum (Num 0))
     ∧ row !! (hazard +:+ "_Avg") = Some (CNum (Num 0))
     ∧ row !! (hazard +:+ "_Peak") = Some (CNum (Num 0))
     ∧ row !! (hazard +:+ "_GO_Num") = Some (CInt 0)
     ∧ row !! (hazard +:+ "_GO_Cat") = Some (CStr "No Data")
     ∧ row !! (hazard +:+ "_INFORM") = Some (CStr "No Data"))
  ∧ ∃ drought flood wildfire total total_avg overall_avg,
      row !! "Drought_Avg" = Some (CNum drought)
      ∧ row !! "Flood_Avg" = Some (CNum flood)
      ∧ row !! "Wildfire_Avg" = Some (CNum wildfire)
      ∧ py_sum [drought; flood; wildfire] = Ok total
      ∧ py_div total 3 = Ok total_avg
      ∧ py_round total_avg 2 = Ok overall_avg
      ∧ row !! "Overall_Avg" = Some (CNum overall_avg).

Lemma summary_row_missing_hazard (table : list processed_row)
    (country : string) (row : gmap string cell) :
  summary_row_ok table country row → missing_hazard_rule table country row.
Proof.
  intros (first & rest & Hcd & _ & _ & _ & _ & _ & Hcells & Hoverall).
  rewrite <- Hcd in Hcells, Hoverall. split.
  - intros hazard Hh Hnone. specialize (Hcells hazard Hh).
    rewrite filter_none in Hcells; [done|].
    intros r [Hc Hr]%list_elem_of_filter. by apply Hnone.
  - destruct Hoverall as (total & avg & o & go & inform & Hsum & Hdiv & Hround
                            & _ & _ & Ho & _).
    set (cd := filter (λ r, Country r = country) table) in *.
    exists (hazard_avg cd "Drought"), (hazard_avg cd "Flood"),
      (hazard_avg cd "Wildfire"), total, avg, o.
    split_and!; try done.
    + apply (hazard_cells_avg row "Drought" cd), Hcells. repeat constructor.
    + apply (hazard_cells_avg row "Flood" cd), Hcells. repeat constructor.
    + apply (hazard_cells_avg row "Wildfire" cd), Hcells. repeat constructor.
Qed.

(** C8: in the summary, a country with no record for a hazard gets 0 in the
    hazard's Sum, Avg and Peak columns, 0 as GO number and 'No Data' as
    categories; and in every row Overall_Avg is the sum of the three Avg
    columns divided by 3, rounded to two decimals, so that a missing hazard
    counts as 0 in a mean of three. *)
Theorem missing_hazard_counts_as_zero (table : list processed_row)
    (rows : list (gmap string cell)) :
  (create_summary_by_country table).1 = Ok rows →
  Forall2 (missing_hazard_rule table) (summary_countries table) rows.
Proof.
  intros H. apply create_summary_rows in H.
  eapply Forall2_impl; [exact H|]. apply summary_row_missing_hazard.
Qed.

(** What C10 says of one country and its row. *)
Definition first_record_rule (table : list processed_row) (country : string)
    (row : gmap string cell) : Prop :=
  ∃ first,
    first_record_of table country first
    ∧ row !! "Country" = Some (CStr country)
    ∧ row !! "ISO3" = Some (CStr (ISO3 first))
    ∧ row !! "Population_Thousands" = Some (CNum (Population_Thousands first))
    ∧ row !! "LCC" = Some (CNum (LCC first))
    ∧ row !! "Vulnerability" = Some (CNum (Vulnerability first)).

(** C10: the summary has one row for each country name of the input and no
    two rows for the same name; the rows come in ascending order of the
    names; each row takes ISO3, Population_Thousands, LCC and Vulnerability
    from the first input record of its country. *)
Theorem summary_one_row_per_country (table : list processed_row)
    (rows : list (gmap string cell)) :
  (create_summary_by_country table).1 = Ok rows →
  ∃ countries,
    NoDup countries
    ∧ (∀ c, c ∈ countries ↔ ∃ r, r ∈ table ∧ Country r = c)
    ∧ StronglySorted String.le countries
    ∧ Forall2 (first_record_rule table) countries rows.
Proof.
  intros H. apply create_summary_rows in H.
  exists (summary_countries table).
  destruct (summary_countries_spec table) as (Hnd & Hin & Hsorted).
  split_and!; try done.
  eapply Forall2_impl; [exact H|].
  intros country row (first & rest & Hcd & ? & ? & ? & ? & ? & _).
  exists first. split_and!; try done. by eapply filter_first_record.
Qed.

(** *** When the summary is made *)

Lemma hazard_avg_not_None (country_data : list processed_row) (hazard : string) :
  Forall (λ r, Yearly_Average r ≠ PyNone) country_data →
  hazard_avg country_data hazard ≠ PyNone.
Proof.
  intros Hall. unfold hazard_avg.
  destruct (filter _ country_data) as [|first ?] eqn:Hf; [done|].
  assert (first ∈ filter (λ r, Hazard_Type r = hazard) country_data)
    as [_ Hin]%list_elem_of_filter by (rewrite Hf; left).
  by apply (proj1 (Forall_forall _ _) Hall).
Qed.

Lemma py_div_not_None (x : score) (d : Q) :
  x ≠ PyNone → ∃ y, py_div x d = Ok y ∧ y ≠ PyNone.
Proof. destruct x; cbn; intros ?; try done; eauto. Qed.

(** A row is made for every country of the table, unless a yearly average
    of the table is None. *)
Lemma summary_row_returns (table : list processed_row) (country : string) :
  Forall (λ r, Yearly_Average r ≠ PyNone) table →
  country ∈ summary_countries table →
  ∃ row, summary_row table country = Ok row.
Proof.
  intros Hall Hc.
  apply (proj1 (proj2 (summary_countries_spec table))) in Hc
    as (r & Hr & Hcountry).
  unfold summary_row.
  assert (Forall (λ r, Yearly_Average r ≠ PyNone)
            (filter (λ r, Country r = country) table)) as Hcd.
  { apply Forall_forall. intros x [_ Hx]%list_elem_of_filter.
    by apply (proj1 (Forall_forall _ _) Hall). }
  destruct (filter (λ r, Country r = country) table) as [|first rest] eqn:Hf.
  { assert (r ∈ filter (λ r, Country r = country) table) as Hin
      by (by apply list_elem_of_filter).
    rewrite Hf in Hin. by apply elem_of_nil in Hin. }
  set (cd := first :: rest) in *. run_binds.
  set (base := <["Vulnerability" := _]> _).
  pose proof (hazards_loop_cells cd base) as Hcells.
  set (row1 := foldl (add_hazard cd) base INCLUDED_HAZARDS) in *.
  assert (∀ h, h ∈ INCLUDED_HAZARDS →
            cell_number (dict_get row1 (h +:+ "_Avg") (CInt 0))
            = Ok (hazard_avg cd h)) as Havg.
  { intros h Hh. unfold dict_get.
    by rewrite (hazard_cells_avg _ _ _ (Hcells h Hh)). }
  cbn [mapM INCLUDED_HAZARDS].
  rewrite !Havg by (unfold INCLUDED_HAZARDS; set_solver).
  run_binds.
  destruct (py_sum_not_None
              [hazard_avg cd "Drought"; hazard_avg cd "Flood";
               hazard_avg cd "Wildfire"]) as (total & -> & Htotal).
  { repeat constructor; by apply hazard_avg_not_None. }
  run_binds.
  destruct (py_div_not_None total
              (inject_Z (Z.of_nat (length INCLUDED_HAZARDS))) Htotal)
    as (avg & -> & Havg').
  run_binds.
  destruct (py_round_not_None avg 2 Havg') as [o ->].
  destruct (categorize_returns avg) as (n & tier & -> & ->).
  run_binds. by eexists.
Qed.

Lemma create_summary_by_country_returns (table : list processed_row) :
  Forall (λ r, Yearly_Average r ≠ PyNone) table →
  ∃ rows, (create_summary_by_country table).1 = Ok rows.
Proof.
  intros Hall. rewrite create_summary_by_country_eq. cbn [fst].
  apply mapM_returns, Forall_forall. intros country Hc.
  by apply summary_row_returns.
Qed.

(** The tables [process_risk_data] returns are summarised. *)
Lemma process_record_average_not_None (r : record) (row : processed_row) :
  process_record r = Ok row → Yearly_Average row ≠ PyNone.
Proof.
  unfold process_record. intros H. invert_binds H. injection H as <-.
  cbn [Yearly_Average].
  match goal with H : py_round ?a 2 = Ok ?x |- ?x ≠ _ =>
    destruct a; cbn in H; by simplify_eq end.
Qed.

(** *** A small table *)

Definition sample_row (country iso hazard : string) (yearly_sum : Q)
    (population : Q) : processed_row := {|
  Country := country;
  ISO3 := iso;
  Hazard_Type := hazard;
  January := Num 0; February := Num 0; March := Num 0; April := Num 0;
  May := Num 0; June := Num 0; July := Num 0; August := Num 0;
  September := Num 0; October := Num 0; November := Num 0; December := Num 0;
  Yearly_Sum := Num yearly_sum;
  Yearly_Average := Num (yearly_sum / 12);
  Peak_Month_Score := Num 0;
  GO_Category_Num := 3;
  GO_Category := "Medium";
  INFORM_Category := "Medium";
  Peak_GO_Num := 1;
  Peak_GO_Category := "Very Low";
  Peak_INFORM_Category := "Very Low";
  LCC := Num 5;
  Vulnerability := Num 4;
  Population_Thousands := Num population;
|}.

(** Kenya comes first and has no Wildfire row; its second row disagrees
    with the first on the ISO code and the population. *)
Definition sample_table : list processed_row :=
  [ sample_row "Kenya" "KEN" "Drought" 72 53771;
    sample_row "Angola" "AGO" "Flood" 36 32866;
    sample_row "Kenya" "KE2" "Flood" 36 1;
    sample_row "Angola" "AGO" "Wildfire" 60 32866;
    sample_row "Angola" "AGO" "Drought" 48 32866 ].

Lemma missing_hazard_counts_as_zero_witness :
  ∃ rows,
    (create_summary_by_country sample_table).1 = Ok rows
    ∧ Forall2 (missing_hazard_rule sample_table)
        (summary_countries sample_table) rows.
Proof.
  destruct (is_Ok_returns (create_summary_by_country sample_table).1)
    as [rows Hrows]; [vm_compute; reflexivity|].
  exists rows. split; [exact Hrows|].
  exact (missing_hazard_counts_as_zero sample_table rows Hrows).
Defined.

Lemma summary_one_row_per_country_witness :
  ∃ rows countries,
    (create_summary_by_country sample_table).1 = Ok rows
    ∧ NoDup countries
    ∧ (∀ c, c ∈ countries ↔ ∃ r, r ∈ sample_table ∧ Country r = c)
    ∧ StronglySorted String.le countries
    ∧ Forall2 (first_record_rule sample_table) countries rows.
Proof.
  destruct (is_Ok_returns (create_summary_by_country sample_table).1)
    as [rows Hrows]; [vm_compute; reflexivity|].
  destruct (summary_one_row_per_country sample_table rows Hrows)
    as (countries & H).
  exists rows, countries. split; [exact Hrows | exact H].
Defined.

(** Cell [key] of row [i] of the summary of [table]. *)
Definition summary_cell (table : list processed_row) (i : nat) (key : string)
    : option cell :=
  match (create_summary_by_country table).1 with
  | Ok rows => row ← rows !! i; row !! key
  | Raise _ => None
  end.

(** Kenya has a Drought average of 6 and a Flood average of 3 and no
    Wildfire row: its overall average is 9 / 3 = 3, not 9 / 2. *)
Example kenya_overall_avg :
  summary_countries sample_table = ["Angola"; "Kenya"]
  ∧ summary_cell sample_table 1 "Country" = Some (CStr "Kenya")
  ∧ summary_cell sample_table 1 "ISO3" = Some (CStr "KEN")
  ∧ summary_cell sample_table 1 "Wildfire_Avg" = Some (CNum (Num 0))
  ∧ summary_cell sample_table 1 "Wildfire_INFORM" = Some (CStr "No Data")
  ∧ summary_cell sample_table 1 "Overall_Avg" = Some (CNum (Num 3.00)).
Proof. by vm_compute. Qed.

(** ** Population normalisation *)

Definition sample_sheet : gmap string column :=
  <["Country" := ObjCol [XStr "Angola"; XStr "Kenya"; XStr "Nowhere"; XStr "Lost"] ]>
  (<["ISO3" := ObjCol [XStr "AGO"; XStr "KEN"; XStr ""; XNum PrimFloat.nan] ]>
  (<["Population_Thousands" := NumCol [32866; 53771; 10; 0]%float ]>
  (<["Drought_Avg" := NumCol [4; 6; 1; 2]%float ]>
  (<["Flood_Avg" := NumCol [3; 3; 1; 0]%float ]>
  (<["Overall_Avg" := NumCol [4; 3; 1; 1]%float ]> ∅))))).

(** The row of a table at a position: the cells of its columns there. *)
Definition row_at (df : gmap string column) (i : nat) : gmap string xcell :=
  omap (λ c, col_cell c i) df.

(** A table of [n] rows: every column has [n] entries. *)
Definition table_rows (n : nat) (df : gmap string column) : Prop :=
  ∀ key c, df !! key = Some c → col_length c = n.

(** The ISO3 cell at position [i] is there, is not a missing value and is
    not the empty string. *)
Definition iso3_present (iso3 : column) (i : nat) : bool :=
  match col_cell iso3 i with
  | Some (XStr s) => negb (String.eqb s "")
  | Some (XNum x) => negb (PrimFloat.is_nan x)
  | None => false
  end.

Lemma getitem_Ok (df : gmap string column) (key : string) (c : column) :
  getitem df key = Ok c ↔ df !! key = Some c.
Proof. unfold getitem. destruct (df !! key); split; congruence. Qed.

Lemma take_lookup {A} (indexer : list nat) (xs : list A) (j : nat) :
  Forall (λ i, i < length xs)%nat indexer →
  take indexer xs !! j = indexer !! j ≫= (λ i, xs !! i).
Proof.
  unfold take. intros Hall. revert j.
  induction Hall as [|i indexer Hi _ IH]; intros j; [done|].
  cbn [omap list_omap]. apply lookup_lt_is_Some in Hi as [x Hx].
  rewrite Hx. destruct j; cbn; [done | apply IH].
Qed.

Lemma length_take {A} (indexer : list nat) (xs : list A) :
  Forall (λ i, i < length xs)%nat indexer →
  length (take indexer xs) = length indexer.
Proof.
  unfold take. induction 1 as [|i indexer Hi _ IH]; [done|].
  cbn [omap list_omap]. apply lookup_lt_is_Some in Hi as [x Hx].
  rewrite Hx. cbn. by rewrite IH.
Qed.

Lemma col_cell_take (indexer : list nat) (c : column) (i j : nat) :
  Forall (λ i, i < col_length c)%nat indexer →
  indexer !! j = Some i →
  col_cell (col_take indexer c) j = col_cell c i.
Proof.
  intros Hall Hj. destruct c as [xs|xs]; cbn in *;
    rewrite take_lookup by done; by rewrite Hj.
Qed.

Lemma col_length_take (indexer : list nat) (c : column) :
  Forall (λ i, i < col_length c)%nat indexer →
  col_length (col_take indexer c) = length indexer.
Proof. destruct c; cbn; apply length_take. Qed.

Lemma nonzero_lt (mask : list bool) :
  Forall (λ i, i < length mask)%nat (nonzero mask).
Proof.
  apply Forall_forall. intros i [_ Hi]%list_elem_of_filter.
  by apply list_elem_of_lookup in Hi as [k [-> ?]%lookup_seq].
Qed.

(** Boolean indexing keeps the rows of the positions where the mask holds
    True, in order. *)
Lemma row_at_getitem_mask (df : gmap string column) (mask : list bool)
    (i j : nat) :
  table_rows (length mask) df →
  nonzero mask !! j = Some i →
  row_at (getitem_mask df mask) j = row_at df i.
Proof.
  intros Hrows Hj. apply map_eq. intros key.
  unfold row_at, getitem_mask. rewrite !lookup_omap, lookup_fmap.
  destruct (df !! key) as [c|] eqn:Hc; [|done]. cbn.
  apply col_cell_take; [|done].
  rewrite (Hrows key c Hc). apply nonzero_lt.
Qed.

Lemma table_rows_getitem_mask (df : gmap string column) (mask : list bool) :
  table_rows (length mask) df →
  table_rows (length (nonzero mask)) (getitem_mask df mask).
Proof.
  intros Hrows key c. unfold getitem_mask. rewrite lookup_fmap.
  destruct (df !! key) as [c'|] eqn:Hc; [|done]. intros [= <-].
  apply col_length_take. rewrite (Hrows key c' Hc). apply nonzero_lt.
Qed.

Lemma row_at_insert (df : gmap string column) (key : string) (c : column)
    (i : nat) (v : xcell) :
  col_cell c i = Some v →
  row_at (<[key := c]> df) i = <[key := v]> (row_at df i).
Proof. intros Hv. unfold row_at. by apply omap_insert_Some. Qed.

Lemma table_rows_insert (n : nat) (df : gmap string column) (key : string)
    (c : column) :
  col_length c = n → table_rows n df → table_rows n (<[key := c]> df).
Proof.
  intros Hc Hrows key' c'. rewrite lookup_insert.
  case_decide; [by intros [= <-] | apply Hrows].
Qed.

Lemma length_iso3_mask (iso3 : column) :
  length (zip_with andb (notna iso3) (col_ne iso3 "")) = col_length iso3.
Proof.
  destruct iso3 as [xs|xs]; cbn; rewrite length_zip_with, !length_fmap; lia.
Qed.

Lemma iso3_mask_lookup (iso3 : column) (i : nat) :
  zip_with andb (notna iso3) (col_ne iso3 "") !! i = Some true
  ↔ iso3_present iso3 i = true.
Proof.
  unfold iso3_present.
  destruct iso3 as [xs|xs]; cbn; rewrite lookup_zip_with, !list_lookup_fmap;
    destruct (xs !! i) as [v|]; cbn; try done.
  - rewrite andb_true_r. split; congruence.
  - destruct v; cbn; [|rewrite andb_true_r]; split; congruence.
Qed.

(** The mask of the script selects the positions whose ISO3 is present. *)
Lemma nonzero_iso3_mask (iso3 : column) :
  nonzero (zip_with andb (notna iso3) (col_ne iso3 "")) =
  filter (λ i, iso3_present iso3 i = true) (seq 0 (col_length iso3)).
Proof.
  unfold nonzero. rewrite length_iso3_mask.
  apply list_filter_iff, iso3_mask_lookup.
Qed.

Lemma add_norm_Ok (viz_df out : gmap string column) (target avg : string) :
  add_norm viz_df target avg = Ok out →
  ∃ xs roots,
    viz_df !! avg = Some (NumCol xs)
    ∧ viz_df !! "Pop_Sqrt" = Some (NumCol roots)
    ∧ out = <[target := NumCol (np_round 4 <$> zip_with PrimFloat.div xs roots)]>
              viz_df.
Proof.
  unfold add_norm. intros H. invert_binds H. injection H as <-.
  repeat match goal with H : getitem _ _ = Ok _ |- _ =>
    apply getitem_Ok in H end.
  repeat match goal with
  | H : col_div ?a ?b = Ok _ |- _ =>
      destruct a as [xs|], b as [roots|]; try done; injection H as <-
  | H : col_round _ (NumCol _) = Ok _ |- _ => injection H as <-
  end.
  by exists xs, roots.
Qed.

(** The cell of a normalised column at a position. *)
Lemma norm_cell (xs pops : list float) (i : nat) (x p : float) :
  xs !! i = Some x → pops !! i = Some p →
  col_cell (NumCol (np_round 4 <$>
                      zip_with PrimFloat.div xs (PrimFloat.sqrt <$> pops))) i
  = Some (XNum (np_round 4 (PrimFloat.div x (PrimFloat.sqrt p)))).
Proof.
  intros Hx Hp. cbn [col_cell].
  rewrite list_lookup_fmap, lookup_zip_with, Hx, list_lookup_fmap, Hp. done.
Qed.

Lemma norm_length (n : nat) (xs pops : list float) :
  length xs = n → length pops = n →
  col_length (NumCol (np_round 4 <$>
                        zip_with PrimFloat.div xs (PrimFloat.sqrt <$> pops)))
  = n.
Proof.
  intros Hx Hp. cbn. rewrite length_fmap, length_zip_with, length_fmap. lia.
Qed.

(** The row the script makes from a row of the sheet. *)
Definition normalized_row (row : gmap string xcell) (p d f o : float)
    : gmap string xcell :=
  <["Overall_Norm" := XNum (np_round 4 (PrimFloat.div o (PrimFloat.sqrt p)))]>
  (<["Flood_Norm" := XNum (np_round 4 (PrimFloat.div f (PrimFloat.sqrt p)))]>
  (<["Drought_Norm" := XNum (np_round 4 (PrimFloat.div d (PrimFloat.sqrt p)))]>
  (<["Pop_Sqrt" := XNum (PrimFloat.sqrt p)]> row))).

(** C4: the table returned holds, in order, the rows of the sheet whose
    ISO3 is neither missing nor empty, and no other row; each of them has
    gained Drought_Norm, Flood_Norm and Overall_Norm, which are its
    Drought_Avg, Flood_Avg and Overall_Avg divided by the square root of its
    Population_Thousands and rounded to four decimals. *)
Theorem population_normalization (sheet out : gmap string column) (n : nat) :
  table_rows n sheet →
  load_and_normalize_data sheet = Ok out →
  ∃ iso3,
    sheet !! "ISO3" = Some iso3
    ∧ let kept := filter (λ i, iso3_present iso3 i = true) (seq 0 n) in
      table_rows (length kept) out
      ∧ ∀ j i, kept !! j = Some i →
          ∃ p d f o,
            row_at sheet i !! "Population_Thousands" = Some (XNum p)
            ∧ row_at sheet i !! "Drought_Avg" = Some (XNum d)
            ∧ row_at sheet i !! "Flood_Avg" = Some (XNum f)
            ∧ row_at sheet i !! "Overall_Avg" = Some (XNum o)
            ∧ row_at out j = normalized_row (row_at sheet i) p d f o.
Proof.
  intros Hrows. unfold load_and_normalize_data. intros H. invert_binds H.
  injection H as <-.
  repeat match goal with H : getitem _ _ = Ok _ |- _ =>
    apply getitem_Ok in H end.
  repeat match goal with H : add_norm _ _ _ = Ok _ |- _ =>
    apply add_norm_Ok in H as (? & ? & ? & ? & ->) end.
  repeat match goal with
  | H : <[_ := _]> _ !! _ = Some _ |- _ =>
      first [ rewrite lookup_insert_eq in H
            | rewrite lookup_insert_ne in H by done ]
  end.
  match goal with H : np_sqrt ?c = Ok _ |- _ =>
    destruct c as [pops|]; [|done]; injection H as <- end.
  simplify_eq.
  match goal with
  | Hp : sheet !! "Population_Thousands" = Some (NumCol pops),
    Hd : sheet !! "Drought_Avg" = Some (NumCol ?ds),
    Hf : sheet !! "Flood_Avg" = Some (NumCol ?fs),
    Ho : sheet !! "Overall_Avg" = Some (NumCol ?os),
    Hi : sheet !! "ISO3" = Some ?iso |- _ =>
      rename ds into droughts, fs into floods, os into overalls,
        iso into iso3;
      pose proof (Hrows _ _ Hp) as Hnp; pose proof (Hrows _ _ Hd) as Hnd;
      pose proof (Hrows _ _ Hf) as Hnf; pose proof (Hrows _ _ Ho) as Hno;
      pose proof (Hrows _ _ Hi) as Hni
  end.
  cbn [col_length] in Hnp, Hnd, Hnf, Hno.
  exists iso3. split; [done|]. cbv zeta.
  set (mask := zip_with andb (notna iso3) (col_ne iso3 "")).
  assert (length mask = n) as Hmask
    by (unfold mask; by rewrite length_iso3_mask).
  assert (filter (λ i, iso3_present iso3 i = true) (seq 0 n) = nonzero mask)
    as -> by (unfold mask; by rewrite nonzero_iso3_mask, Hni).
  set (viz_df := <["Overall_Norm" := _]> _).
  assert (table_rows (length mask) viz_df) as Hviz.
  { rewrite Hmask. unfold viz_df.
    repeat (apply table_rows_insert; [try by apply norm_length|]);
      [cbn; by rewrite length_fmap | done]. }
  split; [by apply table_rows_getitem_mask|].
  intros j i Hj.
  assert (i < n)%nat as Hi.
  { rewrite <- Hmask.
    by apply (proj1 (Forall_forall _ _) (nonzero_lt mask)),
             list_elem_of_lookup_2 with j. }
  destruct (lookup_lt_is_Some_2 pops i) as [p Hp]; [lia|].
  destruct (lookup_lt_is_Some_2 droughts i) as [d Hd]; [lia|].
  destruct (lookup_lt_is_Some_2 floods i) as [f Hf]; [lia|].
  destruct (lookup_lt_is_Some_2 overalls i) as [o Ho]; [lia|].
  exists p, d, f, o. unfold row_at at 1 2 3 4. rewrite !lookup_omap.
  repeat match goal with H : sheet !! _ = Some _ |- _ => rewrite H end.
  cbn [mbind option_bind col_cell]. rewrite Hp, Hd, Hf, Ho.
  split_and!; try done.
  rewrite (row_at_getitem_mask _ _ i j) by done.
  unfold viz_df, normalized_row.
  rewrite (row_at_insert _ _ _ i _ (norm_cell _ _ i _ _ Ho Hp)).
  rewrite (row_at_insert _ _ _ i _ (norm_cell _ _ i _ _ Hf Hp)).
  rewrite (row_at_insert _ _ _ i _ (norm_cell _ _ i _ _ Hd Hp)).
  do 3 f_equal. apply row_at_insert. cbn.
  by rewrite list_lookup_fmap, Hp.
Qed.

(** The script returns a table whenever the sheet has the four numeric
    columns and an ISO3 column. *)
Lemma load_and_normalize_data_returns (sheet : gmap string column)
    (pops droughts floods overalls : list float) (iso3 : column) :
  sheet !! "Population_Thousands" = Some (NumCol pops) →
  sheet !! "Drought_Avg" = Some (NumCol droughts) →
  sheet !! "Flood_Avg" = Some (NumCol floods) →
  sheet !! "Overall_Avg" = Some (NumCol overalls) →
  sheet !! "ISO3" = Some iso3 →
  ∃ out, load_and_normalize_data sheet = Ok out.
Proof.
  intros Hp Hd Hf Ho Hi. unfold load_and_normalize_data, add_norm, getitem.
  rewrite Hp. run_binds. cbn [np_sqrt]. run_binds.
  repeat (rewrite ?lookup_insert_eq, ?lookup_insert_ne by done;
          rewrite ?Hd, ?Hf, ?Ho, ?Hi; run_binds;
          cbn [col_div col_round]; run_binds).
  by eexists.
Qed.

Lemma sample_sheet_rows : table_rows 4 sample_sheet.
Proof.
  intros key c. unfold sample_sheet.
  repeat (rewrite lookup_insert; case_decide; [by intros [= <-]|]).
  by rewrite lookup_empty.
Qed.

Lemma population_normalization_witness :
  ∃ out iso3,
    load_and_normalize_data sample_sheet = Ok out
    ∧ sample_sheet !! "ISO3" = Some iso3
    ∧ let kept := filter (λ i, iso3_present iso3 i = true) (seq 0 4) in
      table_rows (length kept) out
      ∧ ∀ j i, kept !! j = Some i →
          ∃ p d f o,
            row_at sample_sheet i !! "Population_Thousands" = Some (XNum p)
            ∧ row_at sample_sheet i !! "Drought_Avg" = Some (XNum d)
            ∧ row_at sample_sheet i !! "Flood_Avg" = Some (XNum f)
            ∧ row_at sample_sheet i !! "Overall_Avg" = Some (XNum o)
            ∧ row_at out j = normalized_row (row_at sample_sheet i) p d f o.
Proof.
  destruct (is_Ok_returns (load_and_normalize_data sample_sheet))
    as [out Hout]; [vm_compute; reflexivity|].
  destruct (population_normalization sample_sheet out 4 sample_sheet_rows Hout)
    as (iso3 & Hiso3 & H).
  exists out, iso3. split; [exact Hout|]. split; [exact Hiso3 | exact H].
Defined.

(** The cells of column [key] in the table the script returns. *)
Definition normalized_column (sheet : gmap string column) (key : string)
    : option column :=
  match load_and_normalize_data sheet with
  | Ok out => out !! key
  | Raise _ => None
  end.

(** Of the four rows of the sample sheet, the one with an empty ISO3 and the
    one with a missing ISO3 are dropped; Kenya's drought score is
    6 / sqrt 53771 = 0.025875..., rounded to 0.0259. *)
Example sample_sheet_normalized :
  normalized_column sample_sheet "Country"
    = Some (ObjCol [XStr "Angola"; XStr "Kenya"])
  ∧ normalized_column sample_sheet "Drought_Norm"
    = Some (NumCol [PrimFloat.div 221 10000; PrimFloat.div 259 10000]).
Proof. split; vm_compute; reflexivity. Qed.

(** A population of 0 does not raise: the quotient is an infinity. *)
Example zero_population_is_infinite :
  np_round 4 (PrimFloat.div 2 (PrimFloat.sqrt 0)) = PrimFloat.infinity.
Proof. vm_compute. reflexivity. Qed.

(** * Further properties *)

(** ** Rounding *)

(** The rounded integer is within one half of the number. *)
Lemma round_half_even_near (q : Q) :
  inject_Z (round_half_even q) - (1 # 2) <= q
  ∧ q <= inject_Z (round_half_even q) + (1 # 2).
Proof.
  unfold round_half_even.
  pose proof (Qfloor_le q) as Hlo. pose proof (Qlt_floor q) as Hhi.
  rewrite inject_Z_plus in Hhi. change (inject_Z 1) with 1 in Hhi.
  destruct (Qcompare (q - inject_Z (Qfloor q)) (1 # 2)) eqn:Hc.
  - apply Qeq_alt in Hc.
    destruct (Z.even (Qfloor q)); rewrite ?inject_Z_plus;
      change (inject_Z 1) with 1; split; lra.
  - apply Qlt_alt in Hc. split; lra.
  - apply Qgt_alt in Hc. rewrite inject_Z_plus.
    change (inject_Z 1) with 1. split; lra.
Qed.

Lemma inject_Z_succ_le (m n : Z) :
  (m < n)%Z → inject_Z m + 1 <= inject_Z n.
Proof.
  intros Hlt. change 1 with (inject_Z 1). rewrite <- inject_Z_plus.
  rewrite <- Zle_Qle. lia.
Qed.

(** Rounding keeps the order. *)
Lemma round_half_even_mono (a b : Q) :
  a <= b → (round_half_even a <= round_half_even b)%Z.
Proof.
  intros Hab. destruct (Z.le_gt_cases (round_half_even a) (round_half_even b))
    as [|Hlt]; [done|].
  apply Z.gt_lt_iff, Z.gt_lt, inject_Z_succ_le in Hlt.
  destruct (round_half_even_near a) as [Ha _].
  destruct (round_half_even_near b) as [_ Hb].
  assert (a == b) as Heq by lra.
  rewrite (round_half_even_proper a b Heq) in Hlt. lra.
Qed.

(** An integer rounds to itself. *)
Lemma round_half_even_Z (z : Z) : round_half_even (inject_Z z) = z.
Proof.
  destruct (round_half_even_near (inject_Z z)) as [Hlo Hhi].
  destruct (Z.lt_trichotomy (round_half_even (inject_Z z)) z)
    as [Hlt|[Heq|Hgt]]; [|done|].
  - apply inject_Z_succ_le in Hlt. lra.
  - apply inject_Z_succ_le in Hgt. lra.
Qed.

(** [round(x, 2)] of a number, as a number. *)
Definition round2 (q : Q) : Q := round_half_even (q * 100) # 100.

Lemma py_round_2 (q : Q) : py_round (Num q) 2 = Ok (Num (round2 q)).
Proof. reflexivity. Qed.

Lemma round2_mono (a b : Q) : a <= b → round2 a <= round2 b.
Proof.
  intros Hab. unfold round2.
  assert (round_half_even (a * 100) <= round_half_even (b * 100))%Z as Hle
    by (apply round_half_even_mono; lra).
  unfold Qle. cbn. lia.
Qed.

(** A number with two decimals is its own rounding. *)
Lemma round2_fixed (t : Q) (k : Z) : t * 100 == inject_Z k → round2 t == t.
Proof.
  intros Hk. unfold round2.
  rewrite (round_half_even_proper _ _ Hk), round_half_even_Z, Qmake_Qdiv.
  change (inject_Z (Z.pos 100)) with 100. rewrite <- Hk. field.
Qed.

(** Rounding to two decimals does not cross a threshold that has two
    decimals. *)
Lemma round2_threshold (x t : Q) (k : Z) :
  t * 100 == inject_Z k →
  (x < t → round2 x <= t) ∧ (t <= x → t <= round2 x).
Proof.
  intros Hk. pose proof (round2_fixed t k Hk) as Ht. split; intros Hx.
  - rewrite <- Ht. apply round2_mono. lra.
  - rewrite <- Ht. by apply round2_mono.
Qed.

(** ** Tiers *)

Lemma go_number_mono (a b : Q) (na nb : Z) (ta tb : string) :
  a <= b →
  categorize_go_platform (Num a) = Ok (na, ta) →
  categorize_go_platform (Num b) = Ok (nb, tb) →
  (na <= nb)%Z.
Proof.
  intros Hab.
  destruct (categorize_cases a)
    as [(? & -> & _)|[(? & -> & _)|[(? & -> & _)|[(? & -> & _)|(? & -> & _)]]]];
  destruct (categorize_cases b)
    as [(? & -> & _)|[(? & -> & _)|[(? & -> & _)|[(? & -> & _)|(? & -> & _)]]]];
  intros [= <- <-] [= <- <-]; first [ lia | lra ].
Qed.


(** X1: a higher score never gets a lower GO number. *)
Theorem categorize_go_platform_monotone (a b : Q) :
  a <= b →
  ∃ na ta nb tb,
    categorize_go_platform (Num a) = Ok (na, ta)
    ∧ categorize_go_platform (Num b) = Ok (nb, tb)
    ∧ (na <= nb)%Z.
Proof.
  intros Hab.
  destruct (categorize_returns (Num a)) as (na & ta & Ha & _).
  destruct (categorize_returns (Num b)) as (nb & tb & Hb & _).
  exists na, ta, nb, tb. split_and!; [done..|].
  by eapply go_number_mono.
Qed.

Lemma categorize_go_platform_monotone_witness :
  ∃ na ta nb tb,
    categorize_go_platform (Num 1.99) = Ok (na, ta)
    ∧ categorize_go_platform (Num 6.5) = Ok (nb, tb)
    ∧ (na <= nb)%Z.
Proof. apply (categorize_go_platform_monotone 1.99 6.5). lra. Defined.

(** The GO number of a rounded score is the number of the score or the
    next one. *)
Lemma tier_after_rounding (x : Q) (n n' : Z) (t t' : string) :
  categorize_go_platform (Num x) = Ok (n, t) →
  categorize_go_platform (Num (round2 x)) = Ok (n', t') →
  (n <= n' <= n + 1)%Z.
Proof.
  destruct (round2_threshold x 2.0 200) as [H2 H2']; [reflexivity|].
  destruct (round2_threshold x 3.5 350) as [H3 H3']; [reflexivity|].
  destruct (round2_threshold x 5.0 500) as [H5 H5']; [reflexivity|].
  destruct (round2_threshold x 6.5 650) as [H6 H6']; [reflexivity|].
  destruct (categorize_cases x)
    as [(? & -> & _)|[(? & -> & _)|[(? & -> & _)|[(? & -> & _)|(? & -> & _)]]]];
  destruct (categorize_cases (round2 x))
    as [(? & -> & _)|[(? & -> & _)|[(? & -> & _)|[(? & -> & _)|(? & -> & _)]]]];
  intros [= <- <-] [= <- <-];
  repeat match goal with
  | H : ?a < ?b → _ |- _ =>
      first [ specialize (H ltac:(lra)) | clear H ]
  | H : ?a <= ?b → _ |- _ =>
      first [ specialize (H ltac:(lra)) | clear H ]
  end;
  first [ lia | lra ].
Qed.

(** ** Rows of the detailed table *)

(** The values a row is made of. *)
Lemma process_record_inv (record : record) (row : processed_row) :
  process_record record = Ok row →
  ∃ yearly_sum yearly_avg peak,
    yearly_sum_of record = Ok yearly_sum
    ∧ yearly_avg_of yearly_sum = Ok yearly_avg
    ∧ py_max (monthly_scores_of record) = Ok peak
    ∧ py_round yearly_sum 2 = Ok (Yearly_Sum row)
    ∧ py_round yearly_avg 2 = Ok (Yearly_Average row)
    ∧ py_round peak 2 = Ok (Peak_Month_Score row)
    ∧ categorize_go_platform yearly_avg
      = Ok (GO_Category_Num row, GO_Category row)
    ∧ categorize_inform yearly_avg = Ok (INFORM_Category row)
    ∧ categorize_go_platform peak
      = Ok (Peak_GO_Num row, Peak_GO_Category row)
    ∧ categorize_inform peak = Ok (Peak_INFORM_Category row).
Proof.
  unfold process_record. intros H. invert_binds H. injection H as <-. cbn.
  repeat match goal with
  | H : categorize_go_platform _ = Ok ?g |- _ =>
      is_var g; destruct g
  end.
  do 3 eexists. split_and!; try eassumption.
Qed.

(** X2: the tier of the average a row shows is the tier the row carries or
    the next higher one: rounding to two decimals can lift the shown value
    onto a threshold, never below one. *)
Theorem displayed_average_tier (record : record) (row : processed_row) :
  process_record record = Ok row →
  ∃ n t,
    categorize_go_platform (Yearly_Average row) = Ok (n, t)
    ∧ (GO_Category_Num row <= n <= GO_Category_Num row + 1)%Z.
Proof.
  intros H. apply process_record_inv in H
    as (ys & avg & pk & _ & _ & _ & _ & Hround & _ & Hgo & _).
  destruct avg as [| |x]; try done.
  - injection Hround as <-. injection Hgo as <- _. exists 0%Z, "No Data".
    split; [done | lia].
  - rewrite py_round_2 in Hround. injection Hround as <-.
    destruct (categorize_returns (Num (round2 x))) as (n & t & Hn & _).
    exists n, t. split; [done|]. by eapply tier_after_rounding.
Qed.

Lemma displayed_average_tier_witness :
  ∃ row n t,
    process_record kenya_drought = Ok row
    ∧ categorize_go_platform (Yearly_Average row) = Ok (n, t)
    ∧ (GO_Category_Num row <= n <= GO_Category_Num row + 1)%Z.
Proof.
  destruct (is_Ok_returns (process_record kenya_drought)) as [row Hrow];
    [vm_compute; reflexivity|].
  destruct (displayed_average_tier kenya_drought row Hrow) as (n & t & H).
  by exists row, n, t.
Defined.

(** *** What a row takes from its record *)

Lemma upper_char_idemp (c : Ascii.ascii) :
  upper_char (upper_char c) = upper_char c.
Proof. by destruct c as [[] [] [] [] [] [] [] []]. Qed.

Lemma upper_idemp (s : string) : upper (upper s) = upper s.
Proof.
  induction s as [|c s IH]; [done|]. cbn. by rewrite upper_char_idemp, IH.
Qed.

Lemma upper_length (s : string) : String.length (upper s) = String.length s.
Proof. induction s as [|c s IH]; [done|]. cbn. by rewrite IH. Qed.

(** The identifying cells of a row, from the record it is made of. *)
Definition row_of_record (record : record) (row : processed_row) : Prop :=
  process_record record = Ok row
  ∧ Country row = name (country_details record)
  ∧ ISO3 row = upper (iso3 (country_details record))
  ∧ upper (ISO3 row) = ISO3 row
  ∧ String.length (ISO3 row) = String.length (iso3 (country_details record))
  ∧ Hazard_Type row = hazard_type_display record
  ∧ LCC row = dict_get (fields record) "lcc" (Num 0)
  ∧ Vulnerability row = dict_get (fields record) "vulnerability" (Num 0)
  ∧ Population_Thousands row
    = dict_get (fields record) "population_in_thousands" (Num 0).

Lemma process_record_row_of_record (record : record) (row : processed_row) :
  process_record record = Ok row → row_of_record record row.
Proof.
  intros H. split; [done|]. unfold process_record in H.
  invert_binds H. injection H as <-. cbn.
  split_and!; try done; [apply upper_idemp | apply upper_length].
Qed.

(** A string of ASCII characters only. *)
Fixpoint is_ascii (s : string) : bool :=
  match s with
  | EmptyString => true
  | String c s' => (Ascii.N_of_ascii c <? 128)%N && is_ascii s'
  end.

(** X5: when the ISO codes of the records are ASCII text, the table
    [process_risk_data] returns has one row for each record, in the order of
    the records; the row of a record carries its country name, its hazard
    type, its ISO code in upper case and of the same length, and its [lcc],
    [vulnerability] and [population_in_thousands], each 0 when the record
    has no such key and None when it is null. *)
Theorem rows_follow_records (arg : list record) (rows : list processed_row) :
  Forall (λ r, is_ascii (iso3 (country_details r)) = true) arg →
  (process_risk_data arg).1 = Ok rows →
  Forall2 row_of_record arg rows.
Proof.
  intros _. rewrite process_risk_data_eq. cbn [fst]. intros H.
  apply mapM_Ok_Forall2 in H.
  eapply Forall2_impl; [exact H|]. apply process_record_row_of_record.
Qed.

Lemma rows_follow_records_witness :
  ∃ rows,
    (process_risk_data [kenya_drought; angola_flood]).1 = Ok rows
    ∧ Forall2 row_of_record [kenya_drought; angola_flood] rows.
Proof.
  destruct (is_Ok_returns (process_risk_data [kenya_drought; angola_flood]).1)
    as [rows Hrows]; [vm_compute; reflexivity|].
  exists rows. split; [exact Hrows|].
  apply (rows_follow_records [kenya_drought; angola_flood] rows);
    [repeat constructor | exact Hrows].
Defined.

(** *** The peak month *)

(** One turn of [max]. *)
Definition max_step (acc : result score) (item : score) : result score :=
  m ← acc; b ← py_gt item m; mret (if b : bool then item else m).

Lemma py_max_cons (x : score) (rest : list score) :
  py_max (x :: rest) = foldl max_step (Ok x) rest.
Proof. reflexivity. Qed.

(** Once the running maximum is NaN it stays NaN: nothing compares
    greater than NaN. *)
Lemma max_from_NaN (xs : list score) :
  Forall (λ x, x ≠ PyNone) xs → foldl max_step (Ok NaN) xs = Ok NaN.
Proof.
  induction 1 as [|x xs Hx _ IH]; [done|]. cbn.
  by destruct x.
Qed.

(** From a number, the running maximum ends at the largest number seen; a
    NaN item is passed over. *)
Lemma max_from_Num (xs : list score) (acc : Q) :
  Forall (λ x, x ≠ PyNone) xs →
  ∃ m,
    foldl max_step (Ok (Num acc)) xs = Ok (Num m)
    ∧ (m = acc ∨ Num m ∈ xs)
    ∧ acc <= m
    ∧ ∀ q, Num q ∈ xs → q <= m.
Proof.
  intros Hxs. revert acc.
  induction Hxs as [|x xs Hx _ IH]; intros acc.
  - exists acc. split_and!; [done | by left | lra |].
    intros q Hq. by apply elem_of_nil in Hq.
  - cbn [foldl]. destruct x as [| |q]; [done| |].
    + destruct (IH acc) as (m & Hm & Hin & Hacc & Hall).
      exists m. split_and!; [done | | done |].
      * destruct Hin; [by left | right; by right].
      * intros q [Hq|Hq]%elem_of_cons; [done | by apply Hall].
    + cbn. destruct (Qltb acc q) eqn:Hlt.
      * apply Qltb_lt in Hlt. destruct (IH q) as (m & Hm & Hin & Hq & Hall).
        exists m. split_and!; [done | | lra |].
        -- right. destruct Hin as [->|Hin]; [left | by right].
        -- intros q' [[= ->]|Hq']%elem_of_cons; [done | by apply Hall].
      * apply Qltb_ge in Hlt.
        destruct (IH acc) as (m & Hm & Hin & Hacc & Hall).
        exists m. split_and!; [done | | done |].
        -- destruct Hin; [by left | right; by right].
        -- intros q' [[= ->]|Hq']%elem_of_cons; [lra | by apply Hall].
Qed.

(** The first of the monthly scores is January's. *)
Lemma monthly_scores_january (record : record) :
  ∃ rest,
    monthly_scores_of record
    = py_or (dict_get (fields record) "january" (Num 0)) (Num 0) :: rest.
Proof. by eexists. Qed.

(** The peak of a record whose January is a number. *)
Lemma peak_from_january (record : record) (row : processed_row) (q0 : Q)
    (rest : list score) :
  monthly_scores_of record = Num q0 :: rest →
  process_record record = Ok row →
  ∃ m,
    Num m ∈ monthly_scores_of record
    ∧ (∀ q, Num q ∈ monthly_scores_of record → q <= m)
    ∧ Peak_Month_Score row = Num (round2 m)
    ∧ categorize_go_platform (Num m) = Ok (Peak_GO_Num row, Peak_GO_Category row)
    ∧ categorize_inform (Num m) = Ok (Peak_INFORM_Category row).
Proof.
  intros Hms H. apply process_record_inv in H
    as (ys & avg & pk & _ & _ & Hmax & _ & _ & Hround & _ & _ & Hgo & Hinf).
  pose proof (monthly_scores_not_None record) as Hnone.
  rewrite Hms in Hmax, Hnone |- *.
  apply Forall_cons in Hnone as [Hx Hrest].
  rewrite py_max_cons in Hmax.
  destruct (max_from_Num rest q0 Hrest) as (m & Hm & Hin & Hle & Hall).
  rewrite Hm in Hmax. injection Hmax as <-.
  rewrite py_round_2 in Hround. injection Hround as <-.
  exists m. split_and!; try done.
  - destruct Hin as [->|Hin]; [left | by right].
  - intros q [[= ->]|Hq]%elem_of_cons; [done | by apply Hall].
Qed.

(** January's score is NaN when the record's January is, and a number
    otherwise. *)
Lemma january_score (record : record) :
  ∃ rest,
    (fields record !! "january" = Some NaN
     ∧ monthly_scores_of record = NaN :: rest)
    ∨ (fields record !! "january" ≠ Some NaN
       ∧ ∃ q0, monthly_scores_of record = Num q0 :: rest).
Proof.
  destruct (monthly_scores_january record) as [rest Hms]. exists rest.
  rewrite Hms. unfold py_or, dict_get.
  destruct (fields record !! "january") as [[| |q]|]; cbn;
    [right; split; [done | by eexists]
    |left; done
    |right; split; [done | destruct (Qeq_bool q 0); by eexists]
    |right; split; [done | by eexists]].
Qed.

(** X6: when the record's January is not NaN, the peak month score is the
    largest of the monthly scores that are numbers, rounded to two decimals,
    and the peak categories are those of that largest score; a NaN in a
    later month is passed over. *)
Theorem peak_is_largest_month (record : record) (row : processed_row) :
  fields record !! "january" ≠ Some NaN →
  process_record record = Ok row →
  ∃ m,
    Num m ∈ monthly_scores_of record
    ∧ (∀ q, Num q ∈ monthly_scores_of record → q <= m)
    ∧ Peak_Month_Score row = Num (round2 m)
    ∧ categorize_go_platform (Num m) = Ok (Peak_GO_Num row, Peak_GO_Category row)
    ∧ categorize_inform (Num m) = Ok (Peak_INFORM_Category row).
Proof.
  intros Hjan H.
  destruct (january_score record) as [rest [[Hnan _]|[_ [q0 Hms]]]]; [done|].
  by eapply peak_from_january.
Qed.

(** A record whose January is NaN and whose March is 7. *)
Definition chad_nan_january : record := {|
  country_details := {| name := "Chad"; iso3 := "tcd" |};
  hazard_type_display := "Drought";
  fields := <["january" := NaN]> (<["march" := Num 7]> ∅);
|}.

(** A record whose February is NaN and whose March is 7. *)
Definition chad_nan_february : record := {|
  country_details := {| name := "Chad"; iso3 := "tcd" |};
  hazard_type_display := "Drought";
  fields := <["february" := NaN]> (<["march" := Num 7]> ∅);
|}.

Lemma peak_is_largest_month_witness :
  ∃ row m,
    process_record chad_nan_february = Ok row
    ∧ Num m ∈ monthly_scores_of chad_nan_february
    ∧ (∀ q, Num q ∈ monthly_scores_of chad_nan_february → q <= m)
    ∧ Peak_Month_Score row = Num (round2 m)
    ∧ categorize_go_platform (Num m) = Ok (Peak_GO_Num row, Peak_GO_Category row)
    ∧ categorize_inform (Num m) = Ok (Peak_INFORM_Category row).
Proof.
  destruct (is_Ok_returns (process_record chad_nan_february)) as [row Hrow];
    [vm_compute; reflexivity|].
  destruct (peak_is_largest_month chad_nan_february row) as (m & H);
    [vm_compute; discriminate | exact Hrow |].
  by exists row, m.
Defined.

(** X7: when the record's January is NaN, the peak month score is NaN and
    the peak categories are 'No Data', whatever the other months hold. *)
Theorem nan_january_hides_peak (record : record) (row : processed_row) :
  fields record !! "january" = Some NaN →
  process_record record = Ok row →
  Peak_Month_Score row = NaN
  ∧ Peak_GO_Num row = 0%Z
  ∧ Peak_GO_Category row = "No Data"
  ∧ Peak_INFORM_Category row = "No Data".
Proof.
  intros Hjan H. apply process_record_inv in H
    as (ys & avg & pk & _ & _ & Hmax & _ & _ & Hround & _ & _ & Hgo & Hinf).
  pose proof (monthly_scores_not_None record) as Hnone.
  destruct (monthly_scores_january record) as [rest Hms].
  rewrite Hms in Hmax, Hnone.
  apply Forall_cons in Hnone as [_ Hrest].
  unfold dict_get in Hmax. rewrite Hjan in Hmax.
  change (py_or NaN (Num 0)) with NaN in Hmax.
  rewrite py_max_cons, (max_from_NaN rest Hrest) in Hmax.
  injection Hmax as <-. injection Hround as <-.
  injection Hgo as <- <-. by injection Hinf as <-.
Qed.

Lemma nan_january_hides_peak_witness :
  ∃ row,
    process_record chad_nan_january = Ok row
    ∧ Peak_Month_Score row = NaN
    ∧ Peak_GO_Num row = 0%Z
    ∧ Peak_GO_Category row = "No Data"
    ∧ Peak_INFORM_Category row = "No Data".
Proof.
  destruct (is_Ok_returns (process_record chad_nan_january)) as [row Hrow];
    [vm_compute; reflexivity|].
  exists row. split; [exact Hrow|].
  apply (nan_january_hides_peak chad_nan_january row);
    [vm_compute; reflexivity | exact Hrow].
Defined.

(** The peak of Chad's record with a NaN February is March's 7. *)
Example nan_february_is_skipped :
  ∃ row, process_record chad_nan_february = Ok row
         ∧ Peak_Month_Score row = Num 7.00
         ∧ Peak_GO_Category row = "Very High"
         ∧ Yearly_Average row = NaN ∧ GO_Category row = "No Data".
Proof. eexists. split; [vm_compute; reflexivity|]. by vm_compute. Qed.

(** *** The monthly mean and the peak *)






(** With a [yearly_sum] of its own a record can show an average tier above
    its peak tier: the API's sum need not be the sum of the months. *)
Example api_sum_overrides_months :
  ∃ row, process_record kenya_drought = Ok row
         ∧ Yearly_Sum row = Num 23.97
         ∧ Peak_Month_Score row = Num 4.10.
Proof. eexists. split; [vm_compute; reflexivity|]. by vm_compute. Qed.

(** ** Filter and fetch *)

Lemma filter_by_hazard_type_run (results : list record)
    (hazard_types : list string) (w : world) :
  filter_by_hazard_type results (Some hazard_types) w =
  let kept :=
    filter (λ r, hazard_type_display r ∈ hazard_types) results in
  (Ok kept,
   {| remote := remote w; requests := requests w;
      stdout := stdout w ++ [PrintFiltered hazard_types (length kept)] |}).
Proof. reflexivity. Qed.

(** X9: with an explicit list of hazard types the filter returns, in order,
    the records whose hazard type is in the list, prints one line with the
    list and their number, and sends no request; filtering its result again
    changes nothing; an explicit empty list selects no record, only None
    selects the default list. *)
Theorem filter_by_hazard_type_explicit (results : list record)
    (hazard_types : list string) (w : world) :
  let out := filter_by_hazard_type results (Some hazard_types) w in
  ∃ kept,
    out.1 = Ok kept
    ∧ (∀ r, r ∈ kept ↔ r ∈ results ∧ hazard_type_display r ∈ hazard_types)
    ∧ kept `sublist_of` results
    ∧ stdout out.2 = stdout w ++ [PrintFiltered hazard_types (length kept)]
    ∧ requests out.2 = requests w
    ∧ (filter_by_hazard_type kept (Some hazard_types) out.2).1 = Ok kept
    ∧ (filter_by_hazard_type results (Some []) w).1 = Ok []
    ∧ (filter_by_hazard_type results None w).1
      = (filter_by_hazard_type results (Some INCLUDED_HAZARDS) w).1.
Proof.
  cbv zeta. rewrite filter_by_hazard_type_run. cbv zeta. cbn [fst snd].
  eexists. split; [reflexivity|]. split_and!.
  - intros r. rewrite list_elem_of_filter. tauto.
  - apply sublist_filter.
  - reflexivity.
  - reflexivity.
  - rewrite filter_by_hazard_type_run. cbn. f_equal.
    apply list_filter_filter_l. tauto.
  - rewrite filter_by_hazard_type_run. cbn. f_equal.
    apply filter_none. intros r _ Hr. by apply elem_of_nil in Hr.
  - reflexivity.
Qed.

(** What a call of [fetch_risk_scores] returns or raises and what it
    prints, by the answer of the server. *)
Definition fetch_outcome (answer : result response) (url : string)
    : result (list record) * list output :=
  match answer with
  | Raise e => (Raise e, [PrintFetching url])
  | Ok resp =>
      if bool_decide (status_code resp = 200%Z) then
        match json resp with
        | None => (Raise JSONDecodeError, [PrintFetching url])
        | Some (None, _) => (Raise (KeyError "count"), [PrintFetching url])
        | Some (Some count, None) =>
            (Raise (KeyError "results"),
             [PrintFetching url; PrintFetched count])
        | Some (Some count, Some rs) =>
            (Ok rs, [PrintFetching url; PrintFetched count])
        end
      else (Raise (ApiRequestFailed (status_code resp)), [PrintFetching url])
  end.

Lemma fetch_risk_scores_run (region limit : Z) (w : world) :
  let url := risk_score_url region limit in
  fetch_risk_scores region limit w =
  ((fetch_outcome (remote w url) url).1,
   {| remote := remote w; requests := requests w ++ [url];
      stdout := stdout w ++ (fetch_outcome (remote w url) url).2 |}).
Proof.
  cbv zeta.
  unfold fetch_risk_scores, requests_get, print, modify, raise, lift,
    mbind, py_bind, fetch_outcome.
  cbn -[risk_score_url].
  destruct (remote w (risk_score_url region limit)) as [resp|e];
    cbn -[risk_score_url]; [|done].
  destruct (decide (status_code resp = 200%Z)) as [Hok|Hbad].
  - rewrite (bool_decide_eq_false_2 (status_code resp ≠ 200%Z)) by tauto.
    rewrite (bool_decide_eq_true_2 _ Hok).
    destruct (json resp) as [[[count|] [rs|]]|]; cbn -[risk_score_url];
      by rewrite <- ?app_assoc.
  - rewrite (bool_decide_eq_true_2 (status_code resp ≠ 200%Z)) by done.
    by rewrite (bool_decide_eq_false_2 _ Hbad).
Qed.

(** *** Both regions *)

(** What [fetch_risk_scores] alone would return or raise for a region, on
    the server of the session. *)
Definition lone_fetch (s : session) (region : Z) : result (list record) :=
  (fetch_risk_scores region default_limit
     {| remote := net s; requests := sent s; stdout := [] |}).1.

Lemma call_fetch_risk_scores (region : Z) (s : session) :
  let url := risk_score_url region default_limit in
  call (fetch_risk_scores region default_limit) s =
  (lone_fetch s region,
   {| net := net s; sent := sent s ++ [url];
      lines := lines s ++ (FromCallee <$> (fetch_outcome (net s url) url).2) |}).
Proof.
  cbv zeta. unfold call, lone_fetch. by rewrite fetch_risk_scores_run.
Qed.

Lemma lone_fetch_net (s s' : session) (region : Z) :
  net s = net s' → lone_fetch s region = lone_fetch s' region.
Proof.
  intros Hnet. unfold lone_fetch. rewrite !fetch_risk_scores_run.
  cbn. by rewrite Hnet.
Qed.

Lemma py_bind_run {S A B} (m : Py S A) (f : A → Py S B) (s : S) :
  (m ≫= f) s =
  match m s with
  | (Ok a, s') => f a s'
  | (Raise e, s') => (Raise e, s')
  end.
Proof. reflexivity. Qed.

(** The requests and the outcome of [fetch_all_africa_data]. *)
Lemma fetch_all_africa_data_run (s : session) :
  let url0 := risk_score_url 0 default_limit in
  let url4 := risk_score_url 4 default_limit in
  let out := fetch_all_africa_data s in
  net out.2 = net s
  ∧ match lone_fetch s 0 with
    | Raise e => out.1 = Raise e ∧ sent out.2 = sent s ++ [url0]
    | Ok sub =>
        sent out.2 = sent s ++ [url0; url4]
        ∧ out.1 =
          north ← lone_fetch s 4;
          mret (sub ++ filter (λ r, name (country_details r)
                                    ∈ NORTH_AFRICA_COUNTRIES) north)
    end.
Proof.
  cbv zeta. unfold fetch_all_africa_data, say, modify.
  rewrite !py_bind_run, !call_fetch_risk_scores. cbv zeta.
  cbn [net sent lines]. rewrite (lone_fetch_net _ s 0) by done.
  destruct (lone_fetch s 0) as [sub|e]; [|by cbn].
  rewrite !py_bind_run, !call_fetch_risk_scores. cbv zeta.
  cbn [net sent lines]. rewrite (lone_fetch_net _ s 4) by done.
  rewrite <- app_assoc.
  destruct (lone_fetch s 4) as [north|e]; by cbn.
Qed.

(** X11: [fetch_all_africa_data] asks for region 0 first and for region 4
    only once region 0 has been fetched; when either fetch raises, the call
    raises the same exception and returns nothing, not even the records of
    region 0 when it is region 4 that fails. *)
Theorem fetch_all_africa_data_requests (s : session) :
  let url0 := risk_score_url 0 default_limit in
  let url4 := risk_score_url 4 default_limit in
  let out := fetch_all_africa_data s in
  (∀ e, lone_fetch s 0 = Raise e →
     out.1 = Raise e ∧ sent out.2 = sent s ++ [url0])
  ∧ (∀ sub e, lone_fetch s 0 = Ok sub → lone_fetch s 4 = Raise e →
       out.1 = Raise e ∧ sent out.2 = sent s ++ [url0; url4])
  ∧ (∀ sub north, lone_fetch s 0 = Ok sub → lone_fetch s 4 = Ok north →
       is_Ok out.1 = true ∧ sent out.2 = sent s ++ [url0; url4]).
Proof.
  cbv zeta. destruct (fetch_all_africa_data_run s) as [_ Hrun].
  cbv zeta in Hrun. split_and!.
  - intros e He. by rewrite He in Hrun.
  - intros sub e Hsub He. rewrite Hsub, He in Hrun.
    destruct Hrun as [-> ->]. done.
  - intros sub north Hsub Hnorth. rewrite Hsub, Hnorth in Hrun.
    destruct Hrun as [-> ->]. done.
Qed.

(** X12: when both fetches return, the result is the records of region 0,
    all of them and in their order, followed by the records of region 4
    whose country is Morocco, Tunisia, Algeria, Libya or Egypt, in their
    order; the records of region 0 are not filtered by country. *)
Theorem fetch_all_africa_data_result (s : session)
    (sub north : list record) :
  lone_fetch s 0 = Ok sub →
  lone_fetch s 4 = Ok north →
  ∃ kept,
    (fetch_all_africa_data s).1 = Ok (sub ++ kept)
    ∧ kept `sublist_of` north
    ∧ ∀ r, r ∈ kept ↔
        r ∈ north
        ∧ name (country_details r)
          ∈ ["Morocco"; "Tunisia"; "Algeria"; "Libya"; "Egypt"].
Proof.
  intros Hsub Hnorth. destruct (fetch_all_africa_data_run s) as [_ Hrun].
  cbv zeta in Hrun. rewrite Hsub, Hnorth in Hrun. destruct Hrun as [_ ->].
  eexists. split; [reflexivity|]. split; [apply sublist_filter|].
  intros r. rewrite list_elem_of_filter. unfold NORTH_AFRICA_COUNTRIES. tauto.
Qed.

(** A server with one record of Chad in region 0 and, in region 4, one of
    Egypt and one of Sudan. *)
Definition egypt_flood : record := {|
  country_details := {| name := "Egypt"; iso3 := "egy" |};
  hazard_type_display := "Flood";
  fields := ∅;
|}.

Definition sudan_flood : record := {|
  country_details := {| name := "Sudan"; iso3 := "sdn" |};
  hazard_type_display := "Flood";
  fields := ∅;
|}.

Definition two_regions : session := {|
  net := λ url,
    if String.eqb url (risk_score_url 4 default_limit)
    then Ok {| status_code := 200;
               json := Some (Some 2%Z, Some [egypt_flood; sudan_flood]) |}
    else Ok {| status_code := 200;
               json := Some (Some 1%Z, Some [chad_flood]) |};
  sent := [];
  lines := [];
|}.

(** A server on which region 0 is fetched and region 4 fails. *)
Definition north_fails : session := {|
  net := λ url,
    if String.eqb url (risk_score_url 4 default_limit)
    then Ok {| status_code := 500; json := None |}
    else Ok {| status_code := 200;
               json := Some (Some 1%Z, Some [chad_flood]) |};
  sent := [];
  lines := [];
|}.

Lemma fetch_all_africa_data_requests_witness :
  (fetch_all_africa_data north_fails).1 = Raise (ApiRequestFailed 500)
  ∧ sent (fetch_all_africa_data north_fails).2
    = sent north_fails
      ++ [risk_score_url 0 default_limit; risk_score_url 4 default_limit].
Proof.
  apply (fetch_all_africa_data_requests north_fails) with (sub := [chad_flood]);
    vm_compute; reflexivity.
Defined.

Lemma fetch_all_africa_data_result_witness :
  ∃ kept,
    (fetch_all_africa_data two_regions).1 = Ok ([chad_flood] ++ kept)
    ∧ kept `sublist_of` [egypt_flood; sudan_flood]
    ∧ ∀ r, r ∈ kept ↔
        r ∈ [egypt_flood; sudan_flood]
        ∧ name (country_details r)
          ∈ ["Morocco"; "Tunisia"; "Algeria"; "Libya"; "Egypt"].
Proof.
  apply (fetch_all_africa_data_result two_regions); vm_compute; reflexivity.
Defined.

Example two_regions_result :
  (fetch_all_africa_data two_regions).1 = Ok [chad_flood; egypt_flood].
Proof. vm_compute. reflexivity. Qed.

(** ** More on the country summary *)

(** The columns of the summary. *)
Definition summary_columns : gset string :=
  list_to_set
    ["Country"; "ISO3"; "Population_Thousands"; "LCC"; "Vulnerability";
     "Drought_Sum"; "Drought_Avg"; "Drought_Peak"; "Drought_GO_Num";
     "Drought_GO_Cat"; "Drought_INFORM";
     "Flood_Sum"; "Flood_Avg"; "Flood_Peak"; "Flood_GO_Num";
     "Flood_GO_Cat"; "Flood_INFORM";
     "Wildfire_Sum"; "Wildfire_Avg"; "Wildfire_Peak"; "Wildfire_GO_Num";
     "Wildfire_GO_Cat"; "Wildfire_INFORM";
     "Overall_Avg"; "Overall_GO_Num"; "Overall_GO_Cat"; "Overall_INFORM"].

Lemma dom_add_hazard (country_data : list processed_row)
    (row : gmap string cell) (hazard : string) :
  dom (add_hazard country_data row hazard) =
  {[hazard +:+ "_INFORM"; hazard +:+ "_GO_Cat"; hazard +:+ "_GO_Num";
    hazard +:+ "_Peak"; hazard +:+ "_Avg"; hazard +:+ "_Sum"]} ∪ dom row.
Proof.
  unfold add_hazard. destruct (filter _ country_data);
    rewrite !dom_insert_L; apply set_eq; intros key;
    rewrite !elem_of_union, !elem_of_singleton; tauto.
Qed.

Lemma summary_row_columns (table : list processed_row) (country : string)
    (row : gmap string cell) :
  summary_row table country = Ok row → dom row = summary_columns.
Proof.
  unfold summary_row.
  destruct (filter (λ r, Country r = country) table) as [|first rest];
    [done|].
  run_binds. intros H. invert_binds H. injection H as <-.
  cbn [foldl INCLUDED_HAZARDS].
  rewrite !dom_insert_L, !dom_add_hazard, !dom_insert_L, dom_empty_L.
  vm_compute String.append. unfold summary_columns. cbn [list_to_set].
  set_solver.
Qed.

(** X13: every row of the summary has the same 27 columns, whatever the
    country lacks; among them are the five columns that
    [load_and_normalize_data] reads from the summary sheet. *)
Theorem summary_rows_have_all_columns (table : list processed_row)
    (rows : list (gmap string cell)) :
  (create_summary_by_country table).1 = Ok rows →
  Forall (λ row, dom row = summary_columns) rows
  ∧ {["Population_Thousands"; "Drought_Avg"; "Flood_Avg"; "Overall_Avg";
      "ISO3"]} ⊆ summary_columns
  ∧ size summary_columns = 27%nat.
Proof.
  rewrite create_summary_by_country_eq. cbn [fst]. intros H.
  apply mapM_Ok_Forall2 in H. split_and!.
  - induction H as [|c row ? ? Hrow _ IH]; constructor; [|done].
    by eapply summary_row_columns.
  - apply (bool_decide_unpack _). by vm_compute.
  - by vm_compute.
Qed.

Lemma summary_rows_have_all_columns_witness :
  ∃ rows,
    (create_summary_by_country sample_table).1 = Ok rows
    ∧ Forall (λ row, dom row = summary_columns) rows.
Proof.
  destruct (is_Ok_returns (create_summary_by_country sample_table).1)
    as [rows Hrows]; [vm_compute; reflexivity|].
  exists rows. split; [exact Hrows|].
  apply (summary_rows_have_all_columns sample_table rows Hrows).
Defined.

(** [first] is the first record of [country] for [hazard] in [table]. *)
Definition first_hazard_record (table : list processed_row)
    (country hazard : string) (first : processed_row) : Prop :=
  ∃ before after,
    table = before ++ first :: after
    ∧ Country first = country ∧ Hazard_Type first = hazard
    ∧ Forall (λ r, ¬ (Country r = country ∧ Hazard_Type r = hazard)) before.

Lemma filter_first {A} (P : A → Prop) `{!∀ x, Decision (P x)}
    (before after : list A) (first : A) :
  Forall (λ x, ¬ P x) before → P first →
  filter P (before ++ first :: after) = first :: filter P after.
Proof.
  intros Hbefore Hfirst. rewrite filter_app, filter_cons_True by done.
  rewrite (filter_none P before); [done|].
  intros x Hx. by apply (proj1 (Forall_forall _ _) Hbefore).
Qed.

(** What the hazard cells of a row hold when the country has a record for
    the hazard. *)
Definition hazard_cells_rule (table : list processed_row) (country : string)
    (row : gmap string cell) : Prop :=
  ∀ hazard first,
    hazard ∈ ["Drought"; "Flood"; "Wildfire"] →
    first_hazard_record table country hazard first →
    row !! (hazard +:+ "_Sum") = Some (CNum (Yearly_Sum first))
    ∧ row !! (hazard +:+ "_Avg") = Some (CNum (Yearly_Average first))
    ∧ row !! (hazard +:+ "_Peak") = Some (CNum (Peak_Month_Score first))
    ∧ row !! (hazard +:+ "_GO_Num") = Some (CInt (GO_Category_Num first))
    ∧ row !! (hazard +:+ "_GO_Cat") = Some (CStr (GO_Category first))
    ∧ row !! (hazard +:+ "_INFORM") = Some (CStr (INFORM_Category first)).

Lemma summary_row_hazard_cells (table : list processed_row)
    (country : string) (row : gmap string cell) :
  summary_row_ok table country row → hazard_cells_rule table country row.
Proof.
  intros (first0 & rest & Hcd & _ & _ & _ & _ & _ & Hcells & _).
  intros hazard first Hh (before & after & -> & Hc & Hhz & Hbefore).
  specialize (Hcells hazard Hh). rewrite <- Hcd in Hcells.
  rewrite list_filter_filter in Hcells.
  rewrite (filter_first _ before after first) in Hcells; [done| |done].
  eapply Forall_impl; [exact Hbefore|]. intros r Hr [? ?]. by apply Hr.
Qed.

(** X14: when a country has records for a hazard, the six cells of the
    hazard in its summary row are those of the first such record of the
    table; later records of the same country and hazard are not used. *)
Theorem summary_uses_first_hazard_record (table : list processed_row)
    (rows : list (gmap string cell)) :
  (create_summary_by_country table).1 = Ok rows →
  Forall2 (hazard_cells_rule table) (summary_countries table) rows.
Proof.
  intros H. apply create_summary_rows in H.
  eapply Forall2_impl; [exact H|]. apply summary_row_hazard_cells.
Qed.

Lemma summary_uses_first_hazard_record_witness :
  ∃ rows,
    (create_summary_by_country sample_table).1 = Ok rows
    ∧ Forall2 (hazard_cells_rule sample_table)
        (summary_countries sample_table) rows.
Proof.
  destruct (is_Ok_returns (create_summary_by_country sample_table).1)
    as [rows Hrows]; [vm_compute; reflexivity|].
  exists rows. split; [exact Hrows|].
  exact (summary_uses_first_hazard_record sample_table rows Hrows).
Defined.

(** What the overall cells of a row hold. *)
Definition overall_cells_rule (row : gmap string cell) : Prop :=
  ∃ n t shown n' t',
    row !! "Overall_GO_Num" = Some (CInt n)
    ∧ row !! "Overall_GO_Cat" = Some (CStr t)
    ∧ row !! "Overall_INFORM" = Some (CStr t)
    ∧ row !! "Overall_Avg" = Some (CNum shown)
    ∧ categorize_go_platform shown = Ok (n', t')
    ∧ (n <= n' <= n + 1)%Z.

Lemma summary_row_overall_cells (table : list processed_row)
    (country : string) (row : gmap string cell) :
  summary_row_ok table country row → overall_cells_rule row.
Proof.
  intros (first & rest & _ & _ & _ & _ & _ & _ & _ & Hoverall).
  destruct Hoverall as (total & avg & o & go & inform & _ & Hdiv & Hround
                          & Hgo & Hinform & Ho & Hn & Hcat & Hinf).
  destruct (categorize_returns avg) as (n & t & Hgo' & Hinform').
  rewrite Hgo' in Hgo. injection Hgo as <-.
  rewrite Hinform' in Hinform. injection Hinform as <-.
  destruct (categorize_returns o) as (n' & t' & Ho' & _).
  assert (n <= n' <= n + 1)%Z as Hrange.
  { destruct avg as [| |x].
    - by destruct total.
    - injection Hround as <-. injection Hgo' as <- _.
      injection Ho' as <- _. lia.
    - rewrite py_round_2 in Hround. injection Hround as <-.
      by eapply tier_after_rounding. }
  by exists n, t, o, n', t'.
Qed.

(** X15: in every summary row Overall_GO_Cat and Overall_INFORM hold the
    same name, and the GO number of the Overall_Avg the row shows is
    Overall_GO_Num or the next number: the overall classification is made
    before the average is rounded. *)
Theorem overall_categories_agree (table : list processed_row)
    (rows : list (gmap string cell)) :
  (create_summary_by_country table).1 = Ok rows →
  Forall overall_cells_rule rows.
Proof.
  intros H. apply create_summary_rows in H.
  induction H as [|c row ? ? Hrow _ IH]; constructor; [|done].
  by eapply summary_row_overall_cells.
Qed.

Lemma overall_categories_agree_witness :
  ∃ rows,
    (create_summary_by_country sample_table).1 = Ok rows
    ∧ Forall overall_cells_rule rows.
Proof.
  destruct (is_Ok_returns (create_summary_by_country sample_table).1)
    as [rows Hrows]; [vm_compute; reflexivity|].
  exists rows. split; [exact Hrows|].
  exact (overall_categories_agree sample_table rows Hrows).
Defined.

(** What the row of a country holds when none of its records has an
    included hazard. *)
Definition no_hazard_rule (table : list processed_row) (country : string)
    (row : gmap string cell) : Prop :=
  (∀ r, r ∈ table → Country r = country →
        Hazard_Type r ∉ ["Drought"; "Flood"; "Wildfire"]) →
  row !! "Drought_INFORM" = Some (CStr "No Data")
  ∧ row !! "Flood_INFORM" = Some (CStr "No Data")
  ∧ row !! "Wildfire_INFORM" = Some (CStr "No Data")
  ∧ row !! "Overall_Avg" = Some (CNum (Num (0 # 100)))
  ∧ row !! "Overall_GO_Num" = Some (CInt 1)
  ∧ row !! "Overall_GO_Cat" = Some (CStr "Very Low")
  ∧ row !! "Overall_INFORM" = Some (CStr "Very Low").

Lemma summary_row_no_hazard (table : list processed_row) (country : string)
    (row : gmap string cell) :
  summary_row_ok table country row → no_hazard_rule table country row.
Proof.
  intros (first & rest & Hcd & _ & _ & _ & _ & _ & Hcells & Hoverall) Hnone.
  rewrite <- Hcd in Hcells, Hoverall.
  set (cd := filter (λ r, Country r = country) table) in *.
  assert (∀ h, h ∈ INCLUDED_HAZARDS →
            filter (λ r, Hazard_Type r = h) cd = []) as Hempty.
  { intros h Hh. apply filter_none.
    intros r [Hc Hr]%list_elem_of_filter Hhz.
    apply (Hnone r Hr Hc). by rewrite Hhz. }
  assert (∀ h, h ∈ INCLUDED_HAZARDS → hazard_avg cd h = Num 0) as Havg.
  { intros h Hh. unfold hazard_avg. by rewrite (Hempty h Hh). }
  destruct Hoverall as (total & avg & o & go & inform & Hsum & Hdiv & Hround
                          & Hgo & Hinform & Ho & Hn & Hcat & Hinf).
  cbn [fmap list_fmap INCLUDED_HAZARDS] in Hsum.
  rewrite !Havg in Hsum by (unfold INCLUDED_HAZARDS; repeat constructor).
  vm_compute in Hsum. injection Hsum as <-.
  vm_compute in Hdiv. injection Hdiv as <-.
  vm_compute in Hround. injection Hround as <-.
  vm_compute in Hgo. injection Hgo as <-.
  vm_compute in Hinform. injection Hinform as <-.
  split_and!; try done.
  - pose proof (Hcells "Drought" ltac:(repeat constructor)) as H.
    rewrite Hempty in H by repeat constructor. apply H.
  - pose proof (Hcells "Flood" ltac:(repeat constructor)) as H.
    rewrite Hempty in H by repeat constructor. apply H.
  - pose proof (Hcells "Wildfire" ltac:(repeat constructor)) as H.
    rewrite Hempty in H by repeat constructor. apply H.
Qed.

(** X16: a country none of whose records is a Drought, Flood or Wildfire
    record still gets a row; the row says 'No Data' for each hazard, but its
    overall average is 0 and its overall category is 'Very Low' with number
    1, not 'No Data'. *)
Theorem no_hazard_country_is_very_low (table : list processed_row)
    (rows : list (gmap string cell)) :
  (create_summary_by_country table).1 = Ok rows →
  Forall2 (no_hazard_rule table) (summary_countries table) rows.
Proof.
  intros H. apply create_summary_rows in H.
  eapply Forall2_impl; [exact H|]. apply summary_row_no_hazard.
Qed.

(** A table with one Cyclone row. *)
Definition cyclone_table : list processed_row :=
  [sample_row "Comoros" "COM" "Cyclone" 84 870].

Lemma no_hazard_country_is_very_low_witness :
  ∃ rows,
    (create_summary_by_country cyclone_table).1 = Ok rows
    ∧ Forall2 (no_hazard_rule cyclone_table)
        (summary_countries cyclone_table) rows.
Proof.
  destruct (is_Ok_returns (create_summary_by_country cyclone_table).1)
    as [rows Hrows]; [vm_compute; reflexivity|].
  exists rows. split; [exact Hrows|].
  exact (no_hazard_country_is_very_low cyclone_table rows Hrows).
Defined.

Example comoros_is_very_low :
  summary_countries cyclone_table = ["Comoros"]
  ∧ summary_cell cyclone_table 0 "Overall_GO_Cat" = Some (CStr "Very Low")
  ∧ summary_cell cyclone_table 0 "Drought_GO_Cat" = Some (CStr "No Data").
Proof. by vm_compute. Qed.

(** ** From records to the summary *)

Lemma processed_countries (arg : list record) (rows : list processed_row) :
  mapM process_record arg = Ok rows →
  Country <$> rows = (λ r, name (country_details r)) <$> arg.
Proof.
  intros H. apply mapM_Ok_Forall2 in H.
  induction H as [|r row ? ? Hrow _ IH]; [done|]. cbn. rewrite IH. f_equal.
  by destruct (process_record_row_of_record r row Hrow) as (_ & -> & _).
Qed.

(** X17: a table that [process_risk_data] returned for at least one record
    is always summarised: [create_summary_by_country] does not raise on it,
    and the summary has one row for each country name of the records, in
    ascending order.  (Of no record at all pandas makes a table without
    columns, which the summary cannot read; the table type here does not
    tell that table from an empty one with columns.) *)
Theorem processed_table_is_summarised (arg : list record)
    (rows : list processed_row) :
  arg ≠ [] →
  (process_risk_data arg).1 = Ok rows →
  ∃ summary,
    (create_summary_by_country rows).1 = Ok summary
    ∧ Forall2 (λ country row, row !! "Country" = Some (CStr country))
        (sorted (unique ((λ r, name (country_details r)) <$> arg))) summary.
Proof.
  intros _. rewrite process_risk_data_eq. cbn [fst]. intros H.
  destruct (create_summary_by_country_returns rows) as [summary Hsummary].
  { apply mapM_Ok_Forall2 in H.
    induction H as [|r row ? ? Hrow _ IH]; constructor; [|done].
    by apply (process_record_average_not_None r). }
  exists summary. split; [done|].
  rewrite <- (processed_countries arg rows H).
  apply create_summary_rows in Hsummary.
  eapply Forall2_impl; [exact Hsummary|].
  by intros country row (first & rest & _ & ? & _).
Qed.

Lemma processed_table_is_summarised_witness :
  ∃ rows summary,
    (process_risk_data [kenya_drought; angola_flood]).1 = Ok rows
    ∧ (create_summary_by_country rows).1 = Ok summary
    ∧ Forall2 (λ country row, row !! "Country" = Some (CStr country))
        (sorted (unique ((λ r, name (country_details r))
                           <$> [kenya_drought; angola_flood]))) summary.
Proof.
  destruct (is_Ok_returns (process_risk_data [kenya_drought; angola_flood]).1)
    as [rows Hrows]; [vm_compute; reflexivity|].
  destruct (processed_table_is_summarised [kenya_drought; angola_flood] rows)
    as (summary & H); [discriminate | exact Hrows |].
  by exists rows, summary.
Defined.

(** ** More on the population normalisation *)

(** The table [load_and_normalize_data] returns, from the columns of the
    sheet. *)
Lemma load_and_normalize_data_inv (sheet out : gmap string column) :
  load_and_normalize_data sheet = Ok out →
  ∃ pops droughts floods overalls iso3,
    sheet !! "Population_Thousands" = Some (NumCol pops)
    ∧ sheet !! "Drought_Avg" = Some (NumCol droughts)
    ∧ sheet !! "Flood_Avg" = Some (NumCol floods)
    ∧ sheet !! "Overall_Avg" = Some (NumCol overalls)
    ∧ sheet !! "ISO3" = Some iso3
    ∧ out =
      getitem_mask
        (<["Overall_Norm" :=
             NumCol (np_round 4 <$> zip_with PrimFloat.div overalls
                                      (PrimFloat.sqrt <$> pops))]>
         (<["Flood_Norm" :=
              NumCol (np_round 4 <$> zip_with PrimFloat.div floods
                                       (PrimFloat.sqrt <$> pops))]>
          (<["Drought_Norm" :=
               NumCol (np_round 4 <$> zip_with PrimFloat.div droughts
                                        (PrimFloat.sqrt <$> pops))]>
           (<["Pop_Sqrt" := NumCol (PrimFloat.sqrt <$> pops)]> sheet))))
        (zip_with andb (notna iso3) (col_ne iso3 "")).
Proof.
  unfold load_and_normalize_data. intros H. invert_binds H.
  injection H as <-.
  repeat match goal with H : getitem _ _ = Ok _ |- _ =>
    apply getitem_Ok in H end.
  repeat match goal with H : add_norm _ _ _ = Ok _ |- _ =>
    apply add_norm_Ok in H as (? & ? & ? & ? & ->) end.
  repeat match goal with
  | H : <[_ := _]> _ !! _ = Some _ |- _ =>
      first [ rewrite lookup_insert_eq in H
            | rewrite lookup_insert_ne in H by done ]
  end.
  match goal with H : np_sqrt ?c = Ok _ |- _ =>
    destruct c as [pops|]; [|done]; injection H as <- end.
  simplify_eq. by do 5 eexists.
Qed.

(** X18: [load_and_normalize_data] returns a table exactly when the sheet
    has float columns Population_Thousands, Drought_Avg, Flood_Avg and
    Overall_Avg and a column ISO3; without a Population_Thousands column it
    raises KeyError for that name, and with one that is not a float column
    it raises TypeError. *)
Theorem load_and_normalize_data_needs (sheet : gmap string column) :
  (is_Ok (load_and_normalize_data sheet) = true ↔
     ∃ pops droughts floods overalls iso3,
       sheet !! "Population_Thousands" = Some (NumCol pops)
       ∧ sheet !! "Drought_Avg" = Some (NumCol droughts)
       ∧ sheet !! "Flood_Avg" = Some (NumCol floods)
       ∧ sheet !! "Overall_Avg" = Some (NumCol overalls)
       ∧ sheet !! "ISO3" = Some iso3)
  ∧ (sheet !! "Population_Thousands" = None →
     load_and_normalize_data sheet = Raise (KeyError "Population_Thousands"))
  ∧ (∀ xs, sheet !! "Population_Thousands" = Some (ObjCol xs) →
     load_and_normalize_data sheet = Raise TypeError).
Proof.
  split_and!.
  - split.
    + intros [out Hout]%is_Ok_returns.
      apply load_and_normalize_data_inv in Hout
        as (pops & ds & fs & os & iso3 & ? & ? & ? & ? & ? & _).
      by exists pops, ds, fs, os, iso3.
    + intros (pops & ds & fs & os & iso3 & Hp & Hd & Hf & Ho & Hi).
      destruct (load_and_normalize_data_returns sheet pops ds fs os iso3)
        as [out ->]; done.
  - intros Hp. unfold load_and_normalize_data, getitem. by rewrite Hp.
  - intros xs Hp. unfold load_and_normalize_data, getitem. by rewrite Hp.
Qed.

Lemma load_and_normalize_data_needs_witness :
  load_and_normalize_data (delete "Population_Thousands" sample_sheet)
  = Raise (KeyError "Population_Thousands").
Proof.
  apply (load_and_normalize_data_needs
           (delete "Population_Thousands" sample_sheet)).
  vm_compute. reflexivity.
Defined.

(** X19: the table returned has the columns of the sheet and the four
    columns Pop_Sqrt, Drought_Norm, Flood_Norm and Overall_Norm, and no
    other: no normalised Wildfire column is made. *)
Theorem normalized_columns (sheet out : gmap string column) :
  load_and_normalize_data sheet = Ok out →
  dom out =
    {["Pop_Sqrt"; "Drought_Norm"; "Flood_Norm"; "Overall_Norm"]} ∪ dom sheet
  ∧ ("Wildfire_Norm" ∈ dom out → "Wildfire_Norm" ∈ dom sheet).
Proof.
  intros H. apply load_and_normalize_data_inv in H
    as (pops & ds & fs & os & iso3 & _ & _ & _ & _ & _ & ->).
  assert (dom (getitem_mask
                 (<["Overall_Norm" := NumCol (np_round 4 <$>
                      zip_with PrimFloat.div os (PrimFloat.sqrt <$> pops))]>
                  (<["Flood_Norm" := NumCol (np_round 4 <$>
                       zip_with PrimFloat.div fs (PrimFloat.sqrt <$> pops))]>
                   (<["Drought_Norm" := NumCol (np_round 4 <$>
                        zip_with PrimFloat.div ds (PrimFloat.sqrt <$> pops))]>
                    (<["Pop_Sqrt" := NumCol (PrimFloat.sqrt <$> pops)]> sheet))))
                 (zip_with andb (notna iso3) (col_ne iso3 "")))
          = {["Pop_Sqrt"; "Drought_Norm"; "Flood_Norm"; "Overall_Norm"]}
            ∪ dom sheet) as Hdom.
  { unfold getitem_mask. rewrite dom_fmap_L, !dom_insert_L.
    apply set_eq. intros key.
    rewrite !elem_of_union, !elem_of_singleton. tauto. }
  split; [exact Hdom|]. rewrite Hdom.
  rewrite !elem_of_union, !elem_of_singleton.
  intros [[[[?|?]|?]|?]|?]; done.
Qed.

Lemma normalized_columns_witness :
  ∃ out,
    load_and_normalize_data sample_sheet = Ok out
    ∧ dom out =
        {["Pop_Sqrt"; "Drought_Norm"; "Flood_Norm"; "Overall_Norm"]}
        ∪ dom sample_sheet.
Proof.
  destruct (is_Ok_returns (load_and_normalize_data sample_sheet))
    as [out Hout]; [vm_compute; reflexivity|].
  exists out. split; [exact Hout|].
  apply (normalized_columns sample_sheet out Hout).
Defined.

(** The rows of the table returned, from the rows of the sheet. *)
Lemma normalized_rows (sheet out : gmap string column) (n : nat)
    (iso3 : column) (i j : nat) (p d f o : float) :
  table_rows n sheet →
  load_and_normalize_data sheet = Ok out →
  sheet !! "ISO3" = Some iso3 →
  filter (λ i, iso3_present iso3 i = true) (seq 0 n) !! j = Some i →
  row_at sheet i !! "Population_Thousands" = Some (XNum p) →
  row_at sheet i !! "Drought_Avg" = Some (XNum d) →
  row_at sheet i !! "Flood_Avg" = Some (XNum f) →
  row_at sheet i !! "Overall_Avg" = Some (XNum o) →
  row_at out j = normalized_row (row_at sheet i) p d f o.
Proof.
  intros Hrows Hout Hiso3 Hj Hp Hd Hf Ho.
  apply load_and_normalize_data_inv in Hout
    as (pops & ds & fs & os & iso3' & Hps & Hds & Hfs & Hos & Hiso3' & ->).
  rewrite Hiso3 in Hiso3'. injection Hiso3' as <-.
  pose proof (Hrows _ _ Hps) as Hnp. pose proof (Hrows _ _ Hds) as Hnd.
  pose proof (Hrows _ _ Hfs) as Hnf. pose proof (Hrows _ _ Hos) as Hno.
  pose proof (Hrows _ _ Hiso3) as Hni.
  cbn [col_length] in Hnp, Hnd, Hnf, Hno.
  unfold row_at in Hp, Hd, Hf, Ho. rewrite lookup_omap in Hp, Hd, Hf, Ho.
  rewrite Hps in Hp. rewrite Hds in Hd. rewrite Hfs in Hf. rewrite Hos in Ho.
  cbn [mbind option_bind col_cell] in Hp, Hd, Hf, Ho.
  apply fmap_Some in Hp as (p' & Hp & [= ->]).
  apply fmap_Some in Hd as (d' & Hd & [= ->]).
  apply fmap_Some in Hf as (f' & Hf & [= ->]).
  apply fmap_Some in Ho as (o' & Ho & [= ->]).
  set (mask := zip_with andb (notna iso3) (col_ne iso3 "")).
  assert (length mask = n) as Hmask
    by (unfold mask; by rewrite length_iso3_mask).
  assert (filter (λ i, iso3_present iso3 i = true) (seq 0 n) = nonzero mask)
    as Hkept by (unfold mask; by rewrite nonzero_iso3_mask, Hni).
  rewrite Hkept in Hj.
  set (viz_df := <["Overall_Norm" := _]> _).
  assert (table_rows (length mask) viz_df) as Hviz.
  { rewrite Hmask. unfold viz_df.
    repeat (apply table_rows_insert; [try by apply norm_length|]);
      [cbn; by rewrite length_fmap | done]. }
  rewrite (row_at_getitem_mask _ _ i j) by done.
  unfold viz_df, normalized_row.
  rewrite (row_at_insert _ _ _ i _ (norm_cell _ _ i _ _ Ho Hp)).
  rewrite (row_at_insert _ _ _ i _ (norm_cell _ _ i _ _ Hf Hp)).
  rewrite (row_at_insert _ _ _ i _ (norm_cell _ _ i _ _ Hd Hp)).
  do 3 f_equal. apply row_at_insert. cbn.
  by rewrite list_lookup_fmap, Hp.
Qed.

(** Dividing a positive number by the square root of 0 gives the positive
    infinity, which rounding leaves as it is. *)
Lemma norm_of_zero_population (x : float) :
  PrimFloat.ltb 0 x = true →
  np_round 4 (PrimFloat.div x (PrimFloat.sqrt 0)) = PrimFloat.infinity.
Proof.
  intros H. rewrite ltb_spec in H.
  assert (PrimFloat.div x (PrimFloat.sqrt 0) = PrimFloat.infinity) as ->;
    [|vm_compute; reflexivity].
  rewrite <- (SF2Prim_Prim2SF (PrimFloat.div x (PrimFloat.sqrt 0))).
  rewrite div_spec.
  change (Prim2SF (PrimFloat.sqrt 0)) with (S754_zero false).
  change (Prim2SF 0) with (S754_zero false) in H.
  destruct (Prim2SF x) as [s|s| |s m e]; try discriminate H;
    destruct s; try discriminate H; reflexivity.
Qed.

(** X20: a population of 0 raises nothing.  In a row that is kept and whose
    Population_Thousands is 0, the three normalised scores are the positive
    infinity where the average is above 0 and NaN where the average is 0. *)
Theorem zero_population_scores (sheet out : gmap string column) (n : nat)
    (iso3 : column) (i j : nat) (d f o : float) :
  table_rows n sheet →
  load_and_normalize_data sheet = Ok out →
  sheet !! "ISO3" = Some iso3 →
  filter (λ i, iso3_present iso3 i = true) (seq 0 n) !! j = Some i →
  row_at sheet i !! "Population_Thousands" = Some (XNum 0) →
  row_at sheet i !! "Drought_Avg" = Some (XNum d) →
  row_at sheet i !! "Flood_Avg" = Some (XNum f) →
  row_at sheet i !! "Overall_Avg" = Some (XNum o) →
  ∀ avg norm x,
    (avg, norm, x) ∈ [("Drought_Avg", "Drought_Norm", d);
                      ("Flood_Avg", "Flood_Norm", f);
                      ("Overall_Avg", "Overall_Norm", o)] →
    (PrimFloat.ltb 0 x = true →
     row_at out j !! norm = Some (XNum PrimFloat.infinity))
    ∧ (x = 0%float → row_at out j !! norm = Some (XNum PrimFloat.nan)).
Proof.
  intros Hrows Hout Hiso3 Hj Hp Hd Hf Ho avg norm x Hin.
  rewrite (normalized_rows sheet out n iso3 i j 0 d f o) by done.
  unfold normalized_row.
  apply elem_of_cons in Hin as [[= -> -> ->]|Hin];
    [|apply elem_of_cons in Hin as [[= -> -> ->]|Hin];
      [|apply list_elem_of_singleton in Hin as [= -> -> ->]]];
    repeat (rewrite lookup_insert_ne by done); rewrite lookup_insert_eq;
    (split; [intros Hx; by rewrite norm_of_zero_population
            | intros ->; vm_compute; reflexivity]).
Qed.

(** A sheet of two rows; the second has a population of 0. *)
Definition zero_population_sheet : gmap string column :=
  <["Country" := ObjCol [XStr "Angola"; XStr "Atlantis"] ]>
  (<["ISO3" := ObjCol [XStr "AGO"; XStr "ATL"] ]>
  (<["Population_Thousands" := NumCol [32866; 0]%float ]>
  (<["Drought_Avg" := NumCol [4; 2]%float ]>
  (<["Flood_Avg" := NumCol [3; 0]%float ]>
  (<["Overall_Avg" := NumCol [4; 1]%float ]> ∅))))).

Lemma zero_population_sheet_rows : table_rows 2 zero_population_sheet.
Proof.
  intros key c. unfold zero_population_sheet.
  repeat (rewrite lookup_insert; case_decide; [by intros [= <-]|]).
  by rewrite lookup_empty.
Qed.

Lemma zero_population_scores_witness :
  ∃ out,
    load_and_normalize_data zero_population_sheet = Ok out
    ∧ row_at out 1 !! "Drought_Norm" = Some (XNum PrimFloat.infinity)
    ∧ row_at out 1 !! "Flood_Norm" = Some (XNum PrimFloat.nan).
Proof.
  destruct (is_Ok_returns (load_and_normalize_data zero_population_sheet))
    as [out Hout]; [vm_compute; reflexivity|].
  exists out. split; [exact Hout|].
  assert (zero_population_sheet !! "ISO3"
          = Some (ObjCol [XStr "AGO"; XStr "ATL"])) as Hiso3
    by (vm_compute; reflexivity).
  pose proof (zero_population_scores zero_population_sheet out 2 _ 1 1 2 0 1
                zero_population_sheet_rows Hout Hiso3
                ltac:(vm_compute; reflexivity) ltac:(vm_compute; reflexivity)
                ltac:(vm_compute; reflexivity) ltac:(vm_compute; reflexivity)
                ltac:(vm_compute; reflexivity))
    as H.
  split.
  - apply (H "Drought_Avg" "Drought_Norm" 2%float);
      [apply list_elem_of_here | vm_compute; reflexivity].
  - apply (H "Flood_Avg" "Flood_Norm" 0%float);
      [apply list_elem_of_further, list_elem_of_here | reflexivity].
Defined.

(** ** The workbook *)

(** The workbook the function hands to the writer. *)
Lemma export_to_excel_run (detailed_df : list processed_row)
    (summary_df : list (gmap string cell)) (output_path : string) (d : desk) :
  export_to_excel detailed_df summary_df output_path d =
  let book :=
    [("Country_Summary", SummaryRows summary_df);
     ("Detailed_Monthly", DetailedRows detailed_df);
     ("Drought", DetailedRows (hazard_df detailed_df "Drought"));
     ("Flood", DetailedRows (hazard_df detailed_df "Flood"));
     ("Wildfire", DetailedRows (hazard_df detailed_df "Wildfire"));
     ("Classification_Reference", Columns classification_data);
     ("Methodology", Columns methodology_data)] in
  match failure d output_path book with
  | None =>
      (Ok tt, {| files := <[output_path := book]> (files d);
                 notices := notices d ++ [PrintSaved output_path];
                 failure := failure d |})
  | Some (e, remains) =>
      (Raise e,
       {| files := match remains with
                   | Some left_there => <[output_path := left_there]> (files d)
                   | None => delete output_path (files d)
                   end;
          notices := notices d; failure := failure d |})
  end.
Proof.
  unfold export_to_excel, save, mbind, py_bind, modify. cbv zeta.
  cbn [foldl INCLUDED_HAZARDS to_excel app].
  by destruct (failure d output_path _) as [[e remains]|].
Qed.

(** Rows of the three included hazards fall into the three hazard tables. *)
Lemma hazard_df_partition (detailed_df : list processed_row) :
  Forall (λ row, Hazard_Type row ∈ INCLUDED_HAZARDS) detailed_df →
  detailed_df ≡ₚ hazard_df detailed_df "Drought"
                 ++ hazard_df detailed_df "Flood"
                 ++ hazard_df detailed_df "Wildfire".
Proof.
  unfold hazard_df.
  induction 1 as [|row rows Hrow _ IH]; [done|].
  rewrite !filter_cons.
  unfold INCLUDED_HAZARDS in Hrow.
  apply elem_of_cons in Hrow as [Hrow|Hrow];
    [|apply elem_of_cons in Hrow as [Hrow|Hrow];
      [|apply list_elem_of_singleton in Hrow]];
    rewrite Hrow; repeat case_decide; try done.
  - cbn. by f_equiv.
  - rewrite <- app_comm_cons, <- Permutation_middle. by f_equiv.
  - rewrite app_assoc, <- Permutation_middle, <- app_assoc. by f_equiv.
Qed.

(** The rows made from filtered records have an included hazard type. *)
Lemma filtered_rows_included (data filtered : list record) (w : world)
    (rows : list processed_row) :
  (filter_by_hazard_type data None w).1 = Ok filtered →
  (process_risk_data filtered).1 = Ok rows →
  Forall (λ row, Hazard_Type row ∈ INCLUDED_HAZARDS) rows.
Proof.
  intros [= <-]. rewrite process_risk_data_eq. cbn [fst]. intros H.
  apply mapM_Ok_Forall2 in H. apply Forall_forall. intros row Hrow.
  apply list_elem_of_lookup in Hrow as [k Hk].
  destruct (Forall2_lookup_r _ _ _ _ _ H Hk) as (r & Hr & Hrow).
  apply process_record_row_of_record in Hrow
    as (_ & _ & _ & _ & _ & -> & _).
  apply list_elem_of_lookup_2 in Hr.
  by apply list_elem_of_filter in Hr as [? _].
Qed.

(** X21: [export_to_excel] hands the writer one workbook of seven sheets;
    the sheets Drought, Flood and Wildfire hold, in the order of the
    detailed table, its rows of that hazard type.  When the detailed table
    is what [process_risk_data] made of the records [filter_by_hazard_type]
    kept by default, every detailed row is in exactly one of the three
    sheets: the detailed table is a rearrangement of the three put end to
    end.  When the write succeeds the call returns, the file at the output
    path holds that workbook and one line is printed; when it raises, the
    call raises the same exception and prints nothing.  No other file is
    touched.  (Of no row at all pandas makes a table without columns, which
    has no Hazard_Type to select on; at least one record is kept here.) *)
Theorem hazard_sheets_partition (data filtered : list record) (w : world)
    (rows : list processed_row) (summary_df : list (gmap string cell))
    (output_path : string) (d : desk) :
  (filter_by_hazard_type data None w).1 = Ok filtered →
  filtered ≠ [] →
  (process_risk_data filtered).1 = Ok rows →
  let out := export_to_excel rows summary_df output_path d in
  ∃ drought flood wildfire,
    let book :=
      [("Country_Summary", SummaryRows summary_df);
       ("Detailed_Monthly", DetailedRows rows);
       ("Drought", DetailedRows drought);
       ("Flood", DetailedRows flood);
       ("Wildfire", DetailedRows wildfire);
       ("Classification_Reference", Columns classification_data);
       ("Methodology", Columns methodology_data)] in
    drought `sublist_of` rows
    ∧ flood `sublist_of` rows
    ∧ wildfire `sublist_of` rows
    ∧ (∀ row, row ∈ drought ↔ row ∈ rows ∧ Hazard_Type row = "Drought")
    ∧ (∀ row, row ∈ flood ↔ row ∈ rows ∧ Hazard_Type row = "Flood")
    ∧ (∀ row, row ∈ wildfire ↔ row ∈ rows ∧ Hazard_Type row = "Wildfire")
    ∧ rows ≡ₚ drought ++ flood ++ wildfire
    ∧ (∀ path, path ≠ output_path → files out.2 !! path = files d !! path)
    ∧ match failure d output_path book with
      | None =>
          out.1 = Ok tt
          ∧ files out.2 !! output_path = Some book
          ∧ notices out.2 = notices d ++ [PrintSaved output_path]
      | Some (e, _) => out.1 = Raise e ∧ notices out.2 = notices d
      end.
Proof.
  intros Hfiltered _ Hrows. cbv zeta. rewrite export_to_excel_run. cbv zeta.
  exists (hazard_df rows "Drought"), (hazard_df rows "Flood"),
         (hazard_df rows "Wildfire").
  split_and!.
  - apply sublist_filter.
  - apply sublist_filter.
  - apply sublist_filter.
  - intros row. unfold hazard_df. rewrite list_elem_of_filter. tauto.
  - intros row. unfold hazard_df. rewrite list_elem_of_filter. tauto.
  - intros row. unfold hazard_df. rewrite list_elem_of_filter. tauto.
  - apply hazard_df_partition.
    by apply (filtered_rows_included data filtered w).
  - intros path Hpath.
    destruct (failure d output_path _) as [[e [remains|]]|];
      cbn [snd files].
    + by apply lookup_insert_ne.
    + by apply lookup_delete_ne.
    + by apply lookup_insert_ne.
  - destruct (failure d output_path _) as [[e remains]|];
      cbn [fst snd files notices]; [done|].
    split_and!; [done | apply lookup_insert_eq | done].
Qed.

(** A desk where every write succeeds, and one where none does. *)
Definition empty_desk : desk :=
  {| files := ∅; notices := []; failure := λ _ _, None |}.

Definition locked_desk : desk :=
  {| files := ∅; notices := []; failure := λ _ _, Some (OSError, None) |}.

Lemma hazard_sheets_partition_witness :
  ∃ rows drought flood wildfire,
    (process_risk_data [angola_flood; kenya_drought]).1 = Ok rows
    ∧ files (export_to_excel rows [] "out.xlsx" empty_desk).2 !! "out.xlsx" =
        Some [("Country_Summary", SummaryRows []);
              ("Detailed_Monthly", DetailedRows rows);
              ("Drought", DetailedRows drought);
              ("Flood", DetailedRows flood);
              ("Wildfire", DetailedRows wildfire);
              ("Classification_Reference", Columns classification_data);
              ("Methodology", Columns methodology_data)]
    ∧ rows ≡ₚ drought ++ flood ++ wildfire.
Proof.
  destruct (is_Ok_returns
              (process_risk_data [angola_flood; kenya_drought]).1)
    as [rows Hrows]; [vm_compute; reflexivity|].
  destruct (hazard_sheets_partition
              [angola_flood; chad_cyclone; kenya_drought]
              [angola_flood; kenya_drought] world_unavailable rows []
              "out.xlsx" empty_desk)
    as (drought & flood & wildfire & _ & _ & _ & _ & _ & _ & Hperm & _
        & _ & Hbook & _).
  - reflexivity.
  - done.
  - exact Hrows.
  - exists rows, drought, flood, wildfire. by split_and!.
Defined.

(** When the file cannot be written the call raises and prints nothing. *)
Example export_to_a_locked_desk :
  (export_to_excel [] [] "out.xlsx" locked_desk).1 = Raise OSError
  ∧ notices (export_to_excel [] [] "out.xlsx" locked_desk).2 = [].
Proof. split; reflexivity. Qed.

(** * The yearly average in binary64 *)

Section binary64.

Import Binary64.

Variable sum : list value → result value.

Lemma binary64_process_step_eq (r : record) (f : prd_frame) :
  process_step sum r f =
  match process_record sum r with
  | Ok row => (Ok tt, {| results := results f;
                         processed_data := processed_data f ++ [row] |})
  | Raise e => (Raise e, f)
  end.
Proof.
  unfold process_step, mbind, py_bind, lift.
  by destruct (process_record sum r).
Qed.

Lemma binary64_process_loop (rs : list record) (f : prd_frame) :
  results (for_each rs (process_step sum) f).2 = results f
  ∧ match mapM (process_record sum) rs with
    | Ok rows =>
        for_each rs (process_step sum) f =
          (Ok tt, {| results := results f;
                     processed_data := processed_data f ++ rows |})
    | Raise e => (for_each rs (process_step sum) f).1 = Raise e
    end.
Proof.
  revert f. induction rs as [|r rs IH]; intros f.
  - cbn. split; [done|]. rewrite app_nil_r. by destruct f.
  - rewrite for_each_cons, binary64_process_step_eq. cbn [mapM].
    destruct (process_record sum r) as [row|e]; [|done].
    destruct (IH {| results := results f;
                    processed_data := processed_data f ++ [row] |})
      as [IHres IHout].
    split; [done|]. cbn [mbind result_bind].
    destruct (mapM (process_record sum) rs) as [rows|e]; [|done].
    rewrite IHout. cbn. by rewrite <- app_assoc.
Qed.

(** The call processes the records one by one, in order, and stops at the
    first that raises. *)
Lemma binary64_process_risk_data_eq (arg : list record) :
  process_risk_data sum arg = (mapM (process_record sum) arg, arg).
Proof.
  unfold process_risk_data, process_risk_data_body, mbind, py_bind, modify,
    gets.
  cbn [results processed_data fst snd].
  pose proof (binary64_process_loop arg
                {| results := arg; processed_data := [] |}) as [Hres Hout].
  cbn [results processed_data app] in Hres, Hout.
  destruct (mapM (process_record sum) arg) as [rows|e].
  - by rewrite Hout.
  - destruct (for_each arg _ _) as [[[]|e'] f']; cbn in *; congruence.
Qed.

(** ** The record's yearly sum *)

(** What the program reads under a monthly key: 0 when the key is absent or
    holds null or a zero, else the value it holds. *)
Inductive month_is (record : record) (month : string) : value → Prop :=
  | month_absent :
      fields record !! month = None → month_is record month (PyInt 0)
  | month_falsy v :
      fields record !! month = Some v → truthy v = false →
      month_is record month (PyInt 0)
  | month_given v :
      fields record !! month = Some v → truthy v = true →
      month_is record month v.

(** The record's yearly sum: what its key [yearly_sum] holds when it has the
    key, else the sum of what is read under the twelve monthly keys. *)
Inductive yearly_sum_is (record : record) : value → Prop :=
  | yearly_sum_given v :
      fields record !! "yearly_sum" = Some v → yearly_sum_is record v
  | yearly_sum_of_months scores s :
      fields record !! "yearly_sum" = None →
      Forall2 (month_is record)
        ["january"; "february"; "march"; "april"; "may"; "june"; "july";
         "august"; "september"; "october"; "november"; "december"] scores →
      sum scores = Ok s →
      yearly_sum_is record s.

(** Two values that are the same number, or both NaN: the int 0 and the
    floats 0.0 and -0.0 are the same number. *)
Definition same_number (x y : value) : Prop :=
  match number x, number y with
  | Ok (Some (Finite a)), Ok (Some (Finite b)) => a == b
  | Ok (Some MinusInfinity), Ok (Some MinusInfinity)
  | Ok (Some PlusInfinity), Ok (Some PlusInfinity)
  | Ok None, Ok None => True
  | _, _ => False
  end.

(** What C2 says of one record and the row made from it. *)
Definition yearly_average_rule (record : record) (row : processed_row)
    : Prop :=
  ∃ yearly_sum avg shown,
    yearly_sum_is record yearly_sum
    ∧ (∀ other, yearly_sum_is record other → other = yearly_sum)
    ∧ py_truediv yearly_sum (PyInt 12) = Ok avg
    ∧ py_round avg 2 = Ok shown
    ∧ same_number (Yearly_Average row) shown
    ∧ (truthy yearly_sum = true → Yearly_Average row = shown)
    ∧ categorize_go_platform avg = Ok (GO_Category_Num row, GO_Category row)
    ∧ categorize_inform avg = Ok (INFORM_Category row).

Lemma month_is_read (record : record) (month : string) :
  month_is record month
    (py_or (dict_get (fields record) month (PyInt 0)) (PyInt 0)).
Proof.
  unfold dict_get, py_or.
  destruct (fields record !! month) as [v|] eqn:Hv.
  - destruct (truthy v) eqn:Ht; [by eapply month_given | by eapply month_falsy].
  - by apply month_absent.
Qed.

Lemma month_is_functional (record : record) (month : string) (v w : value) :
  month_is record month v → month_is record month w → v = w.
Proof. destruct 1; destruct 1; congruence. Qed.

Lemma monthly_scores_are_read (record : record) :
  Forall2 (month_is record)
    ["january"; "february"; "march"; "april"; "may"; "june"; "july";
     "august"; "september"; "october"; "november"; "december"]
    (monthly_scores_of record).
Proof.
  unfold monthly_scores_of, months. cbn [fmap list_fmap].
  repeat (constructor; [apply month_is_read|]). constructor.
Qed.

Lemma yearly_sum_of_is (record : record) (yearly_sum : value) :
  yearly_sum_of sum record = Ok yearly_sum →
  yearly_sum_is record yearly_sum
  ∧ ∀ other, yearly_sum_is record other → other = yearly_sum.
Proof.
  unfold yearly_sum_of, dict_get. intros H. invert_binds H.
  destruct (fields record !! "yearly_sum") as [v|] eqn:Hv;
    injection H as <-.
  - split; [by apply yearly_sum_given|].
    intros other. destruct 1; congruence.
  - split.
    + eapply yearly_sum_of_months;
        [done | apply monthly_scores_are_read | done].
    + intros other. destruct 1 as [v Hv'|scores s _ Hscores Hs];
        [congruence|].
      assert (scores = monthly_scores_of record) as ->; [|congruence].
      eapply Forall2_unique;
        [exact Hscores | apply monthly_scores_are_read
        | apply month_is_functional].
Qed.

(** A float that equals 0.0 is one of the two zeros. *)
Lemma float_eqb_zero (x : float) :
  PrimFloat.eqb x 0 = true → x = 0%float ∨ x = (-0)%float.
Proof.
  intros H. rewrite FloatAxioms.eqb_spec in H.
  rewrite <- (SF2Prim_Prim2SF x).
  destruct (Prim2SF x) as [[]|[]| |[] m e]; try discriminate H;
    [by right | by left].
Qed.

Lemma falsy_number (v : value) (shown : value) :
  truthy v = false → py_round v 2 = Ok shown →
  v = PyInt 0 ∨ v = PyFloat 0 ∨ v = PyFloat (-0).
Proof.
  destruct v as [|z|x]; cbn [truthy]; [done| |].
  - intros Hz%negb_false_iff%Z.eqb_eq _. left. by subst.
  - intros Hx%negb_false_iff%float_eqb_zero _.
    destruct Hx as [->| ->]; auto.
Qed.

Lemma same_number_refl (v : value) : v ≠ PyNone → same_number v v.
Proof.
  unfold same_number. destruct v as [|z|x]; cbn [number]; intros Hv.
  - done.
  - apply Qeq_refl.
  - by destruct (real_of_float x) as [[]|].
Qed.

Lemma binary64_round_not_None (v shown : value) (ndigits : nat) :
  py_round v ndigits = Ok shown → shown ≠ PyNone.
Proof.
  unfold py_round. destruct v as [|z|x]; [done|by intros [= <-]|].
  destruct (Prim2SF x); cbv zeta; try by intros [= <-].
  match goal with |- context [is_infinity ?r] => destruct (is_infinity r) end;
    [done | by intros [= <-]].
Qed.

Lemma process_record_yearly_average (record : record)
    (row : processed_row) :
  process_record sum record = Ok row → yearly_average_rule record row.
Proof.
  unfold process_record. intros H. invert_binds H. injection H as <-.
  unfold yearly_average_rule.
  cbn [Yearly_Average GO_Category_Num GO_Category INFORM_Category].
  match goal with
  | Hs : yearly_sum_of sum record = Ok ?ys,
    Ha : yearly_avg_of ?ys = Ok ?ya,
    Hgo : categorize_go_platform ?ya = Ok ?go,
    Hinf : categorize_inform ?ya = Ok ?inf,
    Hrs : py_round ?ys 2 = Ok _,
    Hra : py_round ?ya 2 = Ok ?shown |- _ =>
      apply yearly_sum_of_is in Hs as [Hsum Hunique];
      unfold yearly_avg_of in Ha;
      destruct (truthy ys) eqn:Htruthy;
      [ exists ys, ya, shown; split_and!; try done;
        [ eapply same_number_refl, binary64_round_not_None, Hra
        | by destruct go ]
      | injection Ha as <-;
        vm_compute in Hgo; injection Hgo as <-;
        vm_compute in Hinf; injection Hinf as <-;
        vm_compute in Hra; injection Hra as <-;
        destruct (falsy_number ys _ Htruthy Hrs) as [->|[->| ->]] ]
  end.
  - exists (PyInt 0), (PyFloat 0), (PyFloat 0).
    split_and!; try done; vm_compute; reflexivity.
  - exists (PyFloat 0), (PyFloat 0), (PyFloat 0).
    split_and!; try done; vm_compute; reflexivity.
  - exists (PyFloat (-0)), (PyFloat (-0)), (PyFloat (-0)).
    split_and!; try done; vm_compute; reflexivity.
Qed.

(** C2: in every row [process_risk_data] returns, [Yearly_Average] is the
    record's yearly sum (its [yearly_sum], or the sum of what is read under
    its twelve monthly keys when it has none) divided by 12 and rounded to
    two decimals, in Python's float arithmetic, and both categories of the
    row are the classifications of that quotient before it is rounded.  For
    a yearly sum of zero the program takes the int 0 without dividing, which
    is the same number. *)
Theorem yearly_average_is_sum_over_12 (arg : list record)
    (rows : list processed_row) :
  (process_risk_data sum arg).1 = Ok rows →
  Forall2 yearly_average_rule arg rows.
Proof.
  rewrite binary64_process_risk_data_eq. cbn [fst]. intros H.
  apply mapM_Ok_Forall2 in H.
  eapply Forall2_impl; [exact H|]. apply process_record_yearly_average.
Qed.

(** ** A null yearly sum *)

Lemma mapM_raises {A B} (f : A → result B) (l : list A) :
  Exists (λ x, is_Ok (f x) = false) l → is_Ok (mapM f l) = false.
Proof.
  induction 1 as [x l Hx|x l _ IH]; cbn.
  - by destruct (f x).
  - destruct (f x); [|done]. run_binds. by destruct (mapM f l).
Qed.

(** A null [yearly_sum] is read as it is, not replaced by the sum of the
    months, and cannot be rounded. *)
Lemma process_record_null_yearly_sum (r : record) :
  fields r !! "yearly_sum" = Some PyNone →
  is_Ok (process_record sum r) = false.
Proof.
  intros Hnull. unfold process_record, yearly_sum_of, dict_get.
  rewrite Hnull.
  destruct (sum (monthly_scores_of r)); run_binds; [|reflexivity].
  change (py_round PyNone 2) with (@Raise value TypeError).
  repeat match goal with
  | |- is_Ok (mbind _ ?m) = false =>
      destruct m; run_binds; [|reflexivity]
  end.
  reflexivity.
Qed.

(** X4: when the key [yearly_sum] of some record holds null,
    [process_risk_data] raises and returns no row, whatever the other
    records are and whatever [sum] returns. *)
Theorem null_yearly_sum_raises (arg : list record) :
  Exists (λ r, fields r !! "yearly_sum" = Some PyNone) arg →
  ∃ e, (process_risk_data sum arg).1 = Raise e.
Proof.
  intros Hnull. rewrite binary64_process_risk_data_eq. cbn [fst].
  destruct (mapM (process_record sum) arg) as [rows|e] eqn:Hrows;
    [|by exists e].
  assert (is_Ok (mapM (process_record sum) arg) = false) as Hraises.
  { apply mapM_raises. eapply Exists_impl; [exact Hnull|].
    apply process_record_null_yearly_sum. }
  by rewrite Hrows in Hraises.
Qed.

End binary64.

Import Binary64.

(** Three API records.  The first has a yearly sum of 0.06, the second has
    none and 5 as the mean of its months, the third has a null one. *)
Definition mali_drought : record := {|
  country_details := {| name := "Mali"; iso3 := "mli" |};
  hazard_type_display := "Drought";
  fields := <["january" := PyFloat (6 / 100)]> (<["february" := PyNone]>
            (<["yearly_sum" := PyFloat (6 / 100)]> ∅));
|}.

Definition niger_flood : record := {|
  country_details := {| name := "Niger"; iso3 := "ner" |};
  hazard_type_display := "Flood";
  fields :=
    list_to_map
      (zip months
         (PyFloat <$> [33 / 10; 61 / 10; 46 / 10; 66 / 10; 82 / 10; 86 / 10;
                       48 / 10; 24 / 10; 28 / 10; 87 / 10; 38 / 10;
                       1 / 10]%float));
|}.

Definition chad_null : record := {|
  country_details := {| name := "Chad"; iso3 := "tcd" |};
  hazard_type_display := "Flood";
  fields := <["january" := PyInt 4]> (<["yearly_sum" := PyNone]> ∅);
|}.

Lemma yearly_average_is_sum_over_12_witness :
  ∃ rows,
    (process_risk_data sum_in_order [mali_drought; niger_flood]).1 = Ok rows
    ∧ Forall2 (yearly_average_rule sum_in_order)
        [mali_drought; niger_flood] rows.
Proof.
  destruct (is_Ok_returns
              (process_risk_data sum_in_order [mali_drought; niger_flood]).1)
    as [rows Hrows]; [vm_compute; reflexivity|].
  exists rows. split; [exact Hrows|].
  exact (yearly_average_is_sum_over_12 sum_in_order
           [mali_drought; niger_flood] rows Hrows).
Defined.

(** The quotient of 0.06 by 12 is a float just above 0.005, so the average
    is shown as 0.01. *)
Example mali_drought_row :
  ∃ row,
    process_record sum_in_order mali_drought = Ok row
    ∧ Yearly_Sum row = PyFloat (6 / 100)
    ∧ Yearly_Average row = PyFloat (1 / 100)
    ∧ GO_Category row = "Very Low".
Proof. eexists. split; [vm_compute; reflexivity|]. by vm_compute. Qed.

(** Added from the left, the months of the second record give a float just
    below 60: the average is shown as 5.0 and classified below 5. *)
Example niger_flood_row :
  ∃ row,
    process_record sum_in_order niger_flood = Ok row
    ∧ Yearly_Average row = PyFloat 5
    ∧ GO_Category row = "Medium"
    ∧ categorize_inform (PyFloat 5) = Ok "High".
Proof. eexists. split; [vm_compute; reflexivity|]. by vm_compute. Qed.

Lemma null_yearly_sum_raises_witness :
  ∃ e,
    (process_risk_data sum_in_order [mali_drought; chad_null]).1 = Raise e.
Proof.
  apply (null_yearly_sum_raises sum_in_order [mali_drought; chad_null]).
  apply Exists_cons_tl, Exists_cons_hd. vm_compute. reflexivity.
Defined.

(** There the exception is the TypeError of [round(None, 2)]. *)
Example chad_null_raises :
  (process_risk_data sum_in_order [mali_drought; chad_null]).1
  = Raise TypeError.
Proof. vm_compute. reflexivity. Qed.
